(** * Chat application: session manager, broadcast protocol and client reconnect

    A shallow embedding of

    - [backend/utils/websocket.js] (class [WebSocketManager]),
    - [backend/models/Message.js] (the Mongoose schema of stored messages),
    - the [ChatInterface] component printed in [README.md]
      ([connectWebSocket], its [ws.onclose] handler and the effect cleanup),

    followed by the properties of the specification, each stated on these
    definitions.

    Conventions of the embedding.

    - A JavaScript string is the list of its UTF-16 code units, so that
      [length] is JavaScript's [.length] and [trim] is
      [String.prototype.trim].
    - A [Date] is its number of milliseconds since the epoch.
    - A frame is taken at the types of the wire protocol: its [type],
      [username] and [message] fields are strings or are missing.
    - Every handler is a computation over the manager's two fields
      ([clients] and [messageHistory]) that also records, in program order,
      the effects it performs on sockets, on the store and on the two
      fields.  Module [WebSocketManager] has each handler as one
      computation, from its first statement to its last.  The two handlers
      that wait for the store ([await newMessage.save()],
      [await Message.find()...]) are suspended there while other signals
      are handled: module [Interleaved] cuts them at the [await] and runs
      the two halves apart, in any order of settling.
    - [console.log] and [console.error] are not modelled. *)

From Stdlib Require Import List ZArith NArith Bool Lia.
From Stdlib Require String Ascii.
Import String.StringSyntax.
Delimit Scope string_scope with jslit.
From Stdlib Require Import Sorting.Sorted Sorting.Permutation.
Import ListNotations.

Set Implicit Arguments.

(* ------------------------------------------------------------------ *)
(** ** JavaScript strings *)

Module JS.

Definition jsstring := list N.

(** A string literal of the source (ASCII only). *)
Definition lit (s : String.string) : jsstring :=
  List.map Ascii.N_of_ascii (String.list_ascii_of_string s).
Arguments lit s%_jslit.

(** ECMAScript [WhiteSpace] and [LineTerminator] code units, the ones
    [String.prototype.trim] strips. *)
Definition is_ws (c : N) : bool :=
  ((9 <=? c) && (c <=? 13) || (c =? 32) || (c =? 160) || (c =? 5760)
   || (8192 <=? c) && (c <=? 8202) || (c =? 8232) || (c =? 8233)
   || (c =? 8239) || (c =? 8287) || (c =? 12288) || (c =? 65279))%N.

Fixpoint trimStart (s : jsstring) : jsstring :=
  match s with
  | [] => []
  | c :: r => if is_ws c then trimStart r else s
  end.

Definition trimEnd (s : jsstring) : jsstring := rev (trimStart (rev s)).

Definition trim (s : jsstring) : jsstring := trimEnd (trimStart s).

(** [ToBoolean] of a field that is a string or [undefined]. *)
Definition truthy (v : option jsstring) : bool :=
  match v with
  | Some (_ :: _) => true
  | _ => false
  end.

(** [v || d] with [d] a string. *)
Definition or_else (v : option jsstring) (d : jsstring) : jsstring :=
  match v with
  | Some (c :: r) => c :: r
  | _ => d
  end.

(** [l.slice(-n)] for a positive [n]. *)
Definition slice_last {A} (n : nat) (l : list A) : list A :=
  skipn (length l - n) l.

Definition eqb (a b : jsstring) : bool :=
  if list_eq_dec N.eq_dec a b then true else false.

End JS.

Import JS.

(* ------------------------------------------------------------------ *)
(** ** Data of the server *)

(** The object [{username, message, timestamp}] built by
    [handleChatMessage]; a stored document is read through the same three
    fields. *)
Module ChatMessage.
Record t := {
  username : jsstring;
  message : jsstring;
  timestamp : Z
}.
End ChatMessage.
Abbreviation ChatMessage := ChatMessage.t.

(** A connection handle (the [ws] object, compared by identity). *)
Abbreviation Conn := nat (only parsing).

(** [clientInfo]; its [ws] field is the key it is stored under and its
    [id] field ([Date.now() + Math.random()]) is never read. *)
Record ClientInfo := {
  ci_username : jsstring;
  connectedAt : Z
}.

(** Events of the wire protocol, server to client. *)
Inductive ServerEvent :=
| EvConnection (text : jsstring)
| EvHistory (messages : list ChatMessage)
| EvMessage (u m : jsstring) (t : Z)
| EvSystem (text : jsstring) (t : Z)
| EvError (text : jsstring).

(** What a handler does, in program order. *)
Inductive Effect :=
| Send (to : Conn) (data : ServerEvent)  (* ws.send(JSON.stringify(data)) *)
| DbFind                                 (* Message.find().sort().limit().lean() *)
| DbSave (m : ChatMessage)               (* new Message(m).save() *)
| HistoryPush (m : ChatMessage)          (* this.messageHistory.push(m) *)
| ClientsDelete (ws : Conn).             (* this.clients.delete(ws) *)

(** The JavaScript [Map] held in [this.clients]: keys are unique and
    iteration follows insertion order. *)
Module JSMap.

Definition t := list (Conn * ClientInfo).

Fixpoint get (m : t) (k : Conn) : option ClientInfo :=
  match m with
  | [] => None
  | (k', v) :: r => if Nat.eqb k k' then Some v else get r k
  end.

(** [set] keeps the position of a key already present. *)
Fixpoint set (m : t) (k : Conn) (v : ClientInfo) : t :=
  match m with
  | [] => [(k, v)]
  | (k', v') :: r =>
      if Nat.eqb k k' then (k, v) :: r else (k', v') :: set r k v
  end.

Definition delete (m : t) (k : Conn) : t :=
  filter (fun kv => negb (Nat.eqb k (fst kv))) m.

Definition keys (m : t) : list Conn := List.map fst m.

End JSMap.

(** The two fields of [WebSocketManager]. *)
Record Server := {
  clients : JSMap.t;
  messageHistory : list ChatMessage
}.

(** What a handler reads from outside the manager while it runs. *)
Record Env := {
  now : Z;                                      (* new Date() *)
  dbConnected : bool;                           (* Database.isConnected() *)
  isOpen : Conn -> bool;                        (* ws.readyState === ws.OPEN *)
  save : ChatMessage -> option ChatMessage;     (* the document returned by
                                                   save(), None when it throws *)
  collection : list ChatMessage;                (* documents of the collection *)
  findFails : bool                              (* the query throws *)
}.

(* ------------------------------------------------------------------ *)
(** ** The store: [models/Message.js] and the query of [handleUserJoin] *)

Module Message.

(** [new Message(m)]: both string paths carry [trim: true]; [timestamp]
    is given by the caller, so its default is not used. *)
Definition cast (m : ChatMessage) : ChatMessage :=
  {| ChatMessage.username := trim (ChatMessage.username m);
     ChatMessage.message := trim (ChatMessage.message m);
     ChatMessage.timestamp := ChatMessage.timestamp m |}.

(** The validators run by [save()]: [required] and [maxlength] on
    [username] (50) and on [message] (1000). *)
Definition validate (d : ChatMessage) : bool :=
  negb (Nat.eqb (length (ChatMessage.username d)) 0)
  && Nat.leb (length (ChatMessage.username d)) 50
  && negb (Nat.eqb (length (ChatMessage.message d)) 0)
  && Nat.leb (length (ChatMessage.message d)) 1000.

(** [new Message(m).save()] against a store that accepts the write when
    [writeFails] is [false]. *)
Definition save_with (writeFails : bool) (m : ChatMessage)
  : option ChatMessage :=
  let d := cast m in
  if validate d && negb writeFails then Some d else None.

(** [.sort({ timestamp: -1 })]: newest first. *)
Fixpoint insert_desc (m : ChatMessage) (l : list ChatMessage)
  : list ChatMessage :=
  match l with
  | [] => [m]
  | x :: r =>
      if (ChatMessage.timestamp x <? ChatMessage.timestamp m)%Z then m :: l
      else x :: insert_desc m r
  end.

Definition sort_desc (l : list ChatMessage) : list ChatMessage :=
  fold_right insert_desc [] l.

(** [await Message.find().sort({ timestamp: -1 }).limit(n).lean()]. *)
Definition find_recent (n : nat) (e : Env) : option (list ChatMessage) :=
  if findFails e then None
  else Some (firstn n (sort_desc (collection e))).

End Message.

(* ------------------------------------------------------------------ *)
(** ** Handlers as computations *)

Definition M (A : Type) : Type := Env -> Server -> A * Server * list Effect.

Definition ret {A} (a : A) : M A := fun _ s => (a, s, []).

Definition bind {A B} (c : M A) (k : A -> M B) : M B :=
  fun e s =>
    let '(a, s1, t1) := c e s in
    let '(b, s2, t2) := k a e s1 in
    (b, s2, t1 ++ t2).

Declare Scope js_scope.
Delimit Scope js_scope with js.
Notation "x <- c ;; k" := (bind c (fun x => k))
  (at level 61, c at next level, right associativity) : js_scope.
Notation "c ;; k" := (bind c (fun _ => k))
  (at level 61, right associativity) : js_scope.
Open Scope js_scope.

Definition ask {A} (f : Env -> A) : M A := fun e s => (f e, s, []).
Definition get {A} (f : Server -> A) : M A := fun _ s => (f s, s, []).
Definition put (f : Server -> Server) : M unit := fun _ s => (tt, f s, []).
Definition emit (x : Effect) : M unit := fun _ s => (tt, s, [x]).

Definition state_of {A} (r : A * Server * list Effect) : Server :=
  snd (fst r).
Definition trace_of {A} (r : A * Server * list Effect) : list Effect :=
  snd r.

Fixpoint forEach {A} (l : list A) (f : A -> M unit) : M unit :=
  match l with
  | [] => ret tt
  | x :: r => f x ;; forEach r f
  end.

Definition clients_get (ws : Conn) : M (option ClientInfo) :=
  get (fun s => JSMap.get (clients s) ws).

Definition clients_set (ws : Conn) (ci : ClientInfo) : M unit :=
  put (fun s => {| clients := JSMap.set (clients s) ws ci;
                   messageHistory := messageHistory s |}).

Definition clients_delete (ws : Conn) : M unit :=
  put (fun s => {| clients := JSMap.delete (clients s) ws;
                   messageHistory := messageHistory s |}) ;;
  emit (ClientsDelete ws).

(** [this.messageHistory.push(m)] followed by the truncation
    [if (length > 100) this.messageHistory = this.messageHistory.slice(-100)]. *)
Definition history_push (m : ChatMessage) : M unit :=
  put (fun s => {| clients := clients s;
                   messageHistory := messageHistory s ++ [m] |}) ;;
  emit (HistoryPush m).

Definition history_truncate : M unit :=
  put (fun s => {| clients := clients s;
                   messageHistory :=
                     if Nat.ltb 100 (length (messageHistory s))
                     then slice_last 100 (messageHistory s)
                     else messageHistory s |}).

Module WebSocketManager.

Definition sendMessage (ws : Conn) (data : ServerEvent) : M unit :=
  o <- ask (fun e => isOpen e ws) ;;
  if o then emit (Send ws data) else ret tt.

Definition sendError (ws : Conn) (error : jsstring) : M unit :=
  sendMessage ws (EvError error).

(** [this.clients.forEach(...)]: an entry deleted by the callback is the
    one being visited, so the visit order is that of the entries present
    when the loop starts. *)
Definition broadcastMessage (messageData : ServerEvent) : M unit :=
  cs <- get clients ;;
  forEach cs (fun kv =>
    o <- ask (fun e => isOpen e (fst kv)) ;;
    if o then emit (Send (fst kv) messageData)
    else clients_delete (fst kv)).

Definition handleConnection (ws : Conn) : M unit :=
  t <- ask now ;;
  clients_set ws {| ci_username := lit "Anonymous"; connectedAt := t |} ;;
  sendMessage ws (EvConnection (lit "Connected to chat server")).

Definition handleUserJoin (ws : Conn) (username : option jsstring)
  : M unit :=
  c <- clients_get ws ;;
  match c with
  | None => ret tt
  | Some clientInfo =>
      let clientInfo :=
        {| ci_username := or_else username (lit "Anonymous");
           connectedAt := connectedAt clientInfo |} in
      clients_set ws clientInfo ;;
      connected <- ask dbConnected ;;
      history <-
        (if connected then
           emit DbFind ;;
           r <- ask (Message.find_recent 50) ;;
           match r with
           | Some recentMessages =>
               ret (List.map
                      (fun msg =>
                         {| ChatMessage.username := ChatMessage.username msg;
                            ChatMessage.message := ChatMessage.message msg;
                            ChatMessage.timestamp := ChatMessage.timestamp msg |})
                      (rev recentMessages))
           | None =>
               h <- get messageHistory ;; ret (slice_last 50 h)
           end
         else
           h <- get messageHistory ;; ret (slice_last 50 h)) ;;
      sendMessage ws (EvHistory history) ;;
      t <- ask now ;;
      broadcastMessage
        (EvSystem (ci_username clientInfo ++ lit " joined the chat") t)
  end.

Definition handleChatMessage (ws : Conn)
    (username message : option jsstring) : M unit :=
  c <- clients_get ws ;;
  match c, message with
  | None, _ => ret tt
  | Some _, None => sendError ws (lit "Message cannot be empty")
  | Some clientInfo, Some body =>
      if negb (truthy message) || Nat.eqb (length (trim body)) 0 then
        sendError ws (lit "Message cannot be empty")
      else if Nat.ltb 1000 (length body) then
        sendError ws (lit "Message too long (max 1000 characters)")
      else
        t <- ask now ;;
        let messageData :=
          {| ChatMessage.username :=
               or_else username (ci_username clientInfo);
             ChatMessage.message := trim body;
             ChatMessage.timestamp := t |} in
        connected <- ask dbConnected ;;
        savedMessage <-
          (if connected then
             emit (DbSave messageData) ;;
             r <- ask (fun e => save e messageData) ;;
             match r with
             | Some doc => ret doc
             | None => ret messageData
             end
           else ret messageData) ;;
        history_push messageData ;;
        history_truncate ;;
        broadcastMessage
          (EvMessage (ChatMessage.username savedMessage)
                     (ChatMessage.message savedMessage)
                     (ChatMessage.timestamp savedMessage))
  end.

Definition handleDisconnection (ws : Conn) : M unit :=
  clientInfo <- clients_get ws ;;
  let username :=
    or_else (option_map ci_username clientInfo) (lit "Anonymous") in
  clients_delete ws ;;
  t <- ask now ;;
  broadcastMessage (EvSystem (username ++ lit " left the chat") t).

(** The parsed frame [{ type, username, message }]. *)
Record Frame := {
  type : option jsstring;
  f_username : option jsstring;
  f_message : option jsstring
}.

Definition handleMessage (ws : Conn) (messageData : Frame) : M unit :=
  match type messageData with
  | Some ty =>
      if JS.eqb ty (lit "join") then
        handleUserJoin ws (f_username messageData)
      else if JS.eqb ty (lit "message") then
        handleChatMessage ws (f_username messageData)
                          (f_message messageData)
      else sendError ws (lit "Unknown message type")
  | None => sendError ws (lit "Unknown message type")
  end.

(** The listener [ws.on("message", ...)]: [None] is a payload that
    [JSON.parse] rejects, or parses to [null]. *)
Definition onMessage (ws : Conn) (data : option Frame) : M unit :=
  match data with
  | Some messageData => handleMessage ws messageData
  | None => sendError ws (lit "Invalid message format")
  end.

(** What the [ws] library signals to the manager. *)
Inductive Signal :=
| Connection (ws : Conn)
| Data (ws : Conn) (data : option Frame)
| Close (ws : Conn)
| Error (ws : Conn).

Definition handle (i : Signal) : M unit :=
  match i with
  | Connection ws => handleConnection ws
  | Data ws data => onMessage ws data
  | Close ws => handleDisconnection ws
  | Error ws => handleDisconnection ws
  end.

(** [new WebSocketManager()]. *)
Definition constructor : Server :=
  {| clients := []; messageHistory := [] |}.

(** A run in which no handler is suspended: every signal is handled, in
    the environment it arrives in, to the end of its handler before the
    next signal.  This is what the code does while the store is not
    connected (no [await] is reached) and whenever a save or a query
    settles before the next signal arrives; the other runs are those of
    module [Interleaved]. *)
Fixpoint run (l : list (Env * Signal)) (s : Server)
  : Server * list Effect :=
  match l with
  | [] => (s, [])
  | (e, i) :: r =>
      let '(_, s1, t1) := handle i e s in
      let '(s2, t2) := run r s1 in
      (s2, t1 ++ t2)
  end.

End WebSocketManager.

(* ------------------------------------------------------------------ *)
(** ** The client: reconnect bookkeeping of [ChatInterface] *)

(** The refs [reconnectAttempts] and [reconnectTimeoutRef] of the
    component, with the timers created by the [setTimeout] call of
    [ws.onclose] that have neither fired nor been cleared.  Refs are shared
    by all renders, so the handlers below read their current value.  The
    React state of the component ([isConnected], [isConnecting], [error],
    [messages]) plays no part in the scheduling and is left out, and with
    it the [setError] calls of the handlers. *)
Module ChatInterface.

Definition maxReconnectAttempts : nat := 5.

(** A timer handle; [setTimeout] returns a fresh positive one. *)
Abbreviation Timer := nat (only parsing).

Record Client := {
  reconnectAttempts : nat;
  reconnectTimeoutRef : option Timer;
  pendingTimers : list (Timer * Z);     (* handle, delay in ms *)
  nextTimer : Timer
}.

Inductive TimerCall :=
| SetTimeout (id : Timer) (delay : Z)
| ClearTimeout (id : Timer)
| ConnectWebSocket.

(** Initial refs: [useRef(0)] and [useRef(null)]. *)
Definition mount : Client :=
  {| reconnectAttempts := 0; reconnectTimeoutRef := None;
     pendingTimers := []; nextTimer := 1 |}.

Definition clearTimeout (id : Timer) (l : list (Timer * Z))
  : list (Timer * Z) :=
  filter (fun t => negb (Nat.eqb id (fst t))) l.

(** [ws.onopen]: [reconnectAttempts.current = 0]. *)
Definition onopen (c : Client) : Client * list TimerCall :=
  ({| reconnectAttempts := 0;
      reconnectTimeoutRef := reconnectTimeoutRef c;
      pendingTimers := pendingTimers c;
      nextTimer := nextTimer c |}, []).

(** [Math.min(1000 * Math.pow(2, attempts - 1), 10000)]. *)
Definition delay_of (attempts : nat) : Z :=
  Z.min (1000 * 2 ^ (Z.of_nat attempts - 1)) 10000.

(** [ws.onclose]. *)
Definition onclose (wasClean : bool) (c : Client)
  : Client * list TimerCall :=
  if negb wasClean
     && Nat.ltb (reconnectAttempts c) maxReconnectAttempts then
    let attempts := S (reconnectAttempts c) in
    let delay := delay_of attempts in
    let id := nextTimer c in
    ({| reconnectAttempts := attempts;
        reconnectTimeoutRef := Some id;
        pendingTimers := pendingTimers c ++ [(id, delay)];
        nextTimer := S id |},
     [SetTimeout id delay])
  else (c, []).

(** The callback of a reconnect timer runs: the timer is spent and
    [connectWebSocket()] is called.  A handle that is not pending does
    not fire. *)
Definition timer_fires (id : Timer) (c : Client)
  : Client * list TimerCall :=
  if existsb (fun t => Nat.eqb id (fst t)) (pendingTimers c) then
    ({| reconnectAttempts := reconnectAttempts c;
        reconnectTimeoutRef := reconnectTimeoutRef c;
        pendingTimers := clearTimeout id (pendingTimers c);
        nextTimer := nextTimer c |},
     [ConnectWebSocket])
  else (c, []).

(** The cleanup of the [useEffect] on [username]:
    [if (reconnectTimeoutRef.current) clearTimeout(reconnectTimeoutRef.current)]. *)
Definition cleanup (c : Client) : Client * list TimerCall :=
  match reconnectTimeoutRef c with
  | Some id =>
      ({| reconnectAttempts := reconnectAttempts c;
          reconnectTimeoutRef := reconnectTimeoutRef c;
          pendingTimers := clearTimeout id (pendingTimers c);
          nextTimer := nextTimer c |},
       [ClearTimeout id])
  | None => (c, [])
  end.

Inductive Event :=
| Open
| Closed (wasClean : bool)
| Fires (id : Timer)
| Cleanup.

Definition on (ev : Event) : Client -> Client * list TimerCall :=
  match ev with
  | Open => onopen
  | Closed wasClean => onclose wasClean
  | Fires id => timer_fires id
  | Cleanup => cleanup
  end.

Fixpoint run (l : list Event) (c : Client) : Client * list TimerCall :=
  match l with
  | [] => (c, [])
  | ev :: r =>
      let '(c1, t1) := on ev c in
      let '(c2, t2) := run r c1 in
      (c2, t1 ++ t2)
  end.

(** The delays of the timers a trace schedules, in order. *)
Fixpoint delays (t : list TimerCall) : list Z :=
  match t with
  | [] => []
  | SetTimeout _ d :: r => d :: delays r
  | _ :: r => delays r
  end.

End ChatInterface.

(* ------------------------------------------------------------------ *)
(** ** Reading a trace *)

Module Trace.

Import WebSocketManager.

(** The records pushed on the ring buffer, in order. *)
Fixpoint pushes (t : list Effect) : list ChatMessage :=
  match t with
  | [] => []
  | HistoryPush m :: r => m :: pushes r
  | _ :: r => pushes r
  end.

(** The records handed to the store, in order. *)
Fixpoint saves (t : list Effect) : list ChatMessage :=
  match t with
  | [] => []
  | DbSave m :: r => m :: saves r
  | _ :: r => saves r
  end.

(** The [message] events sent, with their receiver, in order. *)
Fixpoint message_events (t : list Effect) : list (Conn * ChatMessage) :=
  match t with
  | [] => []
  | Send to (EvMessage u m ts) :: r =>
      (to, {| ChatMessage.username := u; ChatMessage.message := m;
              ChatMessage.timestamp := ts |}) :: message_events r
  | _ :: r => message_events r
  end.

(** The [history] events sent, with their receiver, in order. *)
Fixpoint history_events (t : list Effect)
  : list (Conn * list ChatMessage) :=
  match t with
  | [] => []
  | Send to (EvHistory h) :: r => (to, h) :: history_events r
  | _ :: r => history_events r
  end.

(** The [system] events sent, with their receiver, in order. *)
Fixpoint system_events (t : list Effect) : list (Conn * jsstring) :=
  match t with
  | [] => []
  | Send to (EvSystem text _) :: r => (to, text) :: system_events r
  | _ :: r => system_events r
  end.

(** Position of the first effect satisfying [p]. *)
Fixpoint index_of (p : Effect -> bool) (t : list Effect) : option nat :=
  match t with
  | [] => None
  | x :: r => if p x then Some 0 else option_map S (index_of p r)
  end.

Definition is_push (x : Effect) : bool :=
  match x with HistoryPush _ => true | _ => false end.

Definition is_save (x : Effect) : bool :=
  match x with DbSave _ => true | _ => false end.

(** What one pass of [broadcastMessage] over the entries [cs] does. *)
Definition broadcast (e : Env) (data : ServerEvent) (cs : JSMap.t)
  : list Effect :=
  List.map (fun kv => if isOpen e (fst kv) then Send (fst kv) data
                      else ClientsDelete (fst kv)) cs.

(** The entries a pass of [broadcastMessage] leaves in the registry. *)
Definition prune (e : Env) (cs : JSMap.t) : JSMap.t :=
  filter (fun kv => isOpen e (fst kv)) cs.

(** The object [messageData] of [handleChatMessage]. *)
Definition messageData (e : Env) (clientInfo : ClientInfo)
    (username : option jsstring) (body : jsstring) : ChatMessage :=
  {| ChatMessage.username := or_else username (ci_username clientInfo);
     ChatMessage.message := trim body;
     ChatMessage.timestamp := now e |}.

(** The value of [savedMessage] when the broadcast is built. *)
Definition savedMessage (e : Env) (m : ChatMessage) : ChatMessage :=
  if dbConnected e then
    match save e m with Some doc => doc | None => m end
  else m.

Definition as_event (m : ChatMessage) : ServerEvent :=
  EvMessage (ChatMessage.username m) (ChatMessage.message m)
            (ChatMessage.timestamp m).

(** The ring buffer after a push and the truncation that follows it. *)
Definition pushed (h : list ChatMessage) (m : ChatMessage)
  : list ChatMessage :=
  if Nat.ltb 100 (length (h ++ [m])) then slice_last 100 (h ++ [m])
  else h ++ [m].

(** The two checks of [handleChatMessage] on the body of a frame. *)
Definition body_rejected (message : option jsstring) : bool :=
  match message with
  | None => true
  | Some body =>
      Nat.eqb (length (trim body)) 0 || Nat.ltb 1000 (length body)
  end.

(** The message a signal gets accepted, if any: a [message] frame from a
    registered connection whose body passes the two checks. *)
Definition accepted (e : Env) (s : Server) (i : Signal)
  : option ChatMessage :=
  match i with
  | Data ws (Some f) =>
      match type f, JSMap.get (clients s) ws, f_message f with
      | Some ty, Some clientInfo, Some body =>
          if JS.eqb ty (lit "message")
             && negb (body_rejected (Some body))
          then Some (messageData e clientInfo (f_username f) body)
          else None
      | _, _, _ => None
      end
  | _ => None
  end.

(** The accepted messages of a run, oldest first. *)
Fixpoint accepted_log (l : list (Env * Signal)) (s : Server)
  : list ChatMessage :=
  match l with
  | [] => []
  | (e, i) :: r =>
      match accepted e s i with
      | Some m => [m]
      | None => []
      end ++ accepted_log r (state_of (handle i e s))
  end.

(** Oldest to newest. *)
Definition older (a b : ChatMessage) : Prop :=
  (ChatMessage.timestamp a <= ChatMessage.timestamp b)%Z.

(** Newest to oldest. *)
Definition newer (a b : ChatMessage) : Prop :=
  (ChatMessage.timestamp b <= ChatMessage.timestamp a)%Z.

(** The two checks in words: the body is missing, or empty once
    trimmed, or longer than 1000 code units as received. *)
Definition rejects (message : option jsstring) : Prop :=
  match message with
  | None => True
  | Some body => length (trim body) = 0 \/ 1000 < length body
  end.

(** The [history] array of [handleUserJoin]. *)
Definition join_history (e : Env) (s : Server) : list ChatMessage :=
  if dbConnected e then
    match Message.find_recent 50 e with
    | Some recent => rev recent
    | None => slice_last 50 (messageHistory s)
    end
  else slice_last 50 (messageHistory s).

(** The session a join writes in the registry. *)
Definition joined (clientInfo : ClientInfo) (username : option jsstring)
  : ClientInfo :=
  {| ci_username := or_else username (lit "Anonymous");
     connectedAt := connectedAt clientInfo |}.

(** The name [handleDisconnection] announces. *)
Definition leaving (s : Server) (ws : Conn) : jsstring :=
  or_else (option_map ci_username (JSMap.get (clients s) ws))
          (lit "Anonymous").

(** The clock never goes back along a run that starts at time [t]. *)
Fixpoint clock_monotone (t : Z) (l : list (Env * Signal)) : Prop :=
  match l with
  | [] => True
  | (e, _) :: r => (t <= now e)%Z /\ clock_monotone (now e) r
  end.

(** A ring buffer in the order of its timestamps, none later than [t]. *)
Definition oldest_first (t : Z) (h : list ChatMessage) : Prop :=
  StronglySorted older h
  /\ forall m, In m h -> (ChatMessage.timestamp m <= t)%Z.

End Trace.

(* ------------------------------------------------------------------ *)
(** ** Sample inputs *)

Module Sample.

Import WebSocketManager.

(** Every socket open, the store unreachable. *)
Definition offline (t : Z) : Env :=
  {| now := t; dbConnected := false; isOpen := fun _ => true;
     save := fun _ => None; collection := []; findFails := false |}.

(** Every socket open, the store reachable and holding [docs]. *)
Definition online (t : Z) (docs : list ChatMessage) : Env :=
  {| now := t; dbConnected := true; isOpen := fun _ => true;
     save := Message.save_with false; collection := docs;
     findFails := false |}.

(** The socket of [ws] is no longer open, the store unreachable. *)
Definition closing (ws : Conn) (t : Z) : Env :=
  {| now := t; dbConnected := false;
     isOpen := fun k => negb (Nat.eqb k ws);
     save := fun _ => None; collection := []; findFails := false |}.

Definition session (name : jsstring) : ClientInfo :=
  {| ci_username := name; connectedAt := 0 |}.

(** Two registered connections, 1 joined as alice and 2 as bob. *)
Definition two_clients : Server :=
  {| clients := [(1, session (lit "alice")); (2, session (lit "bob"))];
     messageHistory := [] |}.

Definition join (username : jsstring) : option Frame :=
  Some {| type := Some (lit "join"); f_username := Some username;
          f_message := None |}.

Definition say (username : option jsstring) (body : jsstring)
  : option Frame :=
  Some {| type := Some (lit "message"); f_username := username;
          f_message := Some body |}.

Definition chat (t : Z) (body : jsstring) : ChatMessage :=
  {| ChatMessage.username := lit "alice"; ChatMessage.message := body;
     ChatMessage.timestamp := t |}.

End Sample.

(* ------------------------------------------------------------------ *)
(** ** More of the server: [getActiveConnections] and what a run keeps *)

Module Registry.

(** [getActiveConnections()]: [this.clients.size]. *)
Definition getActiveConnections (s : Server) : nat := length (clients s).

(** The number of [connection] signals of a run. *)
Fixpoint connections (l : list (Env * WebSocketManager.Signal)) : nat :=
  match l with
  | [] => 0
  | (_, WebSocketManager.Connection _) :: r => S (connections r)
  | _ :: r => connections r
  end.

(** A record as [handleChatMessage] lets it in: a sender name, and a body
    that is trimmed, not empty and at most 1000 characters long. *)
Definition well_formed (m : ChatMessage) : Prop :=
  ChatMessage.username m <> []
  /\ trim (ChatMessage.message m) = ChatMessage.message m
  /\ 1 <= length (ChatMessage.message m) <= 1000.

(** What every state of a run satisfies: one entry per connection, no
    empty display name, only well-formed records in the ring buffer. *)
Definition consistent (s : Server) : Prop :=
  NoDup (JSMap.keys (clients s))
  /\ (forall ws clientInfo,
        In (ws, clientInfo) (clients s) -> ci_username clientInfo <> [])
  /\ (forall m, In m (messageHistory s) -> well_formed m).

End Registry.

(* ------------------------------------------------------------------ *)
(** ** Handlers suspended at the store *)

(** The listener of [ws.on("message", async ...)] is not awaited by the
    emitter.  A handler runs from the arrival of its frame to its first
    [await] that waits for the store, and from there when the store has
    answered; in between, other signals are handled and other handlers
    resume.  [handleChatMessage] waits at [await newMessage.save()] and
    [handleUserJoin] at [await Message.find()...], both only when the
    probe reports the store connected; every other handler, and these two
    when the store is not connected, runs to its end on arrival. *)
Module Interleaved.

Import WebSocketManager.

(** A suspended handler: what its remaining statements still read. *)
Inductive Task :=
| Saving (messageData : ChatMessage)   (* handleChatMessage, at save() *)
| Finding (ws : Conn).                 (* handleUserJoin, at find() *)

(** The end of [handleChatMessage], from [this.messageHistory.push]. *)
Definition finish_message (messageData savedMessage : ChatMessage)
  : M unit :=
  history_push messageData ;;
  history_truncate ;;
  broadcastMessage
    (EvMessage (ChatMessage.username savedMessage)
               (ChatMessage.message savedMessage)
               (ChatMessage.timestamp savedMessage)).

(** [handleChatMessage] up to [await newMessage.save()], or to its end
    when it does not get there. *)
Definition start_message (ws : Conn) (username message : option jsstring)
  : M (option Task) :=
  c <- clients_get ws ;;
  match c, message with
  | None, _ => ret None
  | Some _, None =>
      sendError ws (lit "Message cannot be empty") ;; ret None
  | Some clientInfo, Some body =>
      if negb (truthy message) || Nat.eqb (length (trim body)) 0 then
        sendError ws (lit "Message cannot be empty") ;; ret None
      else if Nat.ltb 1000 (length body) then
        sendError ws (lit "Message too long (max 1000 characters)") ;;
        ret None
      else
        t <- ask now ;;
        let messageData :=
          {| ChatMessage.username :=
               or_else username (ci_username clientInfo);
             ChatMessage.message := trim body;
             ChatMessage.timestamp := t |} in
        connected <- ask dbConnected ;;
        if connected then
          emit (DbSave messageData) ;; ret (Some (Saving messageData))
        else
          finish_message messageData messageData ;; ret None
  end.

(** [handleChatMessage] from the settling of [save()]: the document, or
    the [catch] that keeps [savedMessage = messageData]. *)
Definition resume_save (messageData : ChatMessage) : M unit :=
  r <- ask (fun e => save e messageData) ;;
  finish_message messageData
    (match r with Some doc => doc | None => messageData end).

(** The end of [handleUserJoin], from [this.sendMessage(ws, ...)];
    [name] is [clientInfo.username] as read there. *)
Definition finish_join (ws : Conn) (name : jsstring)
    (history : list ChatMessage) : M unit :=
  sendMessage ws (EvHistory history) ;;
  t <- ask now ;;
  broadcastMessage (EvSystem (name ++ lit " joined the chat") t).

(** [handleUserJoin] up to [await Message.find()...], or to its end. *)
Definition start_join (ws : Conn) (username : option jsstring)
  : M (option Task) :=
  c <- clients_get ws ;;
  match c with
  | None => ret None
  | Some clientInfo =>
      let clientInfo :=
        {| ci_username := or_else username (lit "Anonymous");
           connectedAt := connectedAt clientInfo |} in
      clients_set ws clientInfo ;;
      connected <- ask dbConnected ;;
      if connected then emit DbFind ;; ret (Some (Finding ws))
      else
        h <- get messageHistory ;;
        finish_join ws (ci_username clientInfo) (slice_last 50 h) ;;
        ret None
  end.

(** [handleUserJoin] from the settling of the query: the documents
    reversed, or the [catch] that reads the ring buffer as it is then. *)
Definition resume_find (ws : Conn) (name : jsstring) : M unit :=
  r <- ask (Message.find_recent 50) ;;
  history <-
    match r with
    | Some recentMessages =>
        ret (List.map
               (fun msg =>
                  {| ChatMessage.username := ChatMessage.username msg;
                     ChatMessage.message := ChatMessage.message msg;
                     ChatMessage.timestamp := ChatMessage.timestamp msg |})
               (rev recentMessages))
    | None => h <- get messageHistory ;; ret (slice_last 50 h)
    end ;;
  finish_join ws name history.

(** The manager, the [clientInfo] object of every connection accepted so
    far (a suspended join still holds the object of a connection that has
    left the registry, and reads its [username] when it resumes), and the
    suspended handlers, oldest first. *)
Record State := {
  server : Server;
  objects : JSMap.t;
  pending : list Task
}.

Definition fresh : State :=
  {| server := constructor; objects := []; pending := [] |}.

(** A signal arrives, or the store settles the [n]-th suspended handler. *)
Inductive Step :=
| Arrive (e : Env) (i : Signal)
| Settle (e : Env) (n : nat).

Definition remove_nth {A} (n : nat) (l : list A) : list A :=
  firstn n l ++ skipn (S n) l.

Definition suspend (st : State) (objs : JSMap.t)
    (r : option Task * Server * list Effect) : State * list Effect :=
  let '(task, s, t) := r in
  ({| server := s; objects := objs;
      pending := match task with
                 | Some k => pending st ++ [k]
                 | None => pending st
                 end |}, t).

Definition complete (st : State) (objs : JSMap.t) (rest : list Task)
    (r : unit * Server * list Effect) : State * list Effect :=
  let '(_, s, t) := r in
  ({| server := s; objects := objs; pending := rest |}, t).

Definition step (x : Step) (st : State) : State * list Effect :=
  match x with
  | Arrive e (Connection ws) =>
      complete st
        (JSMap.set (objects st) ws
           {| ci_username := lit "Anonymous"; connectedAt := now e |})
        (pending st) (handleConnection ws e (server st))
  | Arrive e (Data ws None) =>
      complete st (objects st) (pending st)
        (sendError ws (lit "Invalid message format") e (server st))
  | Arrive e (Data ws (Some messageData)) =>
      match type messageData with
      | Some ty =>
          if JS.eqb ty (lit "join") then
            suspend st
              (match JSMap.get (clients (server st)) ws with
               | Some clientInfo =>
                   JSMap.set (objects st) ws
                     {| ci_username :=
                          or_else (f_username messageData)
                                  (lit "Anonymous");
                        connectedAt := connectedAt clientInfo |}
               | None => objects st
               end)
              (start_join ws (f_username messageData) e (server st))
          else if JS.eqb ty (lit "message") then
            suspend st (objects st)
              (start_message ws (f_username messageData)
                             (f_message messageData) e (server st))
          else
            complete st (objects st) (pending st)
              (sendError ws (lit "Unknown message type") e (server st))
      | None =>
          complete st (objects st) (pending st)
            (sendError ws (lit "Unknown message type") e (server st))
      end
  | Arrive e (Close ws) =>
      complete st (objects st) (pending st)
        (handleDisconnection ws e (server st))
  | Arrive e (Error ws) =>
      complete st (objects st) (pending st)
        (handleDisconnection ws e (server st))
  | Settle e n =>
      match nth_error (pending st) n with
      | Some (Saving messageData) =>
          complete st (objects st) (remove_nth n (pending st))
            (resume_save messageData e (server st))
      | Some (Finding ws) =>
          match JSMap.get (objects st) ws with
          | Some clientInfo =>
              complete st (objects st) (remove_nth n (pending st))
                (resume_find ws (ci_username clientInfo) e (server st))
          | None => (st, [])
          end
      | None => (st, [])
      end
  end.

Fixpoint run (l : list Step) (st : State) : State * list Effect :=
  match l with
  | [] => (st, [])
  | x :: r =>
      let '(st1, t1) := step x st in
      let '(st2, t2) := run r st1 in
      (st2, t1 ++ t2)
  end.

(** The records of the suspended [handleChatMessage]s, oldest first. *)
Fixpoint saving (l : list Task) : list ChatMessage :=
  match l with
  | [] => []
  | Saving m :: r => m :: saving r
  | Finding _ :: r => saving r
  end.

(** The message a step gets accepted, if any. *)
Definition accepted (x : Step) (st : State) : list ChatMessage :=
  match x with
  | Arrive e i =>
      match Trace.accepted e (server st) i with
      | Some m => [m]
      | None => []
      end
  | Settle _ _ => []
  end.

(** The accepted messages of a run, in the order of their arrival. *)
Fixpoint accepted_log (l : list Step) (st : State) : list ChatMessage :=
  match l with
  | [] => []
  | x :: r => accepted x st ++ accepted_log r (fst (step x st))
  end.

(** No handler of the run is suspended: the signals arrive while the
    store is not connected. *)
Fixpoint unsuspended (l : list Step) : Prop :=
  match l with
  | [] => True
  | Arrive e _ :: r => dbConnected e = false /\ unsuspended r
  | Settle _ _ :: r => unsuspended r
  end.

(** The signals one after the other, each handler resumed, if it was
    suspended, before the next signal. *)
Fixpoint uninterrupted (l : list (Env * Signal)) (waiting : nat)
  : list Step :=
  match l with
  | [] => []
  | (e, i) :: r => Arrive e i :: Settle e waiting :: uninterrupted r waiting
  end.

End Interleaved.

(* ------------------------------------------------------------------ *)
(** ** The client: [UsernameForm] *)

(** [handleSubmit] of [src/components/UsernameForm.tsx], from the value of
    the input to either the error shown or the name passed to [onSubmit]. *)
Module UsernameForm.

(** The class [[a-zA-Z0-9_-]]. *)
Definition allowed (c : N) : bool :=
  ((97 <=? c) && (c <=? 122) || (65 <=? c) && (c <=? 90)
   || (48 <=? c) && (c <=? 57) || (c =? 95) || (c =? 45))%N.

(** [/^[a-zA-Z0-9_-]+$/.test(s)]: without the [m] flag the anchors are the
    two ends of the string. *)
Definition test (s : jsstring) : bool :=
  negb (Nat.eqb (length s) 0) && forallb allowed s.

Inductive Outcome :=
| SetError (text : jsstring)
| OnSubmit (username : jsstring).

Definition handleSubmit (username : jsstring) : Outcome :=
  let trimmedUsername := trim username in
  if negb (truthy (Some trimmedUsername)) then
    SetError (lit "Please enter a username")
  else if Nat.ltb (length trimmedUsername) 2 then
    SetError (lit "Username must be at least 2 characters")
  else if Nat.ltb 20 (length trimmedUsername) then
    SetError (lit "Username must be less than 20 characters")
  else if negb (test trimmedUsername) then
    SetError (lit "Username can only contain letters, numbers, underscores, and hyphens")
  else OnSubmit trimmedUsername.

End UsernameForm.

(* ------------------------------------------------------------------ *)
(** ** The client: the message list and the frames of [ChatInterface] *)

(** [handleWebSocketMessage], [sendMessage] and the [join] frame of
    [ws.onopen], from the component printed in [README.md].  The events
    received are those of the server's wire protocol.  [toISOString] stands
    for [new Date(t).toISOString()], the form in which the client keeps a
    timestamp; it is a parameter of the handlers. *)
Module ChatView.

Inductive Kind := KMessage | KSystem | KError.

(** The interface [Message] of the component. *)
Record Displayed := {
  d_username : jsstring;
  d_message : jsstring;
  d_timestamp : jsstring;
  d_type : Kind
}.

(** The state [messages] and [error] of the component. *)
Record View := {
  messages : list Displayed;
  error : option jsstring
}.

Section Handlers.

Variable toISOString : Z -> jsstring.

Definition of_history (msg : ChatMessage) : Displayed :=
  {| d_username := ChatMessage.username msg;
     d_message := ChatMessage.message msg;
     d_timestamp := toISOString (ChatMessage.timestamp msg);
     d_type := KMessage |}.

(** The test of [prev.some(...)]: same timestamp, username and text; the
    type of the entry is not compared. *)
Definition same (newTimestamp u m : jsstring) (msg : Displayed) : bool :=
  JS.eqb (d_timestamp msg) newTimestamp
  && JS.eqb (d_username msg) u
  && JS.eqb (d_message msg) m.

(** [handleWebSocketMessage(data)]; [clock] is [new Date().toISOString()]
    when the event is handled. *)
Definition handleWebSocketMessage (clock : jsstring) (data : ServerEvent)
    (v : View) : View :=
  match data with
  | EvConnection _ => v
  | EvHistory msgs =>
      {| messages := List.map of_history msgs; error := error v |}
  | EvMessage u m t =>
      let newTimestamp := toISOString t in
      if existsb (same newTimestamp u m) (messages v) then v
      else {| messages :=
                messages v
                ++ [{| d_username := u; d_message := m;
                       d_timestamp := newTimestamp; d_type := KMessage |}];
              error := error v |}
  | EvSystem m t =>
      {| messages :=
           messages v
           ++ [{| d_username := lit "System"; d_message := m;
                  d_timestamp := toISOString t; d_type := KSystem |}];
         error := error v |}
  | EvError m =>
      {| messages :=
           messages v
           ++ [{| d_username := lit "System";
                  d_message := lit "Error: " ++ m;
                  d_timestamp := clock; d_type := KError |}];
         error := Some m |}
  end.

(** The events of a socket, handled in the order of their arrival. *)
Fixpoint receive (l : list (jsstring * ServerEvent)) (v : View) : View :=
  match l with
  | [] => v
  | (clock, data) :: r => receive r (handleWebSocketMessage clock data v)
  end.

End Handlers.

(** The events a trace of the server sends to one connection, in order. *)
Fixpoint delivered (ws : Conn) (t : list Effect) : list ServerEvent :=
  match t with
  | [] => []
  | Send to data :: r =>
      if Nat.eqb to ws then data :: delivered ws r else delivered ws r
  | _ :: r => delivered ws r
  end.

Inductive SendOutcome :=
| Ignored
| ShowError (text : jsstring)
| Sends (frame : WebSocketManager.Frame).

(** [sendMessage()]: [hasSocket] is [wsRef.current] being set and [throws]
    is [send] raising (the socket is still connecting). *)
Definition sendMessage (username currentMessage : jsstring)
    (isConnected hasSocket throws : bool) : SendOutcome :=
  if negb (truthy (Some (trim currentMessage)))
     || negb isConnected || negb hasSocket then Ignored
  else if Nat.ltb 1000 (length currentMessage) then
    ShowError (lit "Message too long (max 1000 characters)")
  else if throws then ShowError (lit "Failed to send message")
  else
    Sends {| WebSocketManager.type := Some (lit "message");
             WebSocketManager.f_username :=
               Some (or_else (Some (trim username)) (lit "Anonymous"));
             WebSocketManager.f_message := Some (trim currentMessage) |}.

(** The frame [ws.onopen] sends: a [join] when the trimmed username is not
    empty. *)
Definition join_on_open (username : jsstring)
  : option WebSocketManager.Frame :=
  if truthy (Some (trim username)) then
    Some {| WebSocketManager.type := Some (lit "join");
            WebSocketManager.f_username := Some (trim username);
            WebSocketManager.f_message := None |}
  else None.

End ChatView.

(* ------------------------------------------------------------------ *)
(** ** Proofs *)

(** Runs the plumbing of a handler, leaving its tests and the broadcast. *)
Ltac run_handler :=
  unfold WebSocketManager.sendError, WebSocketManager.sendMessage,
    clients_get, clients_set, clients_delete,
    history_push, history_truncate;
  unfold bind, ret, ask, get, put, emit.

(* ------------------------------------------------------------------ *)
(** ** The model on small inputs *)

Example trim_both_ends : trim (lit "  a b  ") = lit "a b".
Proof. reflexivity. Qed.

Example trim_whitespace_only : trim [32; 9; 10; 13; 160; 8232; 65279]%N = [].
Proof. reflexivity. Qed.

Example slice_last_three : slice_last 2 [1; 2; 3] = [2; 3].
Proof. reflexivity. Qed.

Example slice_last_short_list : slice_last 50 [1; 2; 3] = [1; 2; 3].
Proof. reflexivity. Qed.

Example schema_rejects_blank_name :
  Message.save_with false
    {| ChatMessage.username := lit "  "; ChatMessage.message := lit "hi";
       ChatMessage.timestamp := 0 |} = None.
Proof. reflexivity. Qed.

(** Connections 1 and 2 are accepted and join as alice and bob; alice says
    "hi".  Both receive the two join announcements they are registered
    for, and both receive the message with the same timestamp. *)
Example alice_and_bob :
  let e := Sample.offline in
  snd (WebSocketManager.run
         [(e 1%Z, WebSocketManager.Connection 1);
          (e 2%Z, WebSocketManager.Connection 2);
          (e 3%Z, WebSocketManager.Data 1 (Sample.join (lit "alice")));
          (e 4%Z, WebSocketManager.Data 2 (Sample.join (lit "bob")));
          (e 5%Z, WebSocketManager.Data 1 (Sample.say None (lit "hi")))]
         WebSocketManager.constructor)
  = [Send 1 (EvConnection (lit "Connected to chat server"));
     Send 2 (EvConnection (lit "Connected to chat server"));
     Send 1 (EvHistory []);
     Send 1 (EvSystem (lit "alice joined the chat") 3);
     Send 2 (EvSystem (lit "alice joined the chat") 3);
     Send 2 (EvHistory []);
     Send 1 (EvSystem (lit "bob joined the chat") 4);
     Send 2 (EvSystem (lit "bob joined the chat") 4);
     HistoryPush (Sample.chat 5 (lit "hi"));
     Send 1 (EvMessage (lit "alice") (lit "hi") 5);
     Send 2 (EvMessage (lit "alice") (lit "hi") 5)].
Proof. vm_compute. reflexivity. Qed.

(* ------------------------------------------------------------------ *)
(** ** Lists: [slice(-n)] *)

Section SliceLast.

Context {A : Type}.
Implicit Types (l : list A) (n : nat).

Lemma slice_last_length l n : length (slice_last n l) = Nat.min n (length l).
Proof. unfold slice_last. rewrite length_skipn. lia. Qed.

Lemma slice_last_short l n : length l <= n -> slice_last n l = l.
Proof.
  intros H. unfold slice_last.
  replace (length l - n) with 0 by lia. reflexivity.
Qed.

Lemma slice_last_suffix l n : exists older, l = older ++ slice_last n l.
Proof.
  exists (firstn (length l - n) l). unfold slice_last.
  symmetry. apply firstn_skipn.
Qed.

(** Cutting to the last [n] entries before appending does not change
    the last [n] entries of the result. *)
Lemma slice_last_slice_app l1 l2 n :
  slice_last n (slice_last n l1 ++ l2) = slice_last n (l1 ++ l2).
Proof.
  destruct (Nat.le_gt_cases (length l1) n) as [H | H].
  - rewrite (slice_last_short l1) by assumption. reflexivity.
  - destruct (slice_last_suffix l1 n) as [older E].
    assert (L : length (slice_last n l1) = n)
      by (rewrite slice_last_length; lia).
    replace (l1 ++ l2) with (older ++ (slice_last n l1 ++ l2))
      by (rewrite app_assoc, <- E; reflexivity).
    unfold slice_last at 1 3.
    rewrite (skipn_app _ older), !length_app, L.
    replace (length older + (n + length l2) - n - length older)
      with (n + length l2 - n) by lia.
    rewrite (@skipn_all2 _ _ older) by lia. reflexivity.
Qed.

End SliceLast.

(* ------------------------------------------------------------------ *)
(** ** The registry and the broadcast loop *)

Import WebSocketManager.

Section Registry.

Implicit Types (m : JSMap.t) (k : Conn) (v : ClientInfo).

Lemma get_set_same m k v : JSMap.get (JSMap.set m k v) k = Some v.
Proof.
  induction m as [|[k' v'] r IH]; simpl.
  - rewrite Nat.eqb_refl. reflexivity.
  - destruct (Nat.eqb k k') eqn:E; simpl; rewrite ?Nat.eqb_refl, ?E; auto.
Qed.

Lemma get_prune_open (e : Env) m k :
  isOpen e k = true -> JSMap.get (Trace.prune e m) k = JSMap.get m k.
Proof.
  intros O. induction m as [|[k' v'] r IH]; simpl; auto.
  destruct (Nat.eqb k k') eqn:E.
  - apply Nat.eqb_eq in E. subst k'. rewrite O. simpl.
    rewrite Nat.eqb_refl. reflexivity.
  - destruct (isOpen e k'); simpl; rewrite ?E; auto.
Qed.

Lemma keys_delete m k : ~ In k (JSMap.keys (JSMap.delete m k)).
Proof.
  unfold JSMap.keys, JSMap.delete. rewrite in_map_iff.
  intros [[k' v'] [E H]]. simpl in E. subst k'.
  apply filter_In in H. simpl in H. rewrite Nat.eqb_refl in H.
  destruct H; discriminate.
Qed.

Lemma filter_twice {A} (p q : A -> bool) (l : list A) :
  filter p (filter q l) = filter (fun x => q x && p x) l.
Proof.
  induction l as [|x l IH]; simpl; auto.
  destruct (q x); simpl; rewrite IH; reflexivity.
Qed.

(** Deleting the closed entries one by one, as the loop does, leaves the
    open ones. *)
Lemma delete_closed_fold (e : Env) (l m : JSMap.t) :
  fold_left (fun c kv => if isOpen e (fst kv) then c
                         else JSMap.delete c (fst kv)) l m
  = filter (fun kv =>
              negb (existsb (fun kv' => Nat.eqb (fst kv') (fst kv)
                                        && negb (isOpen e (fst kv'))) l))
           m.
Proof.
  revert m. induction l as [|[k v] r IH]; intros m; simpl.
  - induction m as [|x m IHm]; simpl; [reflexivity | f_equal; exact IHm].
  - rewrite IH. destruct (isOpen e k) eqn:O; simpl.
    + apply filter_ext. intros kv. rewrite andb_false_r. reflexivity.
    + unfold JSMap.delete.
      rewrite filter_twice. apply filter_ext. intros kv. cbn [fst].
      destruct (Nat.eqb k (fst kv)); reflexivity.
Qed.

Lemma delete_closed_self (e : Env) (m : JSMap.t) :
  fold_left (fun c kv => if isOpen e (fst kv) then c
                         else JSMap.delete c (fst kv)) m m
  = Trace.prune e m.
Proof.
  rewrite delete_closed_fold. unfold Trace.prune.
  apply filter_ext_in. intros kv H.
  destruct (isOpen e (fst kv)) eqn:O.
  - apply negb_true_iff. apply not_true_is_false. intros X.
    apply existsb_exists in X. destruct X as [kv' [_ X]].
    apply andb_true_iff in X. destruct X as [X Y].
    apply Nat.eqb_eq in X. rewrite X, O in Y. discriminate.
  - apply negb_false_iff. apply existsb_exists. exists kv. split; auto.
    rewrite Nat.eqb_refl, O. reflexivity.
Qed.

Lemma forEach_broadcast (data : ServerEvent) (e : Env) (l : JSMap.t)
      (s : Server) :
  forEach l (fun kv =>
    o <- ask (fun e => isOpen e (fst kv)) ;;
    if o then emit (Send (fst kv) data)
    else clients_delete (fst kv)) e s
  = (tt,
     {| clients :=
          fold_left (fun c kv => if isOpen e (fst kv) then c
                                 else JSMap.delete c (fst kv))
                    l (clients s);
        messageHistory := messageHistory s |},
     Trace.broadcast e data l).
Proof.
  revert s. induction l as [|[k v] r IH]; intros s.
  - destruct s. reflexivity.
  - cbn [forEach]. unfold bind at 1. unfold bind at 1. unfold ask at 1.
    cbn [fst]. destruct (isOpen e k) eqn:O.
    + unfold emit at 1. rewrite IH. simpl. rewrite O. reflexivity.
    + unfold clients_delete, bind, put, emit. rewrite IH. simpl.
      rewrite O. reflexivity.
Qed.

Lemma broadcastMessage_eq (data : ServerEvent) (e : Env) (s : Server) :
  broadcastMessage data e s
  = (tt,
     {| clients := Trace.prune e (clients s);
        messageHistory := messageHistory s |},
     Trace.broadcast e data (clients s)).
Proof.
  unfold broadcastMessage. unfold bind at 1. unfold get.
  rewrite forEach_broadcast, delete_closed_self. reflexivity.
Qed.

End Registry.

(* ------------------------------------------------------------------ *)
(** ** [handleChatMessage], case by case *)

Section ChatMessageCases.

Variables (e : Env) (s : Server) (ws : Conn) (clientInfo : ClientInfo).
Variable username : option jsstring.
Hypothesis registered : JSMap.get (clients s) ws = Some clientInfo.

Lemma truthy_trim (body : jsstring) :
  negb (truthy (Some body)) || Nat.eqb (length (trim body)) 0
  = Nat.eqb (length (trim body)) 0.
Proof. destruct body; reflexivity. Qed.

Lemma handleChatMessage_rejected (message : option jsstring) :
  Trace.body_rejected message = true ->
  exists text,
    handleChatMessage ws username message e s
    = (tt, s, if isOpen e ws then [Send ws (EvError text)] else []).
Proof.
  intros R. unfold handleChatMessage. run_handler.
  rewrite registered.
  destruct message as [body|]; cbn [Trace.body_rejected] in R.
  - rewrite truthy_trim.
    destruct (Nat.eqb (length (trim body)) 0).
    + eexists. destruct (isOpen e ws); reflexivity.
    + cbn [orb] in R. rewrite R.
      eexists. destruct (isOpen e ws); reflexivity.
  - eexists. destruct (isOpen e ws); reflexivity.
Qed.

Lemma handleChatMessage_accepted (body : jsstring) :
  Trace.body_rejected (Some body) = false ->
  handleChatMessage ws username (Some body) e s
  = (tt,
     {| clients := Trace.prune e (clients s);
        messageHistory :=
          Trace.pushed (messageHistory s)
                       (Trace.messageData e clientInfo username body) |},
     (if dbConnected e
      then [DbSave (Trace.messageData e clientInfo username body)]
      else [])
     ++ HistoryPush (Trace.messageData e clientInfo username body)
     :: Trace.broadcast e
          (Trace.as_event
             (Trace.savedMessage e
                (Trace.messageData e clientInfo username body)))
          (clients s)).
Proof.
  intros R. unfold handleChatMessage. run_handler.
  rewrite registered, truthy_trim. cbn [Trace.body_rejected] in R.
  apply orb_false_iff in R. destruct R as [R1 R2]. rewrite R1, R2.
  unfold Trace.savedMessage, Trace.messageData, Trace.pushed.
  destruct (dbConnected e); [destruct (save e _) as [doc|]|];
    rewrite broadcastMessage_eq; reflexivity.
Qed.

End ChatMessageCases.

Lemma handleChatMessage_unregistered e s ws username message :
  JSMap.get (clients s) ws = None ->
  handleChatMessage ws username message e s = (tt, s, []).
Proof.
  intros H. unfold handleChatMessage. run_handler.
  rewrite H. reflexivity.
Qed.

(* ------------------------------------------------------------------ *)
(** ** [handleUserJoin] and [handleDisconnection] in closed form *)

Lemma map_fields (l : list ChatMessage) :
  List.map (fun msg =>
              {| ChatMessage.username := ChatMessage.username msg;
                 ChatMessage.message := ChatMessage.message msg;
                 ChatMessage.timestamp := ChatMessage.timestamp msg |}) l
  = l.
Proof.
  induction l as [|[u m t] l IH]; simpl; [reflexivity|].
  rewrite IH. reflexivity.
Qed.

Lemma handleUserJoin_registered e s ws clientInfo username :
  JSMap.get (clients s) ws = Some clientInfo ->
  handleUserJoin ws username e s
  = (tt,
     {| clients :=
          Trace.prune e (JSMap.set (clients s) ws (Trace.joined clientInfo username));
        messageHistory := messageHistory s |},
     (if dbConnected e then [DbFind] else [])
     ++ (if isOpen e ws then [Send ws (EvHistory (Trace.join_history e s))]
         else [])
     ++ Trace.broadcast e
          (EvSystem (or_else username (lit "Anonymous")
                     ++ lit " joined the chat") (now e))
          (JSMap.set (clients s) ws (Trace.joined clientInfo username))).
Proof.
  intros H. unfold handleUserJoin. run_handler. rewrite H.
  unfold Trace.join_history, Trace.joined.
  destruct (dbConnected e); [destruct (Message.find_recent 50 e) as [r|]|];
    rewrite ?map_fields; destruct (isOpen e ws);
    rewrite broadcastMessage_eq; reflexivity.
Qed.

Lemma handleUserJoin_unregistered e s ws username :
  JSMap.get (clients s) ws = None ->
  handleUserJoin ws username e s = (tt, s, []).
Proof.
  intros H. unfold handleUserJoin. run_handler. rewrite H. reflexivity.
Qed.

Lemma handleDisconnection_eq e s ws :
  handleDisconnection ws e s
  = (tt,
     {| clients := Trace.prune e (JSMap.delete (clients s) ws);
        messageHistory := messageHistory s |},
     ClientsDelete ws
     :: Trace.broadcast e
          (EvSystem (Trace.leaving s ws ++ lit " left the chat") (now e))
          (JSMap.delete (clients s) ws)).
Proof.
  unfold handleDisconnection. run_handler.
  rewrite broadcastMessage_eq. reflexivity.
Qed.

(* ------------------------------------------------------------------ *)
(** ** Observations on a broadcast pass *)

Section BroadcastObservations.

Variables (e : Env) (data : ServerEvent).
Implicit Types (cs : JSMap.t) (t : list Effect).

Lemma pushes_app t1 t2 :
  Trace.pushes (t1 ++ t2) = Trace.pushes t1 ++ Trace.pushes t2.
Proof.
  induction t1 as [|x t1 IH]; simpl; auto.
  destruct x; simpl; rewrite ?IH; reflexivity.
Qed.

Lemma pushes_broadcast cs : Trace.pushes (Trace.broadcast e data cs) = [].
Proof.
  induction cs as [|kv cs IH]; simpl; auto.
  destruct (isOpen e (fst kv)); simpl; exact IH.
Qed.

Lemma message_events_broadcast (m : ChatMessage) cs :
  Trace.message_events (Trace.broadcast e (Trace.as_event m) cs)
  = List.map (fun kv => (fst kv, m)) (Trace.prune e cs).
Proof.
  induction cs as [|kv cs IH]; simpl; auto.
  destruct (isOpen e (fst kv)); simpl; rewrite IH; auto.
  destruct m; reflexivity.
Qed.

Lemma system_events_broadcast (text : jsstring) (ts : Z) cs :
  Trace.system_events (Trace.broadcast e (EvSystem text ts) cs)
  = List.map (fun kv => (fst kv, text)) (Trace.prune e cs).
Proof.
  induction cs as [|kv cs IH]; simpl; auto.
  destruct (isOpen e (fst kv)); simpl; rewrite IH; auto.
Qed.

Lemma history_events_broadcast_system (text : jsstring) (ts : Z) cs :
  Trace.history_events (Trace.broadcast e (EvSystem text ts) cs) = [].
Proof.
  induction cs as [|kv cs IH]; simpl; auto.
  destruct (isOpen e (fst kv)); simpl; exact IH.
Qed.

End BroadcastObservations.

(* ------------------------------------------------------------------ *)
(** ** C1: validation of the body *)

Lemma body_rejected_iff (message : option jsstring) :
  Trace.body_rejected message = true <-> Trace.rejects message.
Proof.
  destruct message as [body|]; simpl; [|tauto].
  rewrite orb_true_iff, Nat.eqb_eq, Nat.ltb_lt. tauto.
Qed.

Lemma pushed_last (h : list ChatMessage) (m : ChatMessage) :
  exists before, Trace.pushed h m = before ++ [m].
Proof.
  unfold Trace.pushed. destruct (Nat.ltb 100 (length (h ++ [m]))) eqn:E.
  - unfold slice_last. rewrite skipn_app, length_app. cbn [length].
    replace (length h + 1 - 100 - length h) with 0 by lia.
    eexists. reflexivity.
  - eexists. reflexivity.
Qed.

Lemma not_rejects_body_rejected (message : option jsstring) :
  ~ Trace.rejects message -> Trace.body_rejected message = false.
Proof.
  intros R. destruct (Trace.body_rejected message) eqn:B; auto.
  apply body_rejected_iff in B. contradiction.
Qed.

(** What an accepted frame shows in the trace and in the ring buffer. *)
Lemma accepted_observations
    (e : Env) (s : Server) (ws : Conn) (clientInfo : ClientInfo)
    (username : option jsstring) (body : jsstring) :
  JSMap.get (clients s) ws = Some clientInfo ->
  ~ Trace.rejects (Some body) ->
  let m := Trace.messageData e clientInfo username body in
  let r := handleChatMessage ws username (Some body) e s in
  Trace.pushes (trace_of r) = [m]
  /\ (exists before, messageHistory (state_of r) = before ++ [m])
  /\ Trace.message_events (trace_of r)
     = List.map (fun kv => (fst kv, Trace.savedMessage e m))
                (Trace.prune e (clients s)).
Proof.
  intros G R m r. apply not_rejects_body_rejected in R.
  subst r. rewrite (@handleChatMessage_accepted e s ws clientInfo username
                      G body R).
  fold m. unfold state_of, trace_of. cbn [fst snd messageHistory].
  rewrite pushes_app. cbn [Trace.pushes]. rewrite pushes_broadcast.
  split; [destruct (dbConnected e); reflexivity|].
  split; [apply pushed_last|].
  destruct (dbConnected e); cbn [app Trace.message_events];
    apply message_events_broadcast.
Qed.

(** C1, as the code has it.  For a message frame from a registered
    connection, the body is rejected exactly when it is missing, or empty
    after trimming, or longer than 1000 characters as received (the length
    test is on the untrimmed body).  A rejection changes nothing in the
    manager, hands nothing to the store, pushes nothing on the ring buffer,
    sends no [message] event, and sends one [error] event, to the sender
    alone, when its socket is open.  Any other body is accepted: its trimmed
    length is between 1 and 1000, the record is pushed (it is the last entry
    of the ring buffer afterwards) and a [message] event goes to every
    registered connection whose socket is open. *)
Theorem C1_body_validation
    (e : Env) (s : Server) (ws : Conn) (clientInfo : ClientInfo)
    (username message : option jsstring) :
  JSMap.get (clients s) ws = Some clientInfo ->
  let r := handleChatMessage ws username message e s in
  (Trace.rejects message ->
     state_of r = s
     /\ (exists text,
           trace_of r = if isOpen e ws then [Send ws (EvError text)] else [])
     /\ Trace.pushes (trace_of r) = []
     /\ Trace.saves (trace_of r) = []
     /\ Trace.message_events (trace_of r) = [])
  /\ (~ Trace.rejects message ->
      exists body,
        message = Some body
        /\ 1 <= length (trim body) <= 1000
        /\ length body <= 1000
        /\ let m := Trace.messageData e clientInfo username body in
           Trace.pushes (trace_of r) = [m]
           /\ (exists before, messageHistory (state_of r) = before ++ [m])
           /\ Trace.message_events (trace_of r)
              = List.map (fun kv => (fst kv, Trace.savedMessage e m))
                         (Trace.prune e (clients s))).
Proof.
  intros G r. split.
  - intros R. apply body_rejected_iff in R.
    destruct (@handleChatMessage_rejected e s ws clientInfo username G
                message R)
      as [text E].
    subst r. rewrite E. unfold state_of, trace_of. cbn [fst snd].
    split; [reflexivity|]. split; [exists text; reflexivity|].
    destruct (isOpen e ws); repeat split; reflexivity.
  - intros R.
    assert (B : Trace.body_rejected message = false).
    { destruct (Trace.body_rejected message) eqn:B; auto.
      apply body_rejected_iff in B. contradiction. }
    destruct message as [body|]; [|discriminate B].
    exists body. split; [reflexivity|].
    assert (L : 1 <= length (trim body) /\ length body <= 1000).
    { cbn [Trace.body_rejected] in B. apply orb_false_iff in B.
      destruct B as [B1 B2]. apply Nat.eqb_neq in B1.
      apply Nat.ltb_ge in B2. lia. }
    assert (T : length (trim body) <= length body).
    { unfold trim, trimEnd. rewrite length_rev.
      assert (X : forall x, length (trimStart x) <= length x).
      { induction x as [|c x IH]; simpl; auto.
        destruct (is_ws c); simpl; lia. }
      etransitivity; [apply X|]. rewrite length_rev. apply X. }
    split; [lia|]. split; [lia|].
    apply accepted_observations; [exact G|].
    intros X. apply body_rejected_iff in X. congruence.
Qed.

(** C1 applied: the body [" hi "] from connection 1 is accepted. *)
Lemma C1_body_validation_witness :
  Trace.pushes
    (trace_of (handleChatMessage 1 None (Some (lit " hi "))
                                 (Sample.offline 7) Sample.two_clients))
  = [Sample.chat 7 (lit "hi")].
Proof.
  destruct (C1_body_validation (Sample.offline 7) Sample.two_clients 1
              None (Some (lit " hi ")) eq_refl) as [_ A].
  destruct A as [body [E [_ [_ [P _]]]]].
  - intros [H | H]; vm_compute in H; [discriminate | lia].
  - injection E as E. subst body. exact P.
Defined.

(** C1 as the specification words it fails on the code: the body made of
    ['a'] and 1000 spaces has trimmed length 1, within 1..1000, and yet it
    is rejected with "Message too long", nothing being pushed or
    broadcast. *)
Lemma C1_counterexample :
  let body := 97%N :: repeat 32%N 1000 in
  let r := handleChatMessage 1 None (Some body)
                             (Sample.offline 7) Sample.two_clients in
  length (trim body) = 1
  /\ trace_of r
     = [Send 1 (EvError (lit "Message too long (max 1000 characters)"))]
  /\ Trace.pushes (trace_of r) = []
  /\ Trace.message_events (trace_of r) = []
  /\ messageHistory (state_of r) = [].
Proof. vm_compute. repeat split; reflexivity. Qed.

(* ------------------------------------------------------------------ *)
(** ** C2: order of the effects of an accepted message *)

(** C2, as the code has it.  For an accepted message frame the record is
    built with the server's clock; then, when the probe reports the store
    connected, the record is handed to the store; then the record is pushed
    on the ring buffer, whatever the probe said and whatever the store
    answered, and the buffer is cut to its last 100 entries; then the
    [message] event is broadcast.  The event carries the fields of the
    stored document when the store returned one, and the fields of the
    record built locally when the store was not connected or the save
    failed: a failed save does not stop the broadcast. *)
Theorem C2_effect_order
    (e : Env) (s : Server) (ws : Conn) (clientInfo : ClientInfo)
    (username : option jsstring) (body : jsstring) :
  JSMap.get (clients s) ws = Some clientInfo ->
  ~ Trace.rejects (Some body) ->
  let m := Trace.messageData e clientInfo username body in
  let r := handleChatMessage ws username (Some body) e s in
  ChatMessage.timestamp m = now e
  /\ (exists payload,
        trace_of r
        = (if dbConnected e then [DbSave m] else [])
          ++ [HistoryPush m]
          ++ Trace.broadcast e (Trace.as_event payload) (clients s)
        /\ (dbConnected e = true ->
            forall doc, save e m = Some doc -> payload = doc)
        /\ (dbConnected e = true -> save e m = None -> payload = m)
        /\ (dbConnected e = false -> payload = m))
  /\ messageHistory (state_of r)
     = (if Nat.ltb 100 (length (messageHistory s ++ [m]))
        then slice_last 100 (messageHistory s ++ [m])
        else messageHistory s ++ [m]).
Proof.
  intros G R m r.
  assert (B : Trace.body_rejected (Some body) = false).
  { destruct (Trace.body_rejected (Some body)) eqn:B; auto.
    apply body_rejected_iff in B. contradiction. }
  subst r. rewrite (@handleChatMessage_accepted e s ws clientInfo username
                      G body B).
  fold m. unfold state_of, trace_of. cbn [fst snd messageHistory].
  split; [reflexivity|]. split; [|reflexivity].
  exists (Trace.savedMessage e m). split; [reflexivity|].
  unfold Trace.savedMessage.
  repeat split; intros C; try intros doc D; try intros D;
    rewrite C; try rewrite D; reflexivity.
Qed.

(** C2 applied: with the store connected, "hi" from connection 1 is
    saved, then pushed, then broadcast to connections 1 and 2. *)
Lemma C2_effect_order_witness :
  trace_of (handleChatMessage 1 None (Some (lit "hi"))
                              (Sample.online 7 []) Sample.two_clients)
  = [DbSave (Sample.chat 7 (lit "hi"));
     HistoryPush (Sample.chat 7 (lit "hi"));
     Send 1 (EvMessage (lit "alice") (lit "hi") 7);
     Send 2 (EvMessage (lit "alice") (lit "hi") 7)].
Proof.
  destruct (C2_effect_order (Sample.online 7 []) Sample.two_clients 1
              None (body := lit "hi") eq_refl) as [_ [[p [E [D _]]] _]].
  - intros [H | H]; vm_compute in H; [discriminate | lia].
  - rewrite E. rewrite (D eq_refl (Sample.chat 7 (lit "hi")) eq_refl).
    reflexivity.
Defined.

(** C2 as the specification words it fails on the code: the push on the
    ring buffer does not come before the attempt to persist.  With the
    store connected the save is the first effect and the push the
    second. *)
Lemma C2_counterexample :
  let t := trace_of (handleChatMessage 1 None (Some (lit "hi"))
                       (Sample.online 7 []) Sample.two_clients) in
  Trace.index_of Trace.is_save t = Some 0
  /\ Trace.index_of Trace.is_push t = Some 1.
Proof. vm_compute. split; reflexivity. Qed.

(* ------------------------------------------------------------------ *)
(** ** C3: disconnection *)

(** A disconnection of a registered connection: the entry is deleted
    first, then one [system] event naming the session goes to each
    remaining connection whose socket is open, and none goes to the
    connection that left. *)
Lemma handleDisconnection_registered
    (e : Env) (s : Server) (ws : Conn) (clientInfo : ClientInfo) :
  JSMap.get (clients s) ws = Some clientInfo ->
  ci_username clientInfo <> [] ->
  let r := handleDisconnection ws e s in
  let remaining := JSMap.delete (clients s) ws in
  hd_error (trace_of r) = Some (ClientsDelete ws)
  /\ Trace.system_events (trace_of r)
     = List.map (fun kv => (fst kv,
                            ci_username clientInfo ++ lit " left the chat"))
                (Trace.prune e remaining)
  /\ ~ In ws (List.map fst (Trace.system_events (trace_of r)))
  /\ JSMap.get (clients (state_of r)) ws = None.
Proof.
  intros G N r remaining. subst r. rewrite handleDisconnection_eq.
  unfold state_of, trace_of. cbn [fst snd clients hd_error].
  split; [reflexivity|]. cbn [Trace.system_events].
  rewrite system_events_broadcast.
  assert (L : Trace.leaving s ws = ci_username clientInfo).
  { unfold Trace.leaving. rewrite G. cbn [option_map].
    destruct (ci_username clientInfo); [contradiction|reflexivity]. }
  rewrite L. split; [reflexivity|]. split.
  - rewrite map_map. cbn [fst]. intros I. apply in_map_iff in I.
    destruct I as [kv [E I]]. apply filter_In in I. destruct I as [I _].
    apply (keys_delete (clients s) ws). unfold JSMap.keys.
    apply in_map_iff. exists kv. split; assumption.
  - destruct (JSMap.get (Trace.prune e remaining) ws) eqn:X; auto.
    exfalso. apply (keys_delete (clients s) ws). fold remaining.
    clear - X. unfold JSMap.keys.
    induction remaining as [|[k v] m IH]; simpl in *; [discriminate|].
    destruct (isOpen e k); simpl in X.
    + destruct (Nat.eqb ws k) eqn:K; [apply Nat.eqb_eq in K; auto|auto].
    + auto.
Qed.

(** A disconnection signalled for a connection that is not registered
    (any more) still broadcasts a leave event, under the name
    "Anonymous". *)
Lemma handleDisconnection_unregistered (e : Env) (s : Server) (ws : Conn) :
  JSMap.get (clients s) ws = None ->
  Trace.system_events (trace_of (handleDisconnection ws e s))
  = List.map (fun kv => (fst kv, lit "Anonymous left the chat"))
             (Trace.prune e (JSMap.delete (clients s) ws)).
Proof.
  intros G. rewrite handleDisconnection_eq. unfold trace_of.
  cbn [snd Trace.system_events]. rewrite system_events_broadcast.
  unfold Trace.leaving. rewrite G. reflexivity.
Qed.

(** C3 on the code: connection 1 joins as "alice" and then breaks the
    protocol, which the socket library signals as [error] followed by
    [close].  The first signal announces "alice left the chat" to
    connection 2; the second one announces "Anonymous left the chat" to
    connection 2: two leave events for one disconnection. *)
Theorem C3_double_disconnect_sends_second_leave :
  let e := Sample.offline 7 in
  let s := fst (run [(e, Connection 1); (e, Connection 2);
                     (e, Data 1 (Sample.join (lit "alice")))]
                    constructor) in
  let first := handle (Error 1) (Sample.closing 1 8) s in
  let second := handle (Close 1) (Sample.closing 1 9) (state_of first) in
  Trace.system_events (trace_of first) = [(2, lit "alice left the chat")]
  /\ Trace.system_events (trace_of second)
     = [(2, lit "Anonymous left the chat")].
Proof. vm_compute. split; reflexivity. Qed.

(** The same defect through the pruning of [broadcastMessage]: socket 1,
    joined as "alice", is closing while a message of connection 2 is
    broadcast, so its entry is dropped without a leave event; the [close]
    signal that follows announces "Anonymous left the chat". *)
Lemma pruned_connection_leaves_as_Anonymous :
  let e := Sample.offline 7 in
  let s := fst (run [(e, Connection 1); (e, Connection 2);
                     (e, Data 1 (Sample.join (lit "alice")));
                     (Sample.closing 1 8,
                      Data 2 (Sample.say None (lit "hi")))]
                    constructor) in
  Trace.system_events (trace_of (handle (Close 1) (Sample.closing 1 9) s))
  = [(2, lit "Anonymous left the chat")].
Proof. vm_compute. reflexivity. Qed.

(* ------------------------------------------------------------------ *)
(** ** C4: the display name set by a join *)

(** C4, as the code has it.  For a join frame from a registered connection
    whose socket is open, the session's display name becomes "Anonymous"
    when the username is missing or is the empty string, and becomes the
    username as received, untrimmed, in every other case, a username made
    of whitespace included. *)
Theorem C4_join_sets_display_name
    (e : Env) (s : Server) (ws : Conn) (clientInfo : ClientInfo)
    (username : option jsstring) :
  JSMap.get (clients s) ws = Some clientInfo ->
  isOpen e ws = true ->
  let after := state_of (handleUserJoin ws username e s) in
  exists session,
    JSMap.get (clients after) ws = Some session
    /\ (username = None \/ username = Some [] ->
        ci_username session = lit "Anonymous")
    /\ (forall c rest, username = Some (c :: rest) ->
        ci_username session = c :: rest).
Proof.
  intros G O after. subst after.
  rewrite (handleUserJoin_registered e s ws username G).
  unfold state_of. cbn [fst snd clients].
  rewrite (get_prune_open e _ ws O), get_set_same.
  eexists. split; [reflexivity|]. unfold Trace.joined. cbn [ci_username].
  split.
  - intros [E | E]; subst username; reflexivity.
  - intros c rest E. subst username. reflexivity.
Qed.

(** C4 applied: connection 1 joins as "carol". *)
Lemma C4_join_sets_display_name_witness :
  option_map ci_username
    (JSMap.get
       (clients (state_of (handleUserJoin 1 (Some (lit "carol"))
                             (Sample.offline 7) Sample.two_clients))) 1)
  = Some (lit "carol").
Proof.
  destruct (C4_join_sets_display_name (Sample.offline 7) Sample.two_clients
              1 (Some (lit "carol")) eq_refl eq_refl)
    as [session [E [_ N]]].
  rewrite E. cbn [option_map]. f_equal. apply N. reflexivity.
Defined.

(** C4 as the specification words it fails on the code: a username of
    three spaces is whitespace only, and the display name becomes those
    three spaces, not "Anonymous". *)
Lemma C4_counterexample :
  let name := lit "   " in
  let after := state_of (handleUserJoin 1 (Some name)
                           (Sample.offline 7) Sample.two_clients) in
  trim name = []
  /\ option_map ci_username (JSMap.get (clients after) 1) = Some name
  /\ name <> lit "Anonymous".
Proof. vm_compute. repeat split; try reflexivity. discriminate. Qed.

(* ------------------------------------------------------------------ *)
(** ** The ring buffer along a run without suspension *)

Lemma eqb_eq (a b : jsstring) : JS.eqb a b = true <-> a = b.
Proof.
  unfold JS.eqb. destruct (list_eq_dec N.eq_dec a b); split; auto.
  discriminate.
Qed.

(** The dispatch of [handleMessage] on the two frame types. *)
Lemma handle_join_frame (e : Env) (s : Server) (ws : nat) (f : Frame)
      (ty : jsstring) :
  type f = Some ty -> JS.eqb ty (lit "join") = true ->
  handle (Data ws (Some f)) e s = handleUserJoin ws (f_username f) e s
  /\ Trace.accepted e s (Data ws (Some f)) = None.
Proof.
  intros T J. cbn [handle onMessage]. unfold handleMessage, Trace.accepted.
  rewrite T, J. split; [reflexivity|].
  apply eqb_eq in J. subst ty.
  destruct (JSMap.get (clients s) ws), (f_message f); reflexivity.
Qed.

Lemma handle_message_frame (e : Env) (s : Server) (ws : nat) (f : Frame)
      (ty : jsstring) :
  type f = Some ty -> JS.eqb ty (lit "join") = false ->
  JS.eqb ty (lit "message") = true ->
  handle (Data ws (Some f)) e s
  = handleChatMessage ws (f_username f) (f_message f) e s.
Proof.
  intros T J M. cbn [handle onMessage]. unfold handleMessage.
  rewrite T, J, M. reflexivity.
Qed.

Lemma pushed_slice (h : list ChatMessage) (m : ChatMessage) :
  Trace.pushed h m = slice_last 100 (h ++ [m]).
Proof.
  unfold Trace.pushed. destruct (Nat.ltb 100 (length (h ++ [m]))) eqn:E; auto.
  apply Nat.ltb_ge in E. symmetry. apply slice_last_short. exact E.
Qed.

(** One signal: the ring buffer changes by the push of the accepted
    message, if there is one, and the pushes of the trace are that
    message. *)
Lemma handle_history (e : Env) (s : Server) (i : Signal) :
  messageHistory (state_of (handle i e s))
  = match Trace.accepted e s i with
    | Some m => Trace.pushed (messageHistory s) m
    | None => messageHistory s
    end
  /\ Trace.pushes (trace_of (handle i e s))
     = match Trace.accepted e s i with
       | Some m => [m]
       | None => []
       end.
Proof.
  destruct i as [ws | ws [f|] | ws | ws]; cbn [handle Trace.accepted].
  - unfold handleConnection. run_handler.
    destruct (isOpen e ws); split; reflexivity.
  - unfold onMessage, handleMessage.
    destruct (type f) as [ty|].
    2:{ run_handler. destruct (isOpen e ws); split; reflexivity. }
    destruct (JS.eqb ty (lit "join")) eqn:J.
    { apply eqb_eq in J. subst ty.
      replace (JS.eqb (lit "join") (lit "message")) with false
        by reflexivity.
      destruct (JSMap.get (clients s) ws) as [ci|] eqn:G.
      - rewrite (handleUserJoin_registered e s ws (f_username f) G).
        unfold state_of, trace_of. cbn [fst snd messageHistory].
        rewrite !pushes_app, pushes_broadcast.
        destruct (f_message f), (dbConnected e), (isOpen e ws);
          split; reflexivity.
      - rewrite (handleUserJoin_unregistered e s ws (f_username f) G).
        split; reflexivity. }
    destruct (JS.eqb ty (lit "message")) eqn:T.
    2:{ run_handler.
        destruct (JSMap.get (clients s) ws), (f_message f),
          (isOpen e ws); split; reflexivity. }
    destruct (JSMap.get (clients s) ws) as [ci|] eqn:G.
    2:{ rewrite (handleChatMessage_unregistered e s ws _ _ G).
        split; reflexivity. }
    destruct (f_message f) as [body|].
    2:{ destruct (@handleChatMessage_rejected e s ws ci (f_username f) G
                    None eq_refl) as [text E].
        rewrite E. unfold state_of, trace_of. cbn [fst snd].
        destruct (isOpen e ws); split; reflexivity. }
    destruct (Trace.body_rejected (Some body)) eqn:B; cbn [negb andb].
    + destruct (@handleChatMessage_rejected e s ws ci (f_username f) G
                  (Some body) B) as [text E].
      rewrite E. unfold state_of, trace_of. cbn [fst snd].
      destruct (isOpen e ws); split; reflexivity.
    + rewrite (@handleChatMessage_accepted e s ws ci (f_username f) G
                 body B).
      unfold state_of, trace_of. cbn [fst snd messageHistory].
      rewrite pushes_app. cbn [Trace.pushes]. rewrite pushes_broadcast.
      destruct (dbConnected e); split; reflexivity.
  - unfold onMessage. run_handler.
    destruct (isOpen e ws); split; reflexivity.
  - rewrite handleDisconnection_eq. unfold state_of, trace_of.
    cbn [fst snd messageHistory Trace.pushes].
    rewrite pushes_broadcast. split; reflexivity.
  - rewrite handleDisconnection_eq. unfold state_of, trace_of.
    cbn [fst snd messageHistory Trace.pushes].
    rewrite pushes_broadcast. split; reflexivity.
Qed.

Lemma saves_broadcast (e : Env) (data : ServerEvent) (cs : JSMap.t) :
  Trace.saves (Trace.broadcast e data cs) = [].
Proof.
  induction cs as [|kv cs IH]; simpl; auto.
  destruct (isOpen e (fst kv)); simpl; exact IH.
Qed.

(** The handler of an accepted frame: it pushes the accepted record and
    nothing else, the record ends the ring buffer afterwards, a [message]
    event carrying what the store returned goes to every registered
    connection whose socket is open, and the record is handed to the store
    when the store is connected. *)
Lemma accepted_handled (e : Env) (s : Server) (i : Signal) (m : ChatMessage) :
  Trace.accepted e s i = Some m ->
  let r := handle i e s in
  Trace.pushes (trace_of r) = [m]
  /\ (exists before, messageHistory (state_of r) = before ++ [m])
  /\ Trace.message_events (trace_of r)
     = List.map (fun kv => (fst kv, Trace.savedMessage e m))
                (Trace.prune e (clients s))
  /\ Trace.saves (trace_of r) = if dbConnected e then [m] else [].
Proof.
  unfold Trace.accepted.
  destruct i as [ws | ws [f|] | ws | ws]; try discriminate.
  destruct (type f) as [ty|] eqn:T; [|discriminate].
  destruct (JSMap.get (clients s) ws) as [ci|] eqn:G; [|discriminate].
  destruct (f_message f) as [body|] eqn:F; [|discriminate].
  destruct (JS.eqb ty (lit "message")) eqn:M; [|discriminate].
  destruct (Trace.body_rejected (Some body)) eqn:B; [discriminate|].
  cbn [andb negb]. intros E. injection E as E. subst m. cbn zeta.
  assert (J : JS.eqb ty (lit "join") = false)
    by (apply eqb_eq in M; subst ty; reflexivity).
  rewrite (handle_message_frame e s ws f T J M), F.
  rewrite (@handleChatMessage_accepted e s ws ci (f_username f) G body B).
  unfold state_of, trace_of. cbn [fst snd messageHistory].
  split; [|split; [apply pushed_last | split]].
  - rewrite pushes_app. cbn [Trace.pushes]. rewrite pushes_broadcast.
    destruct (dbConnected e); reflexivity.
  - destruct (dbConnected e); cbn [app Trace.message_events];
      apply message_events_broadcast.
  - destruct (dbConnected e); cbn [app Trace.saves];
      rewrite saves_broadcast; reflexivity.
Qed.

Lemma run_cons (e : Env) (i : Signal) (l : list (Env * Signal))
      (s : Server) :
  run ((e, i) :: l) s
  = (fst (run l (state_of (handle i e s))),
     trace_of (handle i e s) ++ snd (run l (state_of (handle i e s)))).
Proof.
  cbn [run]. destruct (handle i e s) as [[u s1] t1].
  unfold state_of, trace_of. cbn [fst snd].
  destruct (run l s1) as [s2 t2]. reflexivity.
Qed.

(** The ring buffer after a run is the last 100 entries of what it held
    before followed by the accepted messages of the run, and the pushes of
    the run's trace are those accepted messages. *)
Lemma run_history (l : list (Env * Signal)) (s : Server) :
  messageHistory (fst (run l s))
  = (match Trace.accepted_log l s with
     | [] => messageHistory s
     | _ => slice_last 100 (messageHistory s ++ Trace.accepted_log l s)
     end)
  /\ Trace.pushes (snd (run l s)) = Trace.accepted_log l s.
Proof.
  revert s. induction l as [|[e i] l IH]; intros s.
  - split; reflexivity.
  - rewrite run_cons. cbn [fst snd Trace.accepted_log].
    destruct (IH (state_of (handle i e s))) as [IH1 IH2].
    destruct (handle_history e s i) as [H1 H2].
    rewrite pushes_app, IH1, IH2, H1, H2.
    split; [|reflexivity].
    destruct (Trace.accepted e s i) as [m|]; cbn [app]; [|reflexivity].
    rewrite pushed_slice.
    destruct (Trace.accepted_log l (state_of (handle i e s))) as [|x r].
    + reflexivity.
    + rewrite slice_last_slice_app, <- app_assoc. reflexivity.
Qed.

(* ------------------------------------------------------------------ *)
(** ** Sorted lists and the query for recent documents *)

Section RecentQuery.

Implicit Types (m : ChatMessage) (l : list ChatMessage).

Lemma insert_desc_perm m l : Permutation (m :: l) (Message.insert_desc m l).
Proof.
  induction l as [|x r IH]; simpl; auto.
  destruct (ChatMessage.timestamp x <? ChatMessage.timestamp m)%Z; auto.
  rewrite perm_swap. apply perm_skip. exact IH.
Qed.

Lemma sort_desc_perm l : Permutation l (Message.sort_desc l).
Proof.
  induction l as [|x r IH]; simpl; auto.
  rewrite <- insert_desc_perm. apply perm_skip. exact IH.
Qed.

Lemma insert_desc_sorted m l :
  StronglySorted Trace.newer l ->
  StronglySorted Trace.newer (Message.insert_desc m l).
Proof.
  induction l as [|x r IH]; intros S; simpl.
  - constructor; constructor.
  - apply StronglySorted_inv in S. destruct S as [S F].
    destruct (ChatMessage.timestamp x <? ChatMessage.timestamp m)%Z eqn:C.
    + apply Z.ltb_lt in C. constructor; [constructor; assumption|].
      constructor; [unfold Trace.newer; lia|].
      rewrite Forall_forall in *. intros y I. specialize (F y I).
      unfold Trace.newer in *. lia.
    + apply Z.ltb_ge in C. constructor; [apply IH; exact S|].
      rewrite Forall_forall in *. intros y I.
      apply (Permutation_in _ (Permutation_sym (insert_desc_perm m r)))
        in I.
      destruct I as [E | I]; [subst y; exact C | apply F; exact I].
Qed.

Lemma sort_desc_sorted l : StronglySorted Trace.newer (Message.sort_desc l).
Proof.
  induction l as [|x r IH]; simpl; [constructor|].
  apply insert_desc_sorted. exact IH.
Qed.

Lemma sorted_app_inv (R : ChatMessage -> ChatMessage -> Prop) l1 l2 :
  StronglySorted R (l1 ++ l2) ->
  StronglySorted R l1 /\ StronglySorted R l2
  /\ (forall x y, In x l1 -> In y l2 -> R x y).
Proof.
  induction l1 as [|a l1 IH]; simpl; intros S.
  - split; [constructor|]. split; [exact S|]. intros x y [].
  - apply StronglySorted_inv in S. destruct S as [S F].
    destruct (IH S) as [S1 [S2 C]]. rewrite Forall_forall in F.
    split.
    + constructor; [exact S1|]. rewrite Forall_forall. intros y I.
      apply F. apply in_or_app. left. exact I.
    + split; [exact S2|]. intros x y [E | I] J.
      * subst x. apply F. apply in_or_app. right. exact J.
      * apply C; assumption.
Qed.

Lemma sorted_snoc (R : ChatMessage -> ChatMessage -> Prop) l m :
  StronglySorted R l -> (forall x, In x l -> R x m) ->
  StronglySorted R (l ++ [m]).
Proof.
  induction l as [|a l IH]; simpl; intros S C.
  - constructor; constructor.
  - apply StronglySorted_inv in S. destruct S as [S F].
    constructor; [apply IH; auto|].
    rewrite Forall_forall in *. intros y I. apply in_app_or in I.
    destruct I as [I | [E | []]]; [apply F; exact I|].
    subst y. apply C. left. reflexivity.
Qed.

Lemma sorted_rev l :
  StronglySorted Trace.newer l -> StronglySorted Trace.older (rev l).
Proof.
  induction l as [|a l IH]; simpl; intros S; [constructor|].
  apply StronglySorted_inv in S. destruct S as [S F].
  apply sorted_snoc; [apply IH; exact S|].
  rewrite Forall_forall in F. intros x I. apply in_rev in I.
  apply (F x I).
Qed.

Lemma sorted_slice_last (R : ChatMessage -> ChatMessage -> Prop) l n :
  StronglySorted R l -> StronglySorted R (slice_last n l).
Proof.
  intros S. destruct (slice_last_suffix l n) as [before E].
  rewrite E in S. apply sorted_app_inv in S. tauto.
Qed.

End RecentQuery.

(* ------------------------------------------------------------------ *)
(** ** The ring buffer is oldest first when the clock does not go back *)

Lemma accepted_timestamp (e : Env) (s : Server) (i : Signal)
      (m : ChatMessage) :
  Trace.accepted e s i = Some m -> ChatMessage.timestamp m = now e.
Proof.
  unfold Trace.accepted.
  destruct i as [ws | ws [f|] | ws | ws]; try discriminate.
  destruct (type f), (JSMap.get (clients s) ws), (f_message f);
    try discriminate.
  destruct (_ && _); [|discriminate].
  intros E. injection E as E. subst m. reflexivity.
Qed.

Lemma in_slice_last {A} (n : nat) (l : list A) (x : A) :
  In x (slice_last n l) -> In x l.
Proof.
  intros I. destruct (slice_last_suffix l n) as [before E].
  rewrite E. apply in_or_app. right. exact I.
Qed.

Lemma handle_oldest_first (e : Env) (s : Server) (i : Signal) (t : Z) :
  Trace.oldest_first t (messageHistory s) -> (t <= now e)%Z ->
  Trace.oldest_first (now e) (messageHistory (state_of (handle i e s))).
Proof.
  intros [S B] L. destruct (handle_history e s i) as [H _]. rewrite H.
  destruct (Trace.accepted e s i) as [m|] eqn:A.
  - apply accepted_timestamp in A. rewrite pushed_slice.
    assert (S' : StronglySorted Trace.older (messageHistory s ++ [m])).
    { apply sorted_snoc; [exact S|]. intros x I. specialize (B x I).
      unfold Trace.older. lia. }
    split; [apply sorted_slice_last; exact S'|].
    intros x I. apply in_slice_last in I. apply in_app_or in I.
    destruct I as [I | [E | []]]; [specialize (B x I); lia|].
    subst x. lia.
  - split; [exact S|]. intros x I. specialize (B x I). lia.
Qed.

(** Along a run whose clock does not go back, a ring buffer that is
    oldest first stays so; this holds of every run from a fresh manager. *)
Lemma run_oldest_first (l : list (Env * Signal)) (s : Server) (t : Z) :
  Trace.oldest_first t (messageHistory s) ->
  Trace.clock_monotone t l ->
  StronglySorted Trace.older (messageHistory (fst (run l s))).
Proof.
  revert s t. induction l as [|[e i] l IH]; intros s t O M.
  - destruct O as [S _]. exact S.
  - destruct M as [L M]. rewrite run_cons. cbn [fst].
    apply (IH _ (now e)); [|exact M].
    apply (handle_oldest_first e s i O L).
Qed.

(** The 101st accepted message evicts the first. *)
Example ring_buffer_evicts_oldest :
  let frames :=
    List.map (fun n => (Sample.offline (Z.of_nat n),
                        Data 1 (Sample.say None (lit "x"))))
             (seq 1 101) in
  let h := messageHistory
             (fst (run ((Sample.offline 0, Connection 1) :: frames)
                       constructor)) in
  List.map ChatMessage.timestamp h = List.map Z.of_nat (seq 2 100).
Proof. vm_compute. reflexivity. Qed.

(* ------------------------------------------------------------------ *)
(** ** The two sources of a history *)

(** The documents of the query, reversed: at most [n], oldest first, and
    nothing left out is more recent than one of them. *)
Lemma recent_documents (docs : list ChatMessage) (n : nat) :
  let h := rev (firstn n (Message.sort_desc docs)) in
  length h <= n
  /\ StronglySorted Trace.older h
  /\ exists left_out,
       Permutation docs (h ++ left_out)
       /\ forall x y, In x h -> In y left_out -> Trace.older y x.
Proof.
  intros h. subst h. split; [rewrite length_rev, length_firstn; lia|].
  pose proof (sort_desc_sorted docs) as S.
  pose proof (sort_desc_perm docs) as P.
  rewrite <- (firstn_skipn n (Message.sort_desc docs)) in S, P.
  apply sorted_app_inv in S. destruct S as [S1 [_ S3]].
  split; [apply sorted_rev; exact S1|].
  exists (skipn n (Message.sort_desc docs)). split.
  - apply (Permutation_trans P). apply Permutation_app_tail.
    apply Permutation_rev.
  - intros x y I J. apply in_rev in I. apply (S3 x y I J).
Qed.

(** The end of the ring buffer: at most [n] entries, in the order of the
    buffer, hence oldest first when the buffer is. *)
Lemma buffer_tail (buffer : list ChatMessage) (n : nat) :
  let h := slice_last n buffer in
  length h <= n
  /\ (exists before, buffer = before ++ h)
  /\ (StronglySorted Trace.older buffer -> StronglySorted Trace.older h).
Proof.
  intros h. subst h. split; [rewrite slice_last_length; lia|].
  split; [apply slice_last_suffix | apply sorted_slice_last].
Qed.

(* ------------------------------------------------------------------ *)
(** ** C7: the delays of the client's reconnect attempts *)

Section ClientReconnect.

Import ChatInterface.

Lemma onclose_unclean (c : Client) :
  snd (onclose false c)
  = if Nat.ltb (reconnectAttempts c) maxReconnectAttempts
    then [SetTimeout (nextTimer c) (delay_of (S (reconnectAttempts c)))]
    else [].
Proof.
  unfold onclose. cbn [negb andb].
  destruct (Nat.ltb (reconnectAttempts c) maxReconnectAttempts); reflexivity.
Qed.

(** C7.  From a mounted client, five unclean closures in a row schedule
    reconnects after 1000, 2000, 4000, 8000 and 10000 ms, the fifth being
    the cap on 1000 * 2^4 = 16000; so do five unclean closures each
    followed by the firing of its timer.  A sixth unclean closure schedules
    nothing.  A clean closure schedules nothing and leaves the refs as they
    are, in every state; an unclean one schedules exactly when fewer than 5
    attempts have been made. *)
Theorem C7_reconnect_delays :
  delays (snd (ChatInterface.run (repeat (Closed false) 5) mount))
  = [1000; 2000; 4000; 8000; 10000]%Z
  /\ delays (snd (ChatInterface.run
                    [Closed false; Fires 1; Closed false; Fires 2;
                     Closed false; Fires 3; Closed false; Fires 4;
                     Closed false; Fires 5] mount))
     = [1000; 2000; 4000; 8000; 10000]%Z
  /\ (1000 * 2 ^ (Z.of_nat 5 - 1) = 16000 /\ delay_of 5 = 10000)%Z
  /\ snd (ChatInterface.run (repeat (Closed false) 6) mount)
     = snd (ChatInterface.run (repeat (Closed false) 5) mount)
  /\ snd (on (Closed false)
             (fst (ChatInterface.run (repeat (Closed false) 5) mount)))
     = []
  /\ (forall c, on (Closed true) c = (c, []))
  /\ (forall c,
        delays (snd (on (Closed false) c))
        = if Nat.ltb (reconnectAttempts c) 5
          then [Z.min (1000 * 2 ^ (Z.of_nat (S (reconnectAttempts c)) - 1))
                      10000]
          else []).
Proof.
  repeat split; try (vm_compute; reflexivity).
  - intros c. cbn [on]. rewrite onclose_unclean.
    change maxReconnectAttempts with 5.
    destruct (Nat.ltb (reconnectAttempts c) 5); reflexivity.
Qed.

(* ------------------------------------------------------------------ *)
(** ** C8: pending reconnect timers *)

Lemma clearTimeout_gone (id : nat) (l : list (nat * Z)) (d : Z) :
  ~ In (id, d) (clearTimeout id l).
Proof.
  unfold clearTimeout. intros I. apply filter_In in I.
  destruct I as [_ I]. cbn [fst] in I. rewrite Nat.eqb_refl in I.
  discriminate.
Qed.

(** C8, as the code has it.  [ws.onclose] never cancels a timer.  When it
    schedules a reconnect it adds one timer to the pending ones and
    overwrites the stored handle with the new one; so one timer is pending
    afterwards when none was pending before, and the count grows by one
    otherwise.  The cancellation is in the effect cleanup alone, which
    clears the timer whose handle is stored. *)
Theorem C8_onclose_adds_a_timer (wasClean : bool) (c : Client) :
  let c' := fst (onclose wasClean c) in
  let t := snd (onclose wasClean c) in
  (forall id, ~ In (ClearTimeout id) t)
  /\ (t = [] /\ c' = c
      \/ exists delay,
           t = [SetTimeout (nextTimer c) delay]
           /\ pendingTimers c' = pendingTimers c ++ [(nextTimer c, delay)]
           /\ length (pendingTimers c') = S (length (pendingTimers c))
           /\ reconnectTimeoutRef c' = Some (nextTimer c))
  /\ (pendingTimers c = [] -> length (pendingTimers c') <= 1)
  /\ (forall id, reconnectTimeoutRef c = Some id ->
        snd (cleanup c) = [ClearTimeout id]
        /\ forall delay,
             ~ In (id, delay) (pendingTimers (fst (cleanup c)))).
Proof.
  intros c' t. subst c' t. unfold onclose.
  destruct (negb wasClean
            && Nat.ltb (reconnectAttempts c) maxReconnectAttempts);
    cbn [fst snd pendingTimers reconnectTimeoutRef].
  - split; [intros id [X | []]; discriminate|].
    split.
    + right. eexists. split; [reflexivity|]. split; [reflexivity|].
      split; [rewrite length_app; cbn [length]; lia | reflexivity].
    + split; [intros E; rewrite E; cbn [app length]; lia|].
      intros id R. unfold cleanup. rewrite R. cbn [fst snd pendingTimers].
      split; [reflexivity|]. intros delay. apply clearTimeout_gone.
  - split; [intros id []|]. split; [left; split; reflexivity|].
    split; [intros E; rewrite E; cbn [length]; lia|].
    intros id R. unfold cleanup. rewrite R. cbn [fst snd pendingTimers].
    split; [reflexivity|]. intros delay. apply clearTimeout_gone.
Qed.

(** C8 applied: the first unclean closure of a mounted client leaves one
    pending timer. *)
Lemma C8_onclose_adds_a_timer_witness :
  length (pendingTimers (fst (onclose false mount))) <= 1.
Proof.
  destruct (C8_onclose_adds_a_timer false mount) as [_ [_ [H _]]].
  apply H. reflexivity.
Defined.

(** C8 as the specification words it fails on the code: two sockets of
    one client close uncleanly before the first timer fires; the second
    closure schedules its timer without cancelling the first, and two
    reconnect timers are pending, one of which no handle refers to. *)
Lemma C8_counterexample :
  let c := fst (ChatInterface.run [Closed false; Closed false] mount) in
  let t := snd (ChatInterface.run [Closed false; Closed false] mount) in
  t = [SetTimeout 1 1000; SetTimeout 2 2000]
  /\ pendingTimers c = [(1, 1000%Z); (2, 2000%Z)]
  /\ reconnectTimeoutRef c = Some 2
  /\ pendingTimers (fst (cleanup c)) = [(1, 1000%Z)].
Proof. vm_compute. repeat split; reflexivity. Qed.

End ClientReconnect.

(* ------------------------------------------------------------------ *)
(** ** C9: the limit on the username *)

Lemma save_with_username (writeFails : bool) (m doc : ChatMessage) :
  Message.save_with writeFails m = Some doc ->
  ChatMessage.username doc = trim (ChatMessage.username m)
  /\ 1 <= length (ChatMessage.username doc) <= 50.
Proof.
  unfold Message.save_with.
  destruct (Message.validate (Message.cast m)) eqn:V; [|discriminate].
  destruct writeFails; [discriminate|]. cbn [negb andb].
  intros E. injection E as E. subst doc. split; [reflexivity|].
  unfold Message.validate in V.
  repeat (apply andb_true_iff in V; destruct V as [V ?]).
  apply negb_true_iff, Nat.eqb_neq in V.
  match goal with H : Nat.leb _ 50 = true |- _ => apply Nat.leb_le in H end.
  lia.
Qed.

Lemma save_with_long_username (writeFails : bool) (m : ChatMessage) :
  50 < length (trim (ChatMessage.username m)) ->
  Message.save_with writeFails m = None.
Proof.
  intros L. destruct (Message.save_with writeFails m) as [doc|] eqn:E; auto.
  apply save_with_username in E. destruct E as [E B].
  rewrite E in B. lia.
Qed.

(** C9, as the code has it.  The handlers put no limit on the username:
    for an accepted message frame the sender name is the frame's username,
    or else the session's name, untrimmed and of any length, and the record
    carrying it is pushed on the ring buffer.  The limit of 50 characters
    after trimming belongs to the store's schema alone: a record whose
    trimmed name is longer is never stored, and then the broadcast carries
    the local record with the long name; a document the store returns has a
    trimmed name of 1 to 50 characters. *)
Theorem C9_username_limit_only_in_schema
    (e : Env) (s : Server) (ws : Conn) (clientInfo : ClientInfo)
    (username : option jsstring) (body : jsstring) (writeFails : bool) :
  JSMap.get (clients s) ws = Some clientInfo ->
  ~ Trace.rejects (Some body) ->
  save e = Message.save_with writeFails ->
  let m := Trace.messageData e clientInfo username body in
  let r := handleChatMessage ws username (Some body) e s in
  ChatMessage.username m = or_else username (ci_username clientInfo)
  /\ Trace.pushes (trace_of r) = [m]
  /\ (50 < length (trim (ChatMessage.username m)) ->
      save e m = None
      /\ Trace.message_events (trace_of r)
         = List.map (fun kv => (fst kv, m)) (Trace.prune e (clients s)))
  /\ (forall doc, save e m = Some doc ->
        ChatMessage.username doc = trim (ChatMessage.username m)
        /\ 1 <= length (ChatMessage.username doc) <= 50).
Proof.
  intros G R S m r.
  destruct (@accepted_observations e s ws clientInfo username body G R)
    as [P [_ V]].
  fold m in P, V. fold r in P, V.
  split; [reflexivity|]. split; [exact P|]. split.
  - intros L.
    assert (N : save e m = None)
      by (rewrite S; apply save_with_long_username; exact L).
    split; [exact N|]. rewrite V. unfold Trace.savedMessage. rewrite N.
    destruct (dbConnected e); reflexivity.
  - intros doc D. rewrite S in D. apply save_with_username in D. exact D.
Qed.

(** C9 applied: with the store connected, a frame whose username is 51
    times ['a'] is pushed on the ring buffer under that name. *)
Lemma C9_username_limit_only_in_schema_witness :
  List.map (fun m => length (ChatMessage.username m))
    (Trace.pushes
       (trace_of (handleChatMessage 1 (Some (repeat 97%N 51))
                    (Some (lit "hi"))
                    (Sample.online 7 []) Sample.two_clients)))
  = [51].
Proof.
  destruct (C9_username_limit_only_in_schema
              (Sample.online 7 []) Sample.two_clients 1
              (Some (repeat 97%N 51)) (body := lit "hi")
              (writeFails := false) eq_refl)
    as [_ [P _]].
  - intros [H | H]; vm_compute in H; [discriminate | lia].
  - reflexivity.
  - rewrite P. reflexivity.
Defined.

(** C9 as the specification words it fails on the code: a frame whose
    username is 51 times ['a'] is accepted; the name, 51 characters long
    after trimming, is stored in the ring buffer and is the sender name of
    the [message] event sent to connections 1 and 2. *)
Lemma C9_counterexample :
  let name := repeat 97%N 51 in
  let r := handleChatMessage 1 (Some name) (Some (lit "hi"))
                             (Sample.online 7 []) Sample.two_clients in
  length (trim name) = 51
  /\ List.map ChatMessage.username (messageHistory (state_of r)) = [name]
  /\ List.map (fun x => (fst x, ChatMessage.username (snd x)))
              (Trace.message_events (trace_of r))
     = [(1, name); (2, name)].
Proof. vm_compute. repeat split; reflexivity. Qed.

(* ------------------------------------------------------------------ *)
(** ** C10: the ring buffer keeps the record built locally *)

(** C10.  For an accepted message frame the record pushed on the ring
    buffer is the one built locally (the frame's username or else the
    session's name, the trimmed body, the server's clock), and it is the
    last entry of the buffer afterwards, whatever the store does.  When the
    store is connected and returns a document, every [message] event sent
    carries that document; so when the document differs from the local
    record, what is broadcast differs from what the ring buffer holds. *)
Theorem C10_ring_buffer_keeps_local_record
    (e : Env) (s : Server) (ws : Conn) (clientInfo : ClientInfo)
    (username : option jsstring) (body : jsstring) (doc : ChatMessage) :
  JSMap.get (clients s) ws = Some clientInfo ->
  ~ Trace.rejects (Some body) ->
  let m := {| ChatMessage.username :=
                or_else username (ci_username clientInfo);
              ChatMessage.message := trim body;
              ChatMessage.timestamp := now e |} in
  let r := handleChatMessage ws username (Some body) e s in
  Trace.pushes (trace_of r) = [m]
  /\ (exists before, messageHistory (state_of r) = before ++ [m])
  /\ (dbConnected e = true -> save e m = Some doc ->
      Trace.message_events (trace_of r)
      = List.map (fun kv => (fst kv, doc)) (Trace.prune e (clients s))
      /\ (doc <> m ->
          forall to sent, In (to, sent) (Trace.message_events (trace_of r)) ->
                          sent <> m)).
Proof.
  intros G R m r.
  destruct (@accepted_observations e s ws clientInfo username body G R)
    as [P [L V]].
  change (Trace.messageData e clientInfo username body) with m in P, L, V.
  fold r in P, L, V.
  split; [exact P|]. split; [exact L|].
  intros C D.
  assert (S : Trace.savedMessage e m = doc).
  { unfold Trace.savedMessage. rewrite C, D. reflexivity. }
  rewrite S in V. split; [exact V|].
  intros N to sent I. rewrite V in I. apply in_map_iff in I.
  destruct I as [kv [I _]]. injection I as _ I. subst sent. exact N.
Qed.

(** C10 applied: the frame names its sender [" bob "]; the schema trims
    the name, so the store returns ["bob"], which is broadcast, while the
    ring buffer holds [" bob "]. *)
Lemma C10_ring_buffer_keeps_local_record_witness :
  let r := handleChatMessage 1 (Some (lit " bob ")) (Some (lit "hi"))
                             (Sample.online 7 []) Sample.two_clients in
  messageHistory (state_of r)
  = [{| ChatMessage.username := lit " bob ";
        ChatMessage.message := lit "hi"; ChatMessage.timestamp := 7 |}]
  /\ Trace.message_events (trace_of r)
     = [(1, {| ChatMessage.username := lit "bob";
               ChatMessage.message := lit "hi";
               ChatMessage.timestamp := 7 |});
        (2, {| ChatMessage.username := lit "bob";
               ChatMessage.message := lit "hi";
               ChatMessage.timestamp := 7 |})].
Proof.
  destruct (C10_ring_buffer_keeps_local_record
              (Sample.online 7 []) Sample.two_clients 1
              (Some (lit " bob ")) (body := lit "hi")
              {| ChatMessage.username := lit "bob";
                 ChatMessage.message := lit "hi";
                 ChatMessage.timestamp := 7 |} eq_refl)
    as [_ [_ B]].
  - intros [H | H]; vm_compute in H; [discriminate | lia].
  - split; [reflexivity|].
    destruct (B eq_refl eq_refl) as [V _]. exact V.
Defined.

(* ------------------------------------------------------------------ *)
(** ** Trimming *)

Section Trimming.

Implicit Types (s : jsstring) (c : N).

Lemma trimStart_length s : length (trimStart s) <= length s.
Proof.
  induction s as [|c s IH]; simpl; auto.
  destruct (is_ws c); simpl; lia.
Qed.

Lemma trim_length s : length (trim s) <= length s.
Proof.
  unfold trim, trimEnd. rewrite length_rev.
  etransitivity; [apply trimStart_length|].
  rewrite length_rev. apply trimStart_length.
Qed.

Lemma trimStart_head c s : is_ws c = false -> trimStart (c :: s) = c :: s.
Proof. intros H. simpl. rewrite H. reflexivity. Qed.

(** Trimming the start leaves the empty string or a string that starts
    with a character that is not whitespace. *)
Lemma trimStart_cases s :
  trimStart s = []
  \/ exists c r, trimStart s = c :: r /\ is_ws c = false.
Proof.
  induction s as [|c s IH]; simpl; auto.
  destruct (is_ws c) eqn:E; auto. right. exists c, s. auto.
Qed.

Lemma trimStart_snoc s c :
  is_ws c = false -> exists r, trimStart (s ++ [c]) = r ++ [c].
Proof.
  intros H. induction s as [|a s IH]; simpl.
  - rewrite H. exists []. reflexivity.
  - destruct (is_ws a); [exact IH|]. exists (a :: s). reflexivity.
Qed.

Lemma trimEnd_head c s :
  is_ws c = false -> exists r, trimEnd (c :: s) = c :: r.
Proof.
  intros H. unfold trimEnd. cbn [rev].
  destruct (@trimStart_snoc (rev s) c H) as [r E]. rewrite E.
  rewrite rev_app_distr. exists (rev r). reflexivity.
Qed.

Lemma trimStart_idempotent s : trimStart (trimStart s) = trimStart s.
Proof.
  destruct (trimStart_cases s) as [E | [c [r [E H]]]]; rewrite E;
    [reflexivity | apply (@trimStart_head c r H)].
Qed.

Lemma trimEnd_idempotent s : trimEnd (trimEnd s) = trimEnd s.
Proof.
  unfold trimEnd. rewrite rev_involutive, trimStart_idempotent.
  reflexivity.
Qed.

Lemma trim_idempotent s : trim (trim s) = trim s.
Proof.
  unfold trim.
  destruct (trimStart_cases s) as [E | [c [r [E H]]]]; rewrite E.
  - reflexivity.
  - destruct (@trimEnd_head c r H) as [r' E']. rewrite E'.
    rewrite (@trimStart_head c r' H), <- E'. apply trimEnd_idempotent.
Qed.

Lemma trimStart_no_ws s :
  Forall (fun c => is_ws c = false) s -> trimStart s = s.
Proof.
  intros F. destruct F as [|c s H F]; [reflexivity|].
  apply (@trimStart_head c s H).
Qed.

Lemma trim_no_ws s : Forall (fun c => is_ws c = false) s -> trim s = s.
Proof.
  intros F. unfold trim, trimEnd. rewrite (@trimStart_no_ws s F).
  rewrite trimStart_no_ws; [apply rev_involutive|].
  apply Forall_rev. exact F.
Qed.

Lemma trim_empty_iff s : length (trim s) = 0 <-> trim s = [].
Proof. destruct (trim s); simpl; split; congruence. Qed.

End Trimming.

(* ------------------------------------------------------------------ *)
(** ** The registry under [set], [delete] and the pruning *)

Section RegistryFacts.

Implicit Types (m : JSMap.t) (k : nat) (v : ClientInfo).

Lemma get_in m k v : JSMap.get m k = Some v -> In (k, v) m.
Proof.
  induction m as [|[k' v'] r IH]; simpl; [discriminate|].
  destruct (Nat.eqb k k') eqn:E.
  - apply Nat.eqb_eq in E. intros X. injection X as X. subst. auto.
  - auto.
Qed.

Lemma get_none_keys m k : JSMap.get m k = None <-> ~ In k (JSMap.keys m).
Proof.
  induction m as [|[k' v'] r IH]; simpl; [tauto|].
  destruct (Nat.eqb k k') eqn:E.
  - apply Nat.eqb_eq in E. subst. split; [discriminate | tauto].
  - apply Nat.eqb_neq in E. rewrite IH. split.
    + intros H [X | X]; [congruence | exact (H X)].
    + intros H X. apply H. right. exact X.
Qed.

Lemma get_set_other m k k' v :
  k' <> k -> JSMap.get (JSMap.set m k v) k' = JSMap.get m k'.
Proof.
  intros N. induction m as [|[a b] r IH]; simpl.
  - apply Nat.eqb_neq in N. rewrite N. reflexivity.
  - destruct (Nat.eqb k a) eqn:E; simpl.
    + apply Nat.eqb_eq in E. subst a.
      apply Nat.eqb_neq in N. rewrite N. reflexivity.
    + rewrite IH. reflexivity.
Qed.

Lemma get_delete_other m k k' :
  k' <> k -> JSMap.get (JSMap.delete m k) k' = JSMap.get m k'.
Proof.
  intros N. induction m as [|[a b] r IH]; simpl; auto.
  destruct (Nat.eqb k a) eqn:E; simpl.
  - apply Nat.eqb_eq in E. subst a.
    apply Nat.eqb_neq in N. rewrite N. exact IH.
  - rewrite IH. reflexivity.
Qed.

Lemma get_prune_closed (e : Env) m k :
  isOpen e k = false -> JSMap.get (Trace.prune e m) k = None.
Proof.
  intros C. induction m as [|[a b] r IH]; simpl; auto.
  destruct (isOpen e a) eqn:O; simpl; auto.
  destruct (Nat.eqb k a) eqn:E; auto.
  apply Nat.eqb_eq in E. congruence.
Qed.

(** [set] on a key that is present keeps the keys; on a new key it adds
    it at the end. *)
Lemma keys_set m k v :
  JSMap.keys (JSMap.set m k v)
  = match JSMap.get m k with
    | Some _ => JSMap.keys m
    | None => JSMap.keys m ++ [k]
    end.
Proof.
  induction m as [|[a b] r IH]; simpl; auto.
  destruct (Nat.eqb k a) eqn:E; simpl.
  - apply Nat.eqb_eq in E. subst. reflexivity.
  - rewrite IH. destruct (JSMap.get r k); reflexivity.
Qed.

Lemma in_set m k v (x : nat * ClientInfo) :
  In x (JSMap.set m k v) -> x = (k, v) \/ In x m.
Proof.
  induction m as [|[a b] r IH]; simpl.
  - intros [H | []]; auto.
  - destruct (Nat.eqb k a); simpl; intros [H | H]; auto.
    destruct (IH H); auto.
Qed.

Lemma nodup_keys_set m k v :
  NoDup (JSMap.keys m) -> NoDup (JSMap.keys (JSMap.set m k v)).
Proof.
  intros N. rewrite keys_set.
  destruct (JSMap.get m k) eqn:G; auto.
  apply get_none_keys in G.
  apply NoDup_rev in N. rewrite <- (rev_involutive (_ ++ _)).
  apply NoDup_rev. rewrite rev_app_distr. simpl. constructor; auto.
  rewrite <- in_rev. exact G.
Qed.

Lemma nodup_keys_filter (p : nat * ClientInfo -> bool) m :
  NoDup (JSMap.keys m) -> NoDup (JSMap.keys (filter p m)).
Proof.
  unfold JSMap.keys. induction m as [|x r IH]; simpl; auto.
  intros N. inversion N as [|a l X Y]; subst.
  destruct (p x); simpl; auto. constructor; auto.
  intros I. apply X. apply in_map_iff in I. destruct I as [y [E I]].
  apply filter_In in I. rewrite <- E. apply in_map. tauto.
Qed.

Lemma length_set m k v :
  length (JSMap.set m k v)
  = match JSMap.get m k with
    | Some _ => length m
    | None => S (length m)
    end.
Proof.
  induction m as [|[a b] r IH]; simpl; auto.
  destruct (Nat.eqb k a); simpl; auto.
  rewrite IH. destruct (JSMap.get r k); reflexivity.
Qed.

Lemma length_filter_le (p : nat * ClientInfo -> bool) m :
  length (filter p m) <= length m.
Proof.
  induction m as [|x r IH]; simpl; auto. destruct (p x); simpl; lia.
Qed.

End RegistryFacts.

Lemma or_else_nonempty (v : option jsstring) (d : jsstring) :
  d <> [] -> or_else v d <> [].
Proof. intros N. destruct v as [[|c r]|]; simpl; auto. discriminate. Qed.

Lemma handleConnection_eq (e : Env) (s : Server) (ws : nat) :
  handleConnection ws e s
  = (tt,
     {| clients :=
          JSMap.set (clients s) ws
            {| ci_username := lit "Anonymous"; connectedAt := now e |};
        messageHistory := messageHistory s |},
     if isOpen e ws
     then [Send ws (EvConnection (lit "Connected to chat server"))]
     else []).
Proof.
  unfold handleConnection. run_handler.
  destruct (isOpen e ws); reflexivity.
Qed.

Lemma sendError_eq (e : Env) (s : Server) (ws : nat) (text : jsstring) :
  sendError ws text e s
  = (tt, s, if isOpen e ws then [Send ws (EvError text)] else []).
Proof. run_handler. destruct (isOpen e ws); reflexivity. Qed.

(** The registry after one signal: the registry before it, with at most
    one entry set (by a connection or by a join of a registered
    connection) or one key deleted, and then possibly pruned. *)
Lemma handle_registry (e : Env) (s : Server) (i : Signal) :
  exists base,
    (clients (state_of (handle i e s)) = base
     \/ clients (state_of (handle i e s)) = Trace.prune e base)
    /\ (base = clients s
        \/ (exists ws,
              i = Connection ws
              /\ base = JSMap.set (clients s) ws
                          {| ci_username := lit "Anonymous";
                             connectedAt := now e |})
        \/ (exists ws clientInfo u,
              JSMap.get (clients s) ws = Some clientInfo
              /\ base = JSMap.set (clients s) ws
                          (Trace.joined clientInfo u))
        \/ (exists ws, base = JSMap.delete (clients s) ws)).
Proof.
  destruct i as [ws | ws [f|] | ws | ws]; cbn [handle].
  - rewrite handleConnection_eq. eexists. split; [left; reflexivity|].
    right. left. eauto.
  - unfold onMessage, handleMessage.
    destruct (type f) as [ty|];
      [|rewrite sendError_eq; exists (clients s); auto].
    destruct (JS.eqb ty (lit "join")).
    { destruct (JSMap.get (clients s) ws) as [ci|] eqn:G.
      - rewrite (handleUserJoin_registered e s ws (f_username f) G).
        eexists. split; [right; reflexivity|].
        right. right. left. eauto.
      - rewrite (handleUserJoin_unregistered e s ws (f_username f) G).
        exists (clients s). auto. }
    destruct (JS.eqb ty (lit "message"));
      [|rewrite sendError_eq; exists (clients s); auto].
    destruct (JSMap.get (clients s) ws) as [ci|] eqn:G.
    2:{ rewrite (handleChatMessage_unregistered e s ws _ _ G).
        exists (clients s). auto. }
    destruct (Trace.body_rejected (f_message f)) eqn:B.
    + destruct (@handleChatMessage_rejected e s ws ci (f_username f) G
                  (f_message f) B) as [text E].
      rewrite E. exists (clients s). auto.
    + destruct (f_message f) as [body|]; [|discriminate B].
      rewrite (@handleChatMessage_accepted e s ws ci (f_username f) G
                 body B).
      exists (clients s). auto.
  - unfold onMessage. rewrite sendError_eq. exists (clients s). auto.
  - rewrite handleDisconnection_eq. eexists.
    split; [right; reflexivity|]. right. right. right. eauto.
  - rewrite handleDisconnection_eq. eexists.
    split; [right; reflexivity|]. right. right. right. eauto.
Qed.

(* ------------------------------------------------------------------ *)
(** ** What every run keeps *)

Lemma accepted_well_formed (e : Env) (s : Server) (i : Signal)
      (m : ChatMessage) :
  (forall ws clientInfo,
     In (ws, clientInfo) (clients s) -> ci_username clientInfo <> []) ->
  Trace.accepted e s i = Some m -> Registry.well_formed m.
Proof.
  intros N. unfold Trace.accepted.
  destruct i as [ws | ws [f|] | ws | ws]; try discriminate.
  destruct (type f) as [ty|]; [|discriminate].
  destruct (JSMap.get (clients s) ws) as [ci|] eqn:G; [|discriminate].
  destruct (f_message f) as [body|]; [|discriminate].
  destruct (JS.eqb ty (lit "message")); [|discriminate].
  destruct (Trace.body_rejected (Some body)) eqn:B; [discriminate|].
  cbn [andb negb]. intros E. injection E as E. subst m.
  cbn [Trace.body_rejected] in B. apply orb_false_iff in B.
  destruct B as [B1 B2]. apply Nat.eqb_neq in B1. apply Nat.ltb_ge in B2.
  unfold Registry.well_formed, Trace.messageData.
  cbn [ChatMessage.username ChatMessage.message].
  split; [apply or_else_nonempty; apply (N ws ci); apply get_in; exact G|].
  split; [apply trim_idempotent|].
  pose proof (trim_length body). lia.
Qed.

Lemma handle_consistent (e : Env) (s : Server) (i : Signal) :
  Registry.consistent s -> Registry.consistent (state_of (handle i e s)).
Proof.
  intros [D [N W]]. split; [|split].
  - destruct (handle_registry e s i) as [base [S B]].
    assert (X : NoDup (JSMap.keys base)).
    { destruct B as [B | [[ws [_ B]] | [[ws [ci [u [_ B]]]] | [ws B]]]];
        subst base; auto using nodup_keys_set, nodup_keys_filter.
      apply nodup_keys_filter. exact D. }
    destruct S as [S | S]; rewrite S; auto using nodup_keys_filter.
    apply nodup_keys_filter. exact X.
  - destruct (handle_registry e s i) as [base [S B]].
    assert (X : forall ws ci, In (ws, ci) base -> ci_username ci <> []).
    { intros k ci I.
      destruct B as [B | [[ws [_ B]] | [[ws [c [u [_ B]]]] | [ws B]]]];
        subst base.
      - exact (N k ci I).
      - apply in_set in I. destruct I as [I | I]; [|exact (N k ci I)].
        injection I as _ I. subst ci. discriminate.
      - apply in_set in I. destruct I as [I | I]; [|exact (N k ci I)].
        injection I as _ I. subst ci. apply or_else_nonempty. discriminate.
      - apply filter_In in I. exact (N k ci (proj1 I)). }
    intros k ci I. destruct S as [S | S]; rewrite S in I.
    + exact (X k ci I).
    + apply filter_In in I. exact (X k ci (proj1 I)).
  - destruct (handle_history e s i) as [H _]. rewrite H.
    destruct (Trace.accepted e s i) as [m|] eqn:A; [|exact W].
    intros x I. rewrite pushed_slice in I. apply in_slice_last in I.
    apply in_app_or in I. destruct I as [I | [I | []]]; [exact (W x I)|].
    subst x. exact (accepted_well_formed e s _ N A).
Qed.

Lemma constructor_consistent : Registry.consistent constructor.
Proof.
  split; [constructor|]. split; [intros ? ? [] | intros ? []].
Qed.

Lemma run_consistent (l : list (Env * Signal)) (s : Server) :
  Registry.consistent s -> Registry.consistent (fst (run l s)).
Proof.
  revert s. induction l as [|[e i] l IH]; intros s C; [exact C|].
  rewrite run_cons. cbn [fst]. apply IH. apply handle_consistent. exact C.
Qed.

(** Along any run from a fresh manager the registry holds one entry per
    connection and no session has an empty display name: the name is
    "Anonymous" from the connection on and a join replaces it by a
    username that is not empty or by "Anonymous". *)
Theorem registry_sessions_named (l : list (Env * Signal)) :
  let s := fst (run l constructor) in
  NoDup (JSMap.keys (clients s))
  /\ forall ws clientInfo,
       JSMap.get (clients s) ws = Some clientInfo ->
       ci_username clientInfo <> []
       /\ Trace.leaving s ws = ci_username clientInfo.
Proof.
  intros s. destruct (run_consistent l constructor_consistent) as [D [N _]].
  fold s in D, N. split; [exact D|]. intros ws ci G.
  pose proof (N ws ci (get_in _ _ G)) as X. split; [exact X|].
  unfold Trace.leaving. rewrite G. cbn [option_map].
  destruct (ci_username ci); [contradiction | reflexivity].
Qed.

(** Along any run from a fresh manager every record of the ring buffer
    has a sender name that is not empty and a body that is trimmed, not
    empty and at most 1000 characters long. *)
Theorem ring_buffer_records_well_formed (l : list (Env * Signal)) :
  Forall (fun m =>
            ChatMessage.username m <> []
            /\ trim (ChatMessage.message m) = ChatMessage.message m
            /\ 1 <= length (ChatMessage.message m) <= 1000)
         (messageHistory (fst (run l constructor))).
Proof.
  destruct (run_consistent l constructor_consistent) as [_ [_ W]].
  apply Forall_forall. exact W.
Qed.

Lemma handle_count (e : Env) (s : Server) (i : Signal) :
  Registry.getActiveConnections (state_of (handle i e s))
  <= Registry.getActiveConnections s
     + match i with Connection _ => 1 | _ => 0 end.
Proof.
  unfold Registry.getActiveConnections.
  destruct (handle_registry e s i) as [base [S B]].
  assert (X : length base
              <= length (clients s)
                 + match i with Connection _ => 1 | _ => 0 end).
  { destruct B as [B | [[ws [I B]] | [[ws [ci [u [G B]]]] | [ws B]]]];
      subst base.
    - lia.
    - subst i. rewrite length_set. destruct (JSMap.get _ _); lia.
    - rewrite length_set, G. lia.
    - pose proof (length_filter_le
                    (fun kv => negb (Nat.eqb ws (fst kv))) (clients s)).
      unfold JSMap.delete. lia. }
  destruct S as [S | S]; rewrite S; [exact X|].
  pose proof (length_filter_le (fun kv => isOpen e (fst kv)) base).
  unfold Trace.prune. lia.
Qed.

(** Only [handleConnection] adds entries to the registry: after any run
    from a fresh manager, [getActiveConnections()] is at most the number of
    connections accepted; joins and messages never raise it. *)
Theorem active_connections_bounded (l : list (Env * Signal)) :
  Registry.getActiveConnections (fst (run l constructor))
  <= Registry.connections l.
Proof.
  assert (G : forall s,
             Registry.getActiveConnections (fst (run l s))
             <= Registry.getActiveConnections s + Registry.connections l).
  { induction l as [|[e i] l IH]; intros s.
    - simpl. lia.
    - rewrite run_cons. cbn [fst].
      specialize (IH (state_of (handle i e s))).
      pose proof (handle_count e s i) as H.
      destruct i; cbn [Registry.connections]; lia. }
  specialize (G constructor). exact G.
Qed.

(* ------------------------------------------------------------------ *)
(** ** What each connection is delivered *)

Section Delivery.

Variable e : Env.
Implicit Types (cs : JSMap.t) (t : list Effect) (ws : nat).

Lemma delivered_app ws t1 t2 :
  ChatView.delivered ws (t1 ++ t2)
  = ChatView.delivered ws t1 ++ ChatView.delivered ws t2.
Proof.
  induction t1 as [|x t1 IH]; simpl; auto.
  destruct x; auto. destruct (Nat.eqb to ws); simpl; rewrite IH; auto.
Qed.

Lemma delivered_broadcast_absent (data : ServerEvent) ws cs :
  ~ In ws (JSMap.keys cs) ->
  ChatView.delivered ws (Trace.broadcast e data cs) = [].
Proof.
  induction cs as [|[k v] r IH]; simpl; auto. intros N.
  assert (K : Nat.eqb k ws = false) by (apply Nat.eqb_neq; tauto).
  destruct (isOpen e k); simpl; rewrite ?K; apply IH; tauto.
Qed.

(** One pass of the broadcast delivers the event once to a registered
    connection whose socket is open, and nothing to any other. *)
Lemma delivered_broadcast (data : ServerEvent) ws cs :
  NoDup (JSMap.keys cs) ->
  ChatView.delivered ws (Trace.broadcast e data cs)
  = if isOpen e ws
    then match JSMap.get cs ws with Some _ => [data] | None => [] end
    else [].
Proof.
  induction cs as [|[k v] r IH]; simpl; intros D.
  - destruct (isOpen e ws); reflexivity.
  - inversion D as [|a l X Y]; subst. rewrite (Nat.eqb_sym ws k).
    destruct (Nat.eqb k ws) eqn:K.
    + apply Nat.eqb_eq in K. subst k.
      destruct (isOpen e ws); simpl; rewrite ?Nat.eqb_refl;
        rewrite (@delivered_broadcast_absent data ws r X); reflexivity.
    + destruct (isOpen e k); simpl; rewrite ?K; apply IH; exact Y.
Qed.

End Delivery.

(** [broadcastMessage]: when the registry has one entry per connection,
    every registered connection whose socket is open is delivered the
    event, the same for all and once each; nothing goes to a connection
    that is not registered or whose socket is not open, and the entries of
    those are removed from the registry.  The ring buffer is not
    touched. *)
Theorem broadcastMessage_delivery
    (data : ServerEvent) (e : Env) (s : Server) :
  NoDup (JSMap.keys (clients s)) ->
  let r := broadcastMessage data e s in
  (forall ws,
     ChatView.delivered ws (trace_of r)
     = if isOpen e ws
       then match JSMap.get (clients s) ws with
            | Some _ => [data]
            | None => []
            end
       else [])
  /\ (forall ws,
        JSMap.get (clients (state_of r)) ws
        = if isOpen e ws then JSMap.get (clients s) ws else None)
  /\ Registry.getActiveConnections (state_of r)
     <= Registry.getActiveConnections s
  /\ messageHistory (state_of r) = messageHistory s.
Proof.
  intros D r. subst r. rewrite broadcastMessage_eq.
  unfold state_of, trace_of. cbn [fst snd clients messageHistory].
  split; [intros ws; apply delivered_broadcast; exact D|].
  split; [|split; [apply length_filter_le | reflexivity]].
  intros ws. destruct (isOpen e ws) eqn:O;
    [apply get_prune_open | apply get_prune_closed]; exact O.
Qed.

(** Applied: socket 1 is closing; a broadcast reaches connection 2 only
    and drops the entry of connection 1. *)
Lemma broadcastMessage_delivery_witness :
  let r := broadcastMessage (EvSystem (lit "hello") 3)
                            (Sample.closing 1 3) Sample.two_clients in
  ChatView.delivered 1 (trace_of r) = []
  /\ ChatView.delivered 2 (trace_of r) = [EvSystem (lit "hello") 3]
  /\ JSMap.get (clients (state_of r)) 1 = None.
Proof.
  assert (D : NoDup (JSMap.keys (clients Sample.two_clients))).
  { repeat constructor; simpl; intuition discriminate. }
  destruct (broadcastMessage_delivery (EvSystem (lit "hello") 3)
              (Sample.closing 1 3) Sample.two_clients D) as [A [B _]].
  split; [apply (A 1)|]. split; [apply (A 2) | apply (B 1)].
Defined.

(* ------------------------------------------------------------------ *)
(** ** Frames that are no request, and frames of unknown connections *)

Lemma eqb_neq (a b : jsstring) : a <> b -> JS.eqb a b = false.
Proof.
  intros N. destruct (JS.eqb a b) eqn:E; auto.
  apply eqb_eq in E. contradiction.
Qed.

(** A payload that does not parse, and a frame whose type is neither
    "join" nor "message", change nothing in the manager; the sender alone
    is told, "Invalid message format" for the first and "Unknown message
    type" for the second, when its socket is open. *)
Theorem protocol_errors_reported_to_sender
    (e : Env) (s : Server) (ws : nat) (data : option Frame) :
  (data = None
   \/ exists f, data = Some f
                /\ type f <> Some (lit "join")
                /\ type f <> Some (lit "message")) ->
  onMessage ws data e s
  = (tt, s,
     if isOpen e ws
     then [Send ws (EvError (match data with
                             | None => lit "Invalid message format"
                             | Some _ => lit "Unknown message type"
                             end))]
     else []).
Proof.
  intros [E | [f [E [J M]]]]; subst data; unfold onMessage.
  - apply sendError_eq.
  - unfold handleMessage. destruct (type f) as [ty|]; [|apply sendError_eq].
    rewrite (@eqb_neq ty (lit "join")) by congruence.
    rewrite (@eqb_neq ty (lit "message")) by congruence.
    apply sendError_eq.
Qed.

(** Applied: a frame of type "ping" from connection 1. *)
Lemma protocol_errors_reported_to_sender_witness :
  onMessage 1 (Some {| type := Some (lit "ping"); f_username := None;
                       f_message := None |})
            (Sample.offline 7) Sample.two_clients
  = (tt, Sample.two_clients,
     [Send 1 (EvError (lit "Unknown message type"))]).
Proof.
  apply (protocol_errors_reported_to_sender (Sample.offline 7)
           Sample.two_clients 1).
  right. eexists. split; [reflexivity|]. split; discriminate.
Defined.

(** A join or a message frame of a connection that has no entry in the
    registry (it was deleted by a disconnection or by the pruning of a
    broadcast) is dropped: nothing changes and nothing is sent, not even
    an error to the sender. *)
Theorem unregistered_frames_dropped
    (e : Env) (s : Server) (ws : nat) (f : Frame) :
  JSMap.get (clients s) ws = None ->
  type f = Some (lit "join") \/ type f = Some (lit "message") ->
  onMessage ws (Some f) e s = (tt, s, []).
Proof.
  intros G [T | T]; unfold onMessage, handleMessage; rewrite T.
  - replace (JS.eqb (lit "join") (lit "join")) with true by reflexivity.
    apply handleUserJoin_unregistered. exact G.
  - replace (JS.eqb (lit "message") (lit "join")) with false by reflexivity.
    replace (JS.eqb (lit "message") (lit "message")) with true
      by reflexivity.
    apply handleChatMessage_unregistered. exact G.
Qed.

(** Applied: connection 3 was never registered. *)
Lemma unregistered_frames_dropped_witness :
  onMessage 3 (Sample.say None (lit "hi")) (Sample.offline 7)
            Sample.two_clients
  = (tt, Sample.two_clients, []).
Proof.
  apply (unregistered_frames_dropped (Sample.offline 7) Sample.two_clients
           3); [reflexivity | right; reflexivity].
Defined.

(* ------------------------------------------------------------------ *)
(** ** Sessions across handlers *)

(** [handleChatMessage] never changes a session: the username of a
    message frame names the sender of that message only.  Whatever the
    frame (accepted, rejected, from an unknown connection), the registry
    entry of every connection whose socket is open is afterwards what it
    was before. *)
Theorem message_frame_keeps_sessions
    (e : Env) (s : Server) (ws k : nat)
    (username message : option jsstring) :
  isOpen e k = true ->
  JSMap.get (clients (state_of (handleChatMessage ws username message e s)))
            k
  = JSMap.get (clients s) k.
Proof.
  intros O. destruct (JSMap.get (clients s) ws) as [ci|] eqn:G.
  2:{ rewrite (handleChatMessage_unregistered e s ws _ _ G). reflexivity. }
  destruct (Trace.body_rejected message) eqn:B.
  - destruct (@handleChatMessage_rejected e s ws ci username G message B)
      as [text E].
    rewrite E. reflexivity.
  - destruct message as [body|]; [|discriminate B].
    rewrite (@handleChatMessage_accepted e s ws ci username G body B).
    unfold state_of. cbn [fst snd clients]. apply get_prune_open. exact O.
Qed.

(** Applied: alice sends a message under the name "mallory"; her session
    is still named "alice". *)
Lemma message_frame_keeps_sessions_witness :
  option_map ci_username
    (JSMap.get
       (clients (state_of (handleChatMessage 1 (Some (lit "mallory"))
                             (Some (lit "hi")) (Sample.offline 7)
                             Sample.two_clients))) 1)
  = Some (lit "alice").
Proof.
  rewrite (message_frame_keeps_sessions (Sample.offline 7)
             Sample.two_clients 1 1 (Some (lit "mallory"))
             (Some (lit "hi")) eq_refl).
  reflexivity.
Defined.

(** A connection need not join to chat: right after [handleConnection]
    its session is named "Anonymous", the other sessions and the ring
    buffer are untouched, and the handler of a message frame it sends
    without a username, with a body that passes the checks, pushes a record
    under the name "Anonymous", which ends the ring buffer afterwards, and
    sends it to every registered connection whose socket is open. *)
Theorem connection_chats_as_Anonymous
    (e e' : Env) (s : Server) (ws : nat) (body : jsstring) :
  ~ Trace.rejects (Some body) ->
  let s1 := state_of (handleConnection ws e s) in
  let m := {| ChatMessage.username := lit "Anonymous";
              ChatMessage.message := trim body;
              ChatMessage.timestamp := now e' |} in
  let r := handle (Data ws (Some {| type := Some (lit "message");
                                    f_username := None;
                                    f_message := Some body |})) e' s1 in
  JSMap.get (clients s1) ws
  = Some {| ci_username := lit "Anonymous"; connectedAt := now e |}
  /\ (forall k, k <> ws -> JSMap.get (clients s1) k = JSMap.get (clients s) k)
  /\ messageHistory s1 = messageHistory s
  /\ Trace.pushes (trace_of r) = [m]
  /\ (exists before, messageHistory (state_of r) = before ++ [m])
  /\ Trace.message_events (trace_of r)
     = List.map (fun kv => (fst kv, Trace.savedMessage e' m))
                (Trace.prune e' (clients s1))
  /\ In ws (List.map fst (clients s1)).
Proof.
  intros R s1 m r.
  assert (A : Trace.accepted e' s1
                (Data ws (Some {| type := Some (lit "message");
                                  f_username := None;
                                  f_message := Some body |}))
              = Some m).
  { subst s1 m. rewrite handleConnection_eq.
    unfold state_of, Trace.accepted.
    cbn [fst snd clients type f_message f_username].
    rewrite get_set_same.
    replace (JS.eqb (lit "message") (lit "message")) with true
      by reflexivity.
    rewrite (@not_rejects_body_rejected (Some body) R). reflexivity. }
  destruct (accepted_handled e' s1 _ A) as [P [H [M _]]].
  fold r in P, H, M.
  assert (G : JSMap.get (clients s1) ws
              = Some {| ci_username := lit "Anonymous";
                        connectedAt := now e |}).
  { subst s1. rewrite handleConnection_eq. unfold state_of.
    cbn [fst snd clients]. apply get_set_same. }
  split; [exact G|].
  split.
  { intros k N. subst s1. rewrite handleConnection_eq. unfold state_of.
    cbn [fst snd clients]. apply get_set_other; exact N. }
  split.
  { subst s1. rewrite handleConnection_eq. reflexivity. }
  split; [exact P|]. split; [exact H|]. split; [exact M|].
  revert G. generalize (clients s1). intros cs.
  induction cs as [|[k v] cs IH]; [discriminate|].
  cbn [JSMap.get List.map fst In].
  destruct (Nat.eqb ws k) eqn:K.
  - intros _. left. symmetry. apply Nat.eqb_eq. exact K.
  - intros G. right. apply IH. exact G.
Qed.

(** Applied: connection 3 connects and says "hi" at once; the three
    registered connections receive it under the name "Anonymous". *)
Lemma connection_chats_as_Anonymous_witness :
  let m := {| ChatMessage.username := lit "Anonymous";
              ChatMessage.message := lit "hi";
              ChatMessage.timestamp := 2 |} in
  let r := handle (Data 3 (Sample.say None (lit "hi"))) (Sample.offline 2)
             (state_of (handleConnection 3 (Sample.offline 1)
                          Sample.two_clients)) in
  Trace.pushes (trace_of r) = [m]
  /\ List.map fst (Trace.message_events (trace_of r)) = [1; 2; 3]
  /\ List.map snd (Trace.message_events (trace_of r)) = [m; m; m].
Proof.
  assert (R : ~ Trace.rejects (Some (lit "hi")))
    by (intros [H | H]; vm_compute in H; [discriminate | lia]).
  destruct (connection_chats_as_Anonymous (Sample.offline 1)
              (Sample.offline 2) Sample.two_clients 3 R)
    as [_ [_ [_ [P [_ [M _]]]]]].
  cbv zeta.
  split; [exact P|].
  split; [refine (eq_trans (f_equal (List.map fst) M) _)
         | refine (eq_trans (f_equal (List.map snd) M) _)];
    vm_compute; reflexivity.
Defined.

Lemma join_history_events (e : Env) (s : Server) (ws : nat)
      (clientInfo : ClientInfo) (username : option jsstring) :
  JSMap.get (clients s) ws = Some clientInfo ->
  Trace.history_events (trace_of (handleUserJoin ws username e s))
  = if isOpen e ws then [(ws, Trace.join_history e s)] else [].
Proof.
  intros G. rewrite (handleUserJoin_registered e s ws username G).
  unfold trace_of. cbn [snd].
  assert (X : forall t, Trace.history_events
                          ((if dbConnected e then [DbFind] else []) ++ t)
                        = Trace.history_events t)
    by (intros t; destruct (dbConnected e); reflexivity).
  rewrite X.
  destruct (isOpen e ws); cbn [app Trace.history_events];
    rewrite history_events_broadcast_system; reflexivity.
Qed.




(** In any state a run from a fresh manager reaches, the disconnection of
    a registered connection announces that the session's display name
    "left the chat" to every other registered connection whose socket is
    open, never to the connection that left, and removes its entry. *)
Theorem leave_names_the_session
    (l : list (Env * Signal)) (e : Env) (ws : nat)
    (clientInfo : ClientInfo) :
  let s := fst (run l constructor) in
  JSMap.get (clients s) ws = Some clientInfo ->
  let r := handle (Close ws) e s in
  Trace.system_events (trace_of r)
  = List.map (fun kv => (fst kv,
                         ci_username clientInfo ++ lit " left the chat"))
             (Trace.prune e (JSMap.delete (clients s) ws))
  /\ ~ In ws (List.map fst (Trace.system_events (trace_of r)))
  /\ JSMap.get (clients (state_of r)) ws = None.
Proof.
  intros s G r.
  destruct (run_consistent l constructor_consistent) as [_ [N _]].
  fold s in N. pose proof (N ws clientInfo (get_in _ _ G)) as X.
  destruct (@handleDisconnection_registered e s ws clientInfo G X) as [_ H].
  exact H.
Qed.

(** Applied: alice and bob are connected and joined; alice closes. *)
Lemma leave_names_the_session_witness :
  Trace.system_events
    (trace_of
       (handle (Close 1) (Sample.closing 1 9)
          (fst (run [(Sample.offline 1, Connection 1);
                     (Sample.offline 2, Connection 2);
                     (Sample.offline 3, Data 1 (Sample.join (lit "alice")));
                     (Sample.offline 4, Data 2 (Sample.join (lit "bob")))]
                    constructor))))
  = [(2, lit "alice left the chat")].
Proof.
  destruct (leave_names_the_session
              [(Sample.offline 1, Connection 1);
               (Sample.offline 2, Connection 2);
               (Sample.offline 3, Data 1 (Sample.join (lit "alice")));
               (Sample.offline 4, Data 2 (Sample.join (lit "bob")))]
              (Sample.closing 1 9) 1
              (clientInfo := {| ci_username := lit "alice";
                                connectedAt := 1 |}) eq_refl) as [A _].
  rewrite A. reflexivity.
Defined.

(* ------------------------------------------------------------------ *)
(** ** The ring buffer as the source of history *)




(* ------------------------------------------------------------------ *)
(** ** The schema of [models/Message.js] *)

Lemma cast_idempotent (m : ChatMessage) :
  Message.cast (Message.cast m) = Message.cast m.
Proof.
  unfold Message.cast. cbn [ChatMessage.username ChatMessage.message
                             ChatMessage.timestamp].
  rewrite !trim_idempotent. reflexivity.
Qed.

(** A document the store returned is stored unchanged when saved again:
    trimming and validation have nothing left to do or to refuse. *)
Theorem save_is_idempotent (m doc : ChatMessage) :
  Message.save_with false m = Some doc ->
  Message.save_with false doc = Some doc /\ Message.cast doc = doc.
Proof.
  unfold Message.save_with.
  destruct (Message.validate (Message.cast m)) eqn:V; [|discriminate].
  cbn [negb andb]. intros E. injection E as E. subst doc.
  rewrite cast_idempotent, V. cbn [negb andb]. split; reflexivity.
Qed.

(** Applied: the record with name [" bob "] is stored as ["bob"], and
    storing that again changes nothing. *)
Lemma save_is_idempotent_witness :
  Message.save_with false
    {| ChatMessage.username := lit "bob"; ChatMessage.message := lit "hi";
       ChatMessage.timestamp := 7 |}
  = Some {| ChatMessage.username := lit "bob";
            ChatMessage.message := lit "hi"; ChatMessage.timestamp := 7 |}.
Proof.
  apply (@save_is_idempotent
           {| ChatMessage.username := lit " bob ";
              ChatMessage.message := lit "hi";
              ChatMessage.timestamp := 7 |}).
  reflexivity.
Defined.

Lemma accepted_body (e : Env) (s : Server) (i : Signal) (m : ChatMessage) :
  Trace.accepted e s i = Some m ->
  trim (ChatMessage.message m) = ChatMessage.message m
  /\ 1 <= length (ChatMessage.message m) <= 1000.
Proof.
  unfold Trace.accepted.
  destruct i as [ws | ws [f|] | ws | ws]; try discriminate.
  destruct (type f) as [ty|]; [|discriminate].
  destruct (JSMap.get (clients s) ws) as [ci|]; [|discriminate].
  destruct (f_message f) as [body|]; [|discriminate].
  destruct (JS.eqb ty (lit "message")); [|discriminate].
  destruct (Trace.body_rejected (Some body)) eqn:B; [discriminate|].
  cbn [andb negb]. intros E. injection E as E. subst m.
  cbn [Trace.body_rejected] in B. apply orb_false_iff in B.
  destruct B as [B1 B2]. apply Nat.eqb_neq in B1. apply Nat.ltb_ge in B2.
  cbn [Trace.messageData ChatMessage.message].
  split; [apply trim_idempotent|]. pose proof (trim_length body). lia.
Qed.

(** The checks of [handleChatMessage] cover the schema's rules on the
    body.  The handler of an accepted frame pushes the record and, when the
    store is connected, hands it to the store; the schema keeps its body
    and timestamp as they are, and the write succeeds exactly when the
    sender name has 1 to 50 characters once trimmed.  With a store that
    runs the schema, the [message] events then carry the record as the
    schema casts it (the sender name trimmed); after a refused write they
    carry the record as the handler built it. *)
Theorem accepted_message_and_schema
    (e : Env) (s : Server) (i : Signal) (m : ChatMessage) :
  Trace.accepted e s i = Some m ->
  let r := handle i e s in
  let stored := dbConnected e = true /\ save e = Message.save_with false in
  Trace.pushes (trace_of r) = [m]
  /\ Trace.saves (trace_of r) = (if dbConnected e then [m] else [])
  /\ ChatMessage.message (Message.cast m) = ChatMessage.message m
  /\ ChatMessage.timestamp (Message.cast m) = ChatMessage.timestamp m
  /\ (1 <= length (trim (ChatMessage.username m)) <= 50 ->
      Message.save_with false m = Some (Message.cast m)
      /\ (stored ->
          Trace.message_events (trace_of r)
          = List.map (fun kv => (fst kv, Message.cast m))
                     (Trace.prune e (clients s))))
  /\ (~ 1 <= length (trim (ChatMessage.username m)) <= 50 ->
      Message.save_with false m = None
      /\ (stored ->
          Trace.message_events (trace_of r)
          = List.map (fun kv => (fst kv, m))
                     (Trace.prune e (clients s)))).
Proof.
  intros A r stored. destruct (accepted_body e s i A) as [T [L1 L2]].
  destruct (accepted_handled e s i A) as [P [_ [M S]]].
  fold r in P, M, S.
  split; [exact P|]. split; [exact S|].
  assert (V : Message.save_with false m
              = if negb (Nat.eqb (length (trim (ChatMessage.username m))) 0)
                   && Nat.leb (length (trim (ChatMessage.username m))) 50
                then Some (Message.cast m) else None).
  { unfold Message.save_with, Message.validate, Message.cast.
    cbn [ChatMessage.username ChatMessage.message ChatMessage.timestamp].
    rewrite T.
    assert (B1 : Nat.eqb (length (ChatMessage.message m)) 0 = false)
      by (apply Nat.eqb_neq; lia).
    assert (B2 : Nat.leb (length (ChatMessage.message m)) 1000 = true)
      by (apply Nat.leb_le; lia).
    rewrite B1, B2. cbn [negb andb]. rewrite !andb_true_r.
    destruct (Nat.eqb (length (trim (ChatMessage.username m))) 0);
      [reflexivity|].
    destruct (Nat.leb (length (trim (ChatMessage.username m))) 50);
      reflexivity. }
  split.
  { unfold Message.cast.
    cbn [ChatMessage.message]. exact T. }
  split; [reflexivity|].
  split.
  - intros [U1 U2].
    assert (C1 : Nat.eqb (length (trim (ChatMessage.username m))) 0 = false)
      by (apply Nat.eqb_neq; lia).
    assert (C2 : Nat.leb (length (trim (ChatMessage.username m))) 50 = true)
      by (apply Nat.leb_le; lia).
    rewrite C1, C2 in V. split; [exact V|].
    intros [C E]. rewrite M. unfold Trace.savedMessage.
    rewrite C, E, V. reflexivity.
  - intros U.
    assert (W : Message.save_with false m = None).
    { rewrite V.
      destruct (Nat.eqb (length (trim (ChatMessage.username m))) 0) eqn:C1;
        [reflexivity|].
      destruct (Nat.leb (length (trim (ChatMessage.username m))) 50) eqn:C2;
        [|reflexivity].
      apply Nat.eqb_neq in C1. apply Nat.leb_le in C2.
      exfalso. apply U. lia. }
    split; [exact W|].
    intros [C E]. rewrite M. unfold Trace.savedMessage.
    rewrite C, E, W. reflexivity.
Qed.

(** Applied: alice's message, with the store connected, is stored as
    built and sent so to both connections. *)
Lemma accepted_message_and_schema_witness :
  Trace.message_events
    (trace_of (handle (Data 1 (Sample.say None (lit "hi")))
                 (Sample.online 7 []) Sample.two_clients))
  = [(1, Sample.chat 7 (lit "hi")); (2, Sample.chat 7 (lit "hi"))].
Proof.
  destruct (@accepted_message_and_schema (Sample.online 7 [])
              Sample.two_clients (Data 1 (Sample.say None (lit "hi")))
              (Sample.chat 7 (lit "hi")) eq_refl) as [_ [_ [_ [_ [A _]]]]].
  destruct A as [_ A]; [vm_compute; split; lia|].
  refine (eq_trans (A (conj eq_refl eq_refl)) _).
  vm_compute. reflexivity.
Defined.

(* ------------------------------------------------------------------ *)
(** ** The client's frames meet the server *)

Lemma truthy_length (x : jsstring) :
  truthy (Some x) = negb (Nat.eqb (length x) 0).
Proof. destruct x; reflexivity. Qed.

(** What [sendMessage] sends, when it sends. *)
Lemma sendMessage_sends
    (username currentMessage : jsstring) (isConnected hasSocket throws : bool)
    (frame : Frame) :
  ChatView.sendMessage username currentMessage isConnected hasSocket throws
  = ChatView.Sends frame ->
  frame = {| type := Some (lit "message");
             f_username :=
               Some (or_else (Some (trim username)) (lit "Anonymous"));
             f_message := Some (trim currentMessage) |}
  /\ 1 <= length (trim currentMessage)
  /\ length currentMessage <= 1000.
Proof.
  unfold ChatView.sendMessage. rewrite truthy_length, negb_involutive.
  destruct (Nat.eqb (length (trim currentMessage)) 0) eqn:T;
    [discriminate|].
  destruct isConnected, hasSocket; try discriminate. cbn [negb orb].
  destruct (Nat.ltb 1000 (length currentMessage)) eqn:L; [discriminate|].
  destruct throws; [discriminate|].
  intros E. injection E as E. subst frame.
  apply Nat.eqb_neq in T. apply Nat.ltb_ge in L.
  split; [reflexivity | lia].
Qed.

(** A message frame with a sender name and a trimmed body within the
    limits is accepted from a registered connection, under that name. *)
Lemma named_frame_accepted
    (e : Env) (s : Server) (ws : nat) (clientInfo : ClientInfo)
    (name body : jsstring) :
  JSMap.get (clients s) ws = Some clientInfo ->
  name <> [] -> 1 <= length (trim body) -> length body <= 1000 ->
  Trace.accepted e s
    (Data ws (Some {| type := Some (lit "message");
                      f_username := Some name;
                      f_message := Some (trim body) |}))
  = Some {| ChatMessage.username := name;
            ChatMessage.message := trim body;
            ChatMessage.timestamp := now e |}.
Proof.
  intros G N L1 L2.
  unfold Trace.accepted. cbn [type f_message f_username]. rewrite G.
  replace (JS.eqb (lit "message") (lit "message")) with true by reflexivity.
  cbn [Trace.body_rejected]. rewrite trim_idempotent.
  pose proof (trim_length body) as B.
  assert (T : Nat.eqb (length (trim body)) 0 = false)
    by (apply Nat.eqb_neq; lia).
  assert (L' : Nat.ltb 1000 (length (trim body)) = false)
    by (apply Nat.ltb_ge; lia).
  rewrite T, L'. cbn [orb negb andb]. unfold Trace.messageData.
  rewrite trim_idempotent. f_equal. f_equal.
  destruct name; [contradiction | reflexivity].
Qed.

(** Every frame [sendMessage] of the client puts on the socket is a
    message frame that [handleMessage] accepts from a registered
    connection: its body is the trimmed input, which the two checks of
    [handleChatMessage] let through, and its sender name is the client's
    trimmed username, or "Anonymous" when that is empty, never the
    session's name.  The handler pushes that record, which ends the ring
    buffer afterwards, and sends it, as the store returned it, to every
    registered connection whose socket is open. *)
Theorem client_message_frames_accepted
    (username currentMessage : jsstring) (isConnected hasSocket throws : bool)
    (frame : Frame) (e : Env) (s : Server) (ws : nat)
    (clientInfo : ClientInfo) :
  ChatView.sendMessage username currentMessage isConnected hasSocket throws
  = ChatView.Sends frame ->
  JSMap.get (clients s) ws = Some clientInfo ->
  let m := {| ChatMessage.username :=
                or_else (Some (trim username)) (lit "Anonymous");
              ChatMessage.message := trim currentMessage;
              ChatMessage.timestamp := now e |} in
  let r := handle (Data ws (Some frame)) e s in
  Trace.pushes (trace_of r) = [m]
  /\ (exists before, messageHistory (state_of r) = before ++ [m])
  /\ Trace.message_events (trace_of r)
     = List.map (fun kv => (fst kv, Trace.savedMessage e m))
                (Trace.prune e (clients s))
  /\ or_else (Some (trim username)) (lit "Anonymous") <> []
  /\ length currentMessage <= 1000.
Proof.
  intros E G m r. apply sendMessage_sends in E. destruct E as [E [L1 L2]].
  assert (N : or_else (Some (trim username)) (lit "Anonymous") <> [])
    by (apply or_else_nonempty; discriminate).
  assert (A : Trace.accepted e s (Data ws (Some frame)) = Some m)
    by (subst frame; apply (@named_frame_accepted e s ws clientInfo);
        assumption).
  destruct (accepted_handled e s _ A) as [P [H [M _]]].
  fold r in P, H, M.
  split; [exact P|]. split; [exact H|]. split; [exact M|].
  split; [exact N | exact L2].
Qed.

(** Applied: the user "alice" types [" hi "]. *)
Lemma client_message_frames_accepted_witness :
  Trace.message_events
    (trace_of (handle (Data 1 (Sample.say (Some (lit "alice")) (lit "hi")))
                 (Sample.offline 7) Sample.two_clients))
  = [(1, Sample.chat 7 (lit "hi")); (2, Sample.chat 7 (lit "hi"))].
Proof.
  destruct (@client_message_frames_accepted (lit "alice") (lit " hi ")
              true true false
              {| type := Some (lit "message");
                 f_username := Some (lit "alice");
                 f_message := Some (lit "hi") |}
              (Sample.offline 7) Sample.two_clients 1
              (Sample.session (lit "alice")) eq_refl eq_refl)
    as [_ [_ [M _]]].
  refine (eq_trans M _). vm_compute. reflexivity.
Defined.

(** The join of [ws.onopen] names the session: when the client sends a
    join frame on opening, the server, for a registered connection whose
    socket is open, sets the display name to the client's trimmed username,
    which is not empty, so the fallback to "Anonymous" is not taken. *)
Theorem client_join_names_the_session
    (username : jsstring) (frame : Frame) (e : Env) (s : Server) (ws : nat)
    (clientInfo : ClientInfo) :
  ChatView.join_on_open username = Some frame ->
  JSMap.get (clients s) ws = Some clientInfo ->
  isOpen e ws = true ->
  trim username <> []
  /\ JSMap.get (clients (state_of (handle (Data ws (Some frame)) e s))) ws
     = Some {| ci_username := trim username;
               connectedAt := connectedAt clientInfo |}.
Proof.
  unfold ChatView.join_on_open.
  destruct (trim username) as [|c r] eqn:T; [discriminate|].
  cbn [truthy]. intros E G O. injection E as E. subst frame.
  split; [discriminate|].
  cbn [handle onMessage]. unfold handleMessage. cbn [type f_username].
  replace (JS.eqb (lit "join") (lit "join")) with true by reflexivity.
  rewrite (handleUserJoin_registered e s ws _ G).
  unfold state_of. cbn [fst snd clients].
  rewrite (get_prune_open e _ ws O), get_set_same. reflexivity.
Qed.

(** Applied: the client of connection 2 opens with the username
    [" carol "]. *)
Lemma client_join_names_the_session_witness :
  option_map ci_username
    (JSMap.get
       (clients (state_of (handle (Data 2 (Sample.join (lit "carol")))
                                  (Sample.offline 7) Sample.two_clients)))
       2)
  = Some (lit "carol").
Proof.
  destruct (@client_join_names_the_session (lit " carol ")
              {| type := Some (lit "join");
                 f_username := Some (lit "carol"); f_message := None |}
              (Sample.offline 7) Sample.two_clients 2
              (Sample.session (lit "bob")) eq_refl eq_refl eq_refl)
    as [_ A].
  unfold Sample.join. rewrite A. reflexivity.
Defined.

(** An accepted message is delivered once to every registered connection
    whose socket is open, the sender included, with the fields of the
    record the broadcast carries; no other event comes with it. *)
Theorem accepted_message_delivered_once
    (e : Env) (s : Server) (ws k : nat) (clientInfo : ClientInfo)
    (username : option jsstring) (body : jsstring) :
  NoDup (JSMap.keys (clients s)) ->
  JSMap.get (clients s) ws = Some clientInfo ->
  ~ Trace.rejects (Some body) ->
  ChatView.delivered k
    (trace_of (handleChatMessage ws username (Some body) e s))
  = if isOpen e k
    then match JSMap.get (clients s) k with
         | Some _ =>
             [Trace.as_event
                (Trace.savedMessage e
                   (Trace.messageData e clientInfo username body))]
         | None => []
         end
    else [].
Proof.
  intros D G R.
  rewrite (@handleChatMessage_accepted e s ws clientInfo username G body
             (@not_rejects_body_rejected (Some body) R)).
  unfold trace_of. cbn [snd]. rewrite delivered_app.
  cbn [ChatView.delivered].
  replace (ChatView.delivered k (if dbConnected e then _ else []))
    with (@nil ServerEvent) by (destruct (dbConnected e); reflexivity).
  cbn [app]. apply delivered_broadcast. exact D.
Qed.

(** Applied: alice's "hi" comes back to alice, once. *)
Lemma accepted_message_delivered_once_witness :
  ChatView.delivered 1
    (trace_of (handleChatMessage 1 None (Some (lit "hi"))
                                 (Sample.offline 7) Sample.two_clients))
  = [EvMessage (lit "alice") (lit "hi") 7].
Proof.
  assert (D : NoDup (JSMap.keys (clients Sample.two_clients))).
  { repeat constructor; simpl; intuition discriminate. }
  rewrite (@accepted_message_delivered_once (Sample.offline 7)
             Sample.two_clients 1 1 (Sample.session (lit "alice")) None
             (lit "hi") D eq_refl).
  - reflexivity.
  - intros [H | H]; vm_compute in H; [discriminate | lia].
Defined.

(* ------------------------------------------------------------------ *)
(** ** The client's message list *)

Section MessageList.

Variable toISOString : Z -> jsstring.

Lemma eqb_refl (a : jsstring) : JS.eqb a a = true.
Proof. apply eqb_eq. reflexivity. Qed.

(** The client shows a message event once: handling the same event again
    (same sender, text and timestamp, as when a user sends the same text
    twice within a millisecond) leaves the view as it is.  The first
    handling adds at most one entry, at the end, and keeps the error. *)
Theorem message_event_shown_once
    (clock clock' : jsstring) (u m : jsstring) (t : Z) (v : ChatView.View) :
  let v1 := ChatView.handleWebSocketMessage toISOString clock
              (EvMessage u m t) v in
  ChatView.handleWebSocketMessage toISOString clock' (EvMessage u m t) v1
  = v1
  /\ (ChatView.messages v1 = ChatView.messages v
      \/ ChatView.messages v1
         = ChatView.messages v
           ++ [{| ChatView.d_username := u; ChatView.d_message := m;
                  ChatView.d_timestamp := toISOString t;
                  ChatView.d_type := ChatView.KMessage |}])
  /\ ChatView.error v1 = ChatView.error v.
Proof.
  intros v1. subst v1. cbn [ChatView.handleWebSocketMessage].
  destruct (existsb (ChatView.same (toISOString t) u m)
                    (ChatView.messages v)) eqn:X.
  - rewrite X. auto.
  - cbn [ChatView.messages ChatView.error]. rewrite existsb_app.
    cbn [existsb]. unfold ChatView.same at 2.
    cbn [ChatView.d_timestamp ChatView.d_username ChatView.d_message].
    rewrite !eqb_refl, orb_true_r. cbn [andb orb]. auto.
Qed.

(** Without a history event the view only grows: the entries shown stay,
    in their order, and each event handled adds at most one entry after
    them. *)
Theorem view_only_appends
    (l : list (jsstring * ServerEvent)) (v : ChatView.View) :
  (forall clock msgs, ~ In (clock, EvHistory msgs) l) ->
  exists added,
    ChatView.messages (ChatView.receive toISOString l v)
    = ChatView.messages v ++ added
    /\ length added <= length l.
Proof.
  revert v. induction l as [|[clock data] l IH]; intros v N.
  - exists []. rewrite app_nil_r. split; [reflexivity | simpl; lia].
  - cbn [ChatView.receive].
    destruct (IH (ChatView.handleWebSocketMessage toISOString clock data v))
      as [added [E L]].
    { intros c msgs I. apply (N c msgs). right. exact I. }
    rewrite E.
    assert (S : exists one,
               ChatView.messages
                 (ChatView.handleWebSocketMessage toISOString clock data v)
               = ChatView.messages v ++ one /\ length one <= 1).
    { destruct data as [x | msgs | u m t | m t | m];
        cbn [ChatView.handleWebSocketMessage].
      - exists []. rewrite app_nil_r. auto.
      - exfalso. apply (N clock msgs). left. reflexivity.
      - destruct (existsb _ _).
        + exists []. rewrite app_nil_r. auto.
        + eexists. split; [reflexivity | simpl; lia].
      - eexists. split; [reflexivity | simpl; lia].
      - eexists. split; [reflexivity | simpl; lia]. }
    destruct S as [one [S L1]]. rewrite S, <- app_assoc.
    exists (one ++ added). split; [reflexivity|].
    rewrite length_app. cbn [length]. lia.
Qed.

End MessageList.

(** Applied: a system event, then the same chat message twice. *)
Lemma view_only_appends_witness :
  List.map ChatView.d_message
    (ChatView.messages
       (ChatView.receive (fun _ => lit "T")
          [(lit "c", EvSystem (lit "alice joined the chat") 1);
           (lit "c", EvMessage (lit "alice") (lit "hi") 2);
           (lit "c", EvMessage (lit "alice") (lit "hi") 2)]
          {| ChatView.messages := []; ChatView.error := None |}))
  = [lit "alice joined the chat"; lit "hi"].
Proof.
  destruct (@view_only_appends (fun _ => lit "T")
              [(lit "c", EvSystem (lit "alice joined the chat") 1);
               (lit "c", EvMessage (lit "alice") (lit "hi") 2);
               (lit "c", EvMessage (lit "alice") (lit "hi") 2)]
              {| ChatView.messages := []; ChatView.error := None |})
    as [added [E _]].
  - intros clock msgs [X | [X | [X | []]]]; discriminate X.
  - rewrite E. vm_compute in E. rewrite <- E. reflexivity.
Defined.

(* ------------------------------------------------------------------ *)
(** ** The client's reconnect attempts along any run *)

Section ReconnectBound.

Import ChatInterface.

Lemma delay_of_bounds (n : nat) : (1000 <= delay_of (S n) <= 10000)%Z.
Proof.
  unfold delay_of.
  assert (P : (1 <= 2 ^ (Z.of_nat (S n) - 1))%Z).
  { replace 1%Z with (2 ^ 0)%Z at 1 by reflexivity.
    apply Z.pow_le_mono_r; lia. }
  lia.
Qed.

Lemma delays_app (t1 t2 : list TimerCall) :
  delays (t1 ++ t2) = delays t1 ++ delays t2.
Proof.
  induction t1 as [|x t1 IH]; simpl; auto.
  destruct x; simpl; rewrite ?IH; reflexivity.
Qed.

Lemma on_step (ev : Event) (c : Client) :
  reconnectAttempts c <= maxReconnectAttempts ->
  reconnectAttempts (fst (on ev c)) <= maxReconnectAttempts
  /\ Forall (fun d => (1000 <= d <= 10000)%Z) (delays (snd (on ev c)))
  /\ (ev <> Open ->
      length (delays (snd (on ev c))) + reconnectAttempts c
      = reconnectAttempts (fst (on ev c))).
Proof.
  intros B. destruct ev as [| wasClean | id |]; cbn [on].
  - cbn. split; [unfold maxReconnectAttempts; lia|].
    split; [constructor | congruence].
  - unfold onclose.
    destruct (negb wasClean
              && Nat.ltb (reconnectAttempts c) maxReconnectAttempts) eqn:X.
    + apply andb_true_iff in X. destruct X as [_ X].
      apply Nat.ltb_lt in X. cbn. split; [lia|].
      split; [constructor; [apply delay_of_bounds | constructor]|].
      intros _. lia.
    + cbn. split; [exact B|]. split; [constructor | reflexivity].
  - unfold timer_fires. destruct (existsb _ _); cbn;
      (split; [exact B|]; split; [constructor | reflexivity]).
  - unfold cleanup. destruct (reconnectTimeoutRef c); cbn;
      (split; [exact B|]; split; [constructor | reflexivity]).
Qed.

(** Whatever the order of closures, openings, timer firings and cleanups,
    the attempt counter stays within 5 and every reconnect is scheduled
    after 1000 to 10000 ms; and as long as the socket does not open, at
    most 5 reconnects are scheduled in all, the attempts already made
    included. *)
Theorem reconnects_bounded (l : list Event) (c : Client) :
  reconnectAttempts c <= 5 ->
  let t := snd (ChatInterface.run l c) in
  reconnectAttempts (fst (ChatInterface.run l c)) <= 5
  /\ Forall (fun d => (1000 <= d <= 10000)%Z) (delays t)
  /\ (~ In Open l -> length (delays t) + reconnectAttempts c <= 5).
Proof.
  revert c. induction l as [|ev l IH]; intros c B t; subst t.
  - cbn. split; [exact B|]. split; [constructor | intros _; lia].
  - cbn [ChatInterface.run].
    destruct (@on_step ev c B) as [B1 [F1 L1]].
    destruct (on ev c) as [c1 t1] eqn:E. cbn [fst snd] in *.
    specialize (IH c1 B1). cbn zeta in IH. destruct IH as [B2 [F2 L2]].
    destruct (ChatInterface.run l c1) as [c2 t2]. cbn [fst snd] in *.
    rewrite delays_app. split; [exact B2|].
    split; [apply Forall_app; split; assumption|].
    intros N. rewrite length_app.
    assert (N1 : ev <> Open) by (intros X; apply N; left; exact X).
    assert (N2 : ~ In Open l) by (intros X; apply N; right; exact X).
    specialize (L1 N1). specialize (L2 N2). lia.
Qed.

(** Applied: from a mounted client, seven unclean closures interleaved
    with timer firings schedule five reconnects. *)
Lemma reconnects_bounded_witness :
  length (delays (snd (ChatInterface.run
                         [Closed false; Fires 1; Closed false; Closed false;
                          Fires 3; Closed false; Closed false; Closed false;
                          Closed false] mount)))
  <= 5.
Proof.
  destruct (@reconnects_bounded
              [Closed false; Fires 1; Closed false; Closed false;
               Fires 3; Closed false; Closed false; Closed false;
               Closed false] mount) as [_ [_ H]].
  - cbn. lia.
  - assert (X : ~ In Open
                  [Closed false; Fires 1; Closed false; Closed false;
                   Fires 3; Closed false; Closed false; Closed false;
                   Closed false]).
    { intros I. repeat (destruct I as [I | I]; [discriminate I|]).
      exact I. }
    specialize (H X). cbn [reconnectAttempts mount] in H. lia.
Defined.

End ReconnectBound.

(* ------------------------------------------------------------------ *)
(** ** The username form *)

Lemma allowed_not_ws (c : N) : UsernameForm.allowed c = true -> is_ws c = false.
Proof.
  unfold UsernameForm.allowed. rewrite !orb_true_iff, !andb_true_iff.
  rewrite !N.leb_le, !N.eqb_eq. intros H. unfold is_ws.
  assert (A : ((c <=? 13) = false)%N) by (apply N.leb_gt; lia).
  assert (B : ((8192 <=? c) = false)%N) by (apply N.leb_gt; lia).
  rewrite A, B, andb_false_r. cbn [andb orb].
  repeat match goal with
         | |- context [N.eqb c ?k] =>
             replace (N.eqb c k) with false
               by (symmetry; apply N.eqb_neq; lia)
         end.
  reflexivity.
Qed.

Lemma allowed_trimmed (name : jsstring) :
  forallb UsernameForm.allowed name = true -> trim name = name.
Proof.
  intros F. apply trim_no_ws. apply Forall_forall. intros c I.
  apply allowed_not_ws. rewrite forallb_forall in F. exact (F c I).
Qed.

(** What the form lets through. *)
Lemma handleSubmit_cases (username name : jsstring) :
  UsernameForm.handleSubmit username = UsernameForm.OnSubmit name <->
  name = trim username
  /\ 2 <= length name <= 20
  /\ forallb UsernameForm.allowed name = true.
Proof.
  unfold UsernameForm.handleSubmit, UsernameForm.test.
  rewrite truthy_length, negb_involutive.
  destruct (Nat.eqb (length (trim username)) 0) eqn:E0.
  { apply Nat.eqb_eq in E0. split; [discriminate|].
    intros [N [L _]]. subst name. lia. }
  destruct (Nat.ltb (length (trim username)) 2) eqn:E2.
  { apply Nat.ltb_lt in E2. split; [discriminate|].
    intros [N [L _]]. subst name. lia. }
  destruct (Nat.ltb 20 (length (trim username))) eqn:E20.
  { apply Nat.ltb_lt in E20. split; [discriminate|].
    intros [N [L _]]. subst name. lia. }
  apply Nat.ltb_ge in E2, E20. cbn [negb andb].
  destruct (forallb UsernameForm.allowed (trim username)) eqn:F;
    cbn [negb].
  - split.
    + intros X. injection X as X. subst name. auto.
    + intros [N _]. subst name. reflexivity.
  - split; [discriminate|]. intros [N [_ F']]. subst name. congruence.
Qed.

(** The form passes on exactly the trimmed input when it has 2 to 20
    characters, all of them letters, digits, underscores or hyphens; a name
    of 20 characters is accepted (the error text says "less than 20", the
    test is "at most 20"). *)
Theorem form_accepts_exactly (username name : jsstring) :
  UsernameForm.handleSubmit username = UsernameForm.OnSubmit name <->
  name = trim username
  /\ 2 <= length name <= 20
  /\ Forall (fun c => (97 <= c <= 122 \/ 65 <= c <= 90 \/ 48 <= c <= 57
                       \/ c = 95 \/ c = 45)%N) name.
Proof.
  rewrite handleSubmit_cases.
  assert (X : forallb UsernameForm.allowed name = true
              <-> Forall (fun c => (97 <= c <= 122 \/ 65 <= c <= 90
                                    \/ 48 <= c <= 57 \/ c = 95 \/ c = 45)%N)
                         name).
  { rewrite forallb_forall, Forall_forall.
    split; intros H c I; specialize (H c I); revert H;
      unfold UsernameForm.allowed;
      rewrite !orb_true_iff, !andb_true_iff, !N.leb_le, !N.eqb_eq; tauto. }
  rewrite X. tauto.
Qed.

(** A name the form passed on goes through the whole system unchanged:
    it is its own trimmed form, so it is the name of the client's join and
    message frames; for every message the client sends under it, the
    handler of the frame pushes a record under that name, which ends the
    ring buffer afterwards, and the schema returns that record as it is;
    so, with a store that runs the schema (or none connected), what is
    broadcast is what the ring buffer holds. *)
Theorem submitted_name_survives
    (input name currentMessage : jsstring) (frame : Frame)
    (e : Env) (s : Server) (ws : nat) (clientInfo : ClientInfo) :
  UsernameForm.handleSubmit input = UsernameForm.OnSubmit name ->
  ChatView.sendMessage name currentMessage true true false
  = ChatView.Sends frame ->
  JSMap.get (clients s) ws = Some clientInfo ->
  let m := {| ChatMessage.username := name;
              ChatMessage.message := trim currentMessage;
              ChatMessage.timestamp := now e |} in
  let r := handle (Data ws (Some frame)) e s in
  ChatView.join_on_open name
  = Some {| type := Some (lit "join"); f_username := Some name;
            f_message := None |}
  /\ f_username frame = Some name
  /\ Trace.pushes (trace_of r) = [m]
  /\ (exists before, messageHistory (state_of r) = before ++ [m])
  /\ Message.save_with false m = Some m
  /\ (dbConnected e = false \/ save e = Message.save_with false ->
      Trace.message_events (trace_of r)
      = List.map (fun kv => (fst kv, m)) (Trace.prune e (clients s))).
Proof.
  intros H E G m r. apply handleSubmit_cases in H.
  destruct H as [_ [[L1 L2] F]].
  pose proof (allowed_trimmed name F) as T.
  assert (N : name <> []) by (destruct name; [simpl in L1; lia | discriminate]).
  apply sendMessage_sends in E. destruct E as [E [B1 B2]].
  assert (O : or_else (Some name) (lit "Anonymous") = name)
    by (destruct name; [contradiction | reflexivity]).
  rewrite T, O in E.
  assert (A : Trace.accepted e s (Data ws (Some frame)) = Some m)
    by (subst frame; apply (@named_frame_accepted e s ws clientInfo);
        assumption).
  destruct (accepted_handled e s _ A) as [P [Hi [M _]]].
  fold r in P, Hi, M.
  assert (V : Message.save_with false m = Some m).
  { unfold Message.save_with, Message.cast, Message.validate. subst m.
    cbn [ChatMessage.username ChatMessage.message ChatMessage.timestamp].
    rewrite T, trim_idempotent.
    pose proof (trim_length currentMessage) as B.
    assert (C1 : Nat.eqb (length name) 0 = false) by (apply Nat.eqb_neq; lia).
    assert (C2 : Nat.leb (length name) 50 = true) by (apply Nat.leb_le; lia).
    assert (C3 : Nat.eqb (length (trim currentMessage)) 0 = false)
      by (apply Nat.eqb_neq; lia).
    assert (C4 : Nat.leb (length (trim currentMessage)) 1000 = true)
      by (apply Nat.leb_le; lia).
    rewrite C1, C2, C3, C4. reflexivity. }
  split.
  { unfold ChatView.join_on_open. rewrite T.
    destruct name; [contradiction | reflexivity]. }
  split; [subst frame; reflexivity|].
  split; [exact P|]. split; [exact Hi|]. split; [exact V|].
  intros D. rewrite M. unfold Trace.savedMessage.
  destruct D as [D | D]; [rewrite D; reflexivity|].
  rewrite D, V. destruct (dbConnected e); reflexivity.
Qed.

(** Applied: the user enters [" alice "] and then types [" hi "], the
    store connected. *)
Lemma submitted_name_survives_witness :
  let r := handle (Data 1 (Sample.say (Some (lit "alice")) (lit "hi")))
             (Sample.online 7 []) Sample.two_clients in
  Trace.message_events (trace_of r)
  = [(1, Sample.chat 7 (lit "hi")); (2, Sample.chat 7 (lit "hi"))]
  /\ messageHistory (state_of r) = [Sample.chat 7 (lit "hi")].
Proof.
  destruct (@submitted_name_survives (lit " alice ") (lit "alice")
              (lit " hi ")
              {| type := Some (lit "message");
                 f_username := Some (lit "alice");
                 f_message := Some (lit "hi") |}
              (Sample.online 7 []) Sample.two_clients 1
              (Sample.session (lit "alice")) eq_refl eq_refl eq_refl)
    as [_ [_ [_ [_ [_ M]]]]].
  cbv zeta. split.
  - refine (eq_trans (M (or_intror eq_refl)) _). vm_compute. reflexivity.
  - vm_compute. reflexivity.
Defined.

(* ------------------------------------------------------------------ *)
(** ** From the server's join to the client's list *)



(* ------------------------------------------------------------------ *)
(** ** The two halves of a suspended handler *)

Lemma finish_message_eq (e : Env) (s : Server)
      (messageData savedMessage : ChatMessage) :
  Interleaved.finish_message messageData savedMessage e s
  = (tt,
     {| clients := Trace.prune e (clients s);
        messageHistory := Trace.pushed (messageHistory s) messageData |},
     HistoryPush messageData
     :: Trace.broadcast e (Trace.as_event savedMessage) (clients s)).
Proof.
  unfold Interleaved.finish_message. run_handler. rewrite broadcastMessage_eq.
  reflexivity.
Qed.

Lemma finish_join_eq (e : Env) (s : Server) (ws : nat)
      (name : jsstring) (history : list ChatMessage) :
  Interleaved.finish_join ws name history e s
  = (tt,
     {| clients := Trace.prune e (clients s);
        messageHistory := messageHistory s |},
     (if isOpen e ws then [Send ws (EvHistory history)] else [])
     ++ Trace.broadcast e (EvSystem (name ++ lit " joined the chat") (now e))
                        (clients s)).
Proof.
  unfold Interleaved.finish_join. run_handler.
  destruct (isOpen e ws); rewrite broadcastMessage_eq; reflexivity.
Qed.

Section Halves.

Import Interleaved.

Variables (e : Env) (s : Server) (ws : nat).

Lemma resume_save_eq (messageData : ChatMessage) :
  resume_save messageData e s
  = (tt,
     {| clients := Trace.prune e (clients s);
        messageHistory := Trace.pushed (messageHistory s) messageData |},
     HistoryPush messageData
     :: Trace.broadcast e
          (Trace.as_event
             (match save e messageData with
              | Some doc => doc
              | None => messageData
              end))
          (clients s)).
Proof.
  unfold resume_save. unfold bind at 1. unfold ask at 1.
  rewrite finish_message_eq. reflexivity.
Qed.

(** A message handler that does not wait for the store is the whole
    [handleChatMessage]. *)
Lemma start_message_completes (username message : option jsstring) :
  JSMap.get (clients s) ws = None
  \/ Trace.body_rejected message = true
  \/ dbConnected e = false ->
  start_message ws username message e s
  = (None,
     state_of (handleChatMessage ws username message e s),
     trace_of (handleChatMessage ws username message e s)).
Proof.
  intros H.
  destruct (JSMap.get (clients s) ws) as [ci|] eqn:G.
  2:{ rewrite (handleChatMessage_unregistered e s ws _ _ G).
      unfold start_message. run_handler. rewrite G. reflexivity. }
  destruct (Trace.body_rejected message) eqn:B.
  { unfold handleChatMessage, start_message. run_handler.
    unfold state_of, trace_of. rewrite G.
    destruct message as [body|];
      [|destruct (isOpen e ws); reflexivity].
    rewrite truthy_trim. cbn [Trace.body_rejected] in B.
    destruct (Nat.eqb (length (trim body)) 0);
      [destruct (isOpen e ws); reflexivity|].
    cbn [orb] in B. rewrite B. destruct (isOpen e ws); reflexivity. }
  destruct message as [body|]; [|discriminate B].
  destruct H as [H | [H | H]]; [discriminate H | discriminate H |].
  rewrite (@handleChatMessage_accepted e s ws ci username G body B).
  unfold state_of, trace_of. cbn [fst snd]. rewrite H.
  unfold start_message. run_handler. rewrite G, truthy_trim.
  cbn [Trace.body_rejected] in B. apply orb_false_iff in B.
  destruct B as [B1 B2]. rewrite B1, B2, H, finish_message_eq.
  unfold Trace.savedMessage. rewrite H, app_nil_r. reflexivity.
Qed.

(** A message handler that waits for the store has handed it the record
    and done nothing else. *)
Lemma start_message_suspends (clientInfo : ClientInfo)
      (username : option jsstring) (body : jsstring) :
  JSMap.get (clients s) ws = Some clientInfo ->
  Trace.body_rejected (Some body) = false ->
  dbConnected e = true ->
  start_message ws username (Some body) e s
  = (Some (Saving (Trace.messageData e clientInfo username body)), s,
     [DbSave (Trace.messageData e clientInfo username body)]).
Proof.
  intros G B C. unfold start_message. run_handler.
  rewrite G, truthy_trim. cbn [Trace.body_rejected] in B.
  apply orb_false_iff in B. destruct B as [B1 B2].
  rewrite B1, B2, C. reflexivity.
Qed.

Lemma resume_find_eq (name : jsstring) :
  resume_find ws name e s
  = (tt,
     {| clients := Trace.prune e (clients s);
        messageHistory := messageHistory s |},
     (if isOpen e ws
      then [Send ws (EvHistory
                       (match Message.find_recent 50 e with
                        | Some recent => rev recent
                        | None => slice_last 50 (messageHistory s)
                        end))]
      else [])
     ++ Trace.broadcast e (EvSystem (name ++ lit " joined the chat") (now e))
                        (clients s)).
Proof.
  unfold resume_find. run_handler.
  destruct (Message.find_recent 50 e) as [recent|];
    rewrite ?map_fields, finish_join_eq; reflexivity.
Qed.

(** A join handler that does not wait for the store is the whole
    [handleUserJoin]. *)
Lemma start_join_completes (username : option jsstring) :
  JSMap.get (clients s) ws = None \/ dbConnected e = false ->
  start_join ws username e s
  = (None,
     state_of (handleUserJoin ws username e s),
     trace_of (handleUserJoin ws username e s)).
Proof.
  intros H.
  destruct (JSMap.get (clients s) ws) as [ci|] eqn:G.
  2:{ rewrite (handleUserJoin_unregistered e s ws username G).
      unfold start_join. run_handler. rewrite G. reflexivity. }
  destruct H as [H | H]; [discriminate H|].
  rewrite (handleUserJoin_registered e s ws username G).
  unfold state_of, trace_of. cbn [fst snd].
  unfold start_join. run_handler. rewrite G, H, finish_join_eq.
  unfold Trace.join_history. rewrite H, app_nil_r. reflexivity.
Qed.

Lemma start_join_suspends (clientInfo : ClientInfo)
      (username : option jsstring) :
  JSMap.get (clients s) ws = Some clientInfo ->
  dbConnected e = true ->
  start_join ws username e s
  = (Some (Finding ws),
     {| clients := JSMap.set (clients s) ws (Trace.joined clientInfo username);
        messageHistory := messageHistory s |},
     [DbFind]).
Proof.
  intros G C. unfold start_join. run_handler. rewrite G, C. reflexivity.
Qed.

End Halves.

(* ------------------------------------------------------------------ *)
(** ** One step of an interleaved run *)

Section InterleavedSteps.

Import Interleaved.

(** The arrival of a signal: its handler runs to its end, or it is a
    message handler suspended at the save, or a join handler suspended at
    the query; the last two only when the store is connected. *)
Lemma arrive_cases (e : Env) (i : Signal) (st : State) :
  let st' := fst (step (Arrive e i) st) in
  let t := snd (step (Arrive e i) st) in
  (server st' = state_of (handle i e (server st))
   /\ pending st' = pending st
   /\ t = trace_of (handle i e (server st)))
  \/ (dbConnected e = true
      /\ exists m,
           Trace.accepted e (server st) i = Some m
           /\ server st' = server st
           /\ objects st' = objects st
           /\ pending st' = pending st ++ [Saving m]
           /\ t = [DbSave m]
           /\ handle i e (server st)
              = (tt, state_of (resume_save m e (server st)),
                 DbSave m :: trace_of (resume_save m e (server st))))
  \/ (dbConnected e = true
      /\ exists ws name,
           Trace.accepted e (server st) i = None
           /\ messageHistory (server st') = messageHistory (server st)
           /\ option_map ci_username (JSMap.get (objects st') ws)
              = Some name
           /\ pending st' = pending st ++ [Finding ws]
           /\ t = [DbFind]
           /\ handle i e (server st)
              = (tt, state_of (resume_find ws name e (server st')),
                 DbFind :: trace_of (resume_find ws name e (server st')))).
Proof.
  destruct i as [ws | ws [f|] | ws | ws]; cbn [step handle onMessage].
  - left. destruct (handleConnection ws e (server st)) as [[u s'] t'].
    repeat split.
  - cbn zeta. destruct (type f) as [ty|] eqn:T.
    2:{ left. unfold handleMessage. rewrite T.
        destruct (sendError _ _ e (server st)) as [[u s'] t'].
        repeat split. }
    destruct (JS.eqb ty (lit "join")) eqn:J.
    { destruct (handle_join_frame e (server st) ws f T J) as [_ A].
      unfold handleMessage. rewrite T, J.
      destruct (JSMap.get (clients (server st)) ws) as [ci|] eqn:G.
      - destruct (dbConnected e) eqn:C.
        + right. right. split; [reflexivity|].
          exists ws, (or_else (f_username f) (lit "Anonymous")).
          rewrite (@start_join_suspends e (server st) ws ci
                     (f_username f) G C).
          cbn [suspend fst snd server objects pending messageHistory].
          rewrite get_set_same.
          split; [exact A|]. split; [reflexivity|]. split; [reflexivity|].
          split; [reflexivity|]. split; [reflexivity|].
          rewrite (handleUserJoin_registered e (server st) ws
                     (f_username f) G).
          rewrite resume_find_eq. unfold state_of, trace_of.
          cbn [fst snd clients messageHistory].
          unfold Trace.join_history. rewrite C. reflexivity.
        + left. rewrite start_join_completes by (right; exact C).
          cbn. repeat split.
      - left. rewrite start_join_completes by (left; exact G).
        cbn. repeat split. }
    destruct (JS.eqb ty (lit "message")) eqn:M.
    2:{ left. unfold handleMessage. rewrite T, J, M.
        destruct (sendError _ _ e (server st)) as [[u s'] t'].
        repeat split. }
    unfold handleMessage. rewrite T, J, M.
    destruct (JSMap.get (clients (server st)) ws) as [ci|] eqn:G.
    2:{ left. rewrite start_message_completes by (left; exact G).
        cbn. repeat split. }
    destruct (Trace.body_rejected (f_message f)) eqn:B.
    { left. rewrite start_message_completes by (right; left; exact B).
      cbn. repeat split. }
    destruct (dbConnected e) eqn:C.
    2:{ left. rewrite start_message_completes by (right; right; exact C).
        cbn. repeat split. }
    right. left. split; [reflexivity|].
    destruct (f_message f) as [body|] eqn:F; [|discriminate B].
    exists (Trace.messageData e ci (f_username f) body).
    rewrite (@start_message_suspends e (server st) ws ci (f_username f)
               body G B C).
    split; [unfold Trace.accepted; rewrite T, G, F, M, B; reflexivity|].
    cbn [suspend fst snd server objects pending].
    split; [reflexivity|]. split; [reflexivity|]. split; [reflexivity|].
    split; [reflexivity|].
    rewrite (@handleChatMessage_accepted e (server st) ws ci
               (f_username f) G body B).
    rewrite resume_save_eq. unfold state_of, trace_of, Trace.savedMessage.
    rewrite C. reflexivity.
  - left. destruct (sendError _ _ e (server st)) as [[u s'] t'].
    repeat split.
  - left. destruct (handleDisconnection ws e (server st)) as [[u s'] t'].
    repeat split.
  - left. destruct (handleDisconnection ws e (server st)) as [[u s'] t'].
    repeat split.
Qed.

Lemma saving_app (p q : list Task) : saving (p ++ q) = saving p ++ saving q.
Proof.
  induction p as [|[m | ws] p IH]; simpl; rewrite ?IH; reflexivity.
Qed.

Lemma remove_nth_cons (k : Task) (p : list Task) (n : nat) :
  remove_nth (S n) (k :: p) = k :: remove_nth n p.
Proof. reflexivity. Qed.

Lemma saving_remove_nth (p : list Task) (n : nat) :
  match nth_error p n with
  | Some (Saving m) => Permutation (saving p) (m :: saving (remove_nth n p))
  | _ => saving (remove_nth n p) = saving p
  end.
Proof.
  revert n. induction p as [|k p IH]; intros n.
  - destruct n; reflexivity.
  - destruct n as [|n].
    + cbn [nth_error]. destruct k; [apply Permutation_refl | reflexivity].
    + rewrite remove_nth_cons. cbn [nth_error]. specialize (IH n).
      destruct (nth_error p n) as [[m | ws]|].
      * destruct k as [m' | ws']; cbn [saving]; [|exact IH].
        apply (perm_trans (perm_skip m' IH)). apply perm_swap.
      * destruct k; cbn [saving]; rewrite IH; reflexivity.
      * destruct k; cbn [saving]; rewrite IH; reflexivity.
Qed.

(** One step: the ring buffer takes the pushes of the step, and the step
    either pushed what it accepted, or suspended what it accepted, or
    pushed the record of a handler it resumed. *)
Lemma step_cases (x : Step) (st : State) :
  let st' := fst (step x st) in
  let t := snd (step x st) in
  messageHistory (server st')
  = fold_left Trace.pushed (Trace.pushes t) (messageHistory (server st))
  /\ ((Trace.pushes t = accepted x st
       /\ saving (pending st') = saving (pending st))
      \/ (exists e i m,
            x = Arrive e i /\ dbConnected e = true
            /\ accepted x st = [m] /\ Trace.pushes t = []
            /\ saving (pending st') = saving (pending st) ++ [m])
      \/ (exists e n m,
            x = Settle e n /\ Trace.pushes t = [m]
            /\ Permutation (saving (pending st))
                           (m :: saving (pending st')))).
Proof.
  destruct x as [e i | e n].
  - destruct (arrive_cases e i st) as [[S [P T]] | [[C [m H]] | [C [ws H]]]];
      cbn zeta in *.
    + rewrite S, P, T. destruct (handle_history e (server st) i) as [H1 H2].
      rewrite H1, H2. cbn [accepted].
      destruct (Trace.accepted e (server st) i); split; auto.
    + destruct H as [A [S [_ [P [T _]]]]]. rewrite S, P, T.
      cbn [Trace.pushes].
      split; [reflexivity|]. right. left. exists e, i, m.
      cbn [accepted]. rewrite A, saving_app. auto.
    + destruct H as [name [A [S [_ [P [T _]]]]]]. rewrite S, P, T.
      cbn [Trace.pushes].
      split; [reflexivity|]. left. cbn [accepted]. rewrite A, saving_app.
      cbn [saving]. rewrite app_nil_r. auto.
  - cbn [step accepted].
    pose proof (saving_remove_nth (pending st) n) as R.
    destruct (nth_error (pending st) n) as [[m | ws]|].
    + rewrite resume_save_eq. cbn.
      rewrite pushes_broadcast. split; [reflexivity|].
      right. right. exists e, n, m. auto.
    + destruct (JSMap.get (objects st) ws) as [o|]; [|cbn; auto].
      rewrite resume_find_eq. cbn.
      rewrite pushes_app, pushes_broadcast.
      destruct (isOpen e ws); cbn; auto.
    + cbn. auto.
Qed.

End InterleavedSteps.

(* ------------------------------------------------------------------ *)
(** ** Interleaved runs *)

Section InterleavedRuns.

Import Interleaved.

Lemma interleaved_run_cons (x : Step) (l : list Step) (st : State) :
  run (x :: l) st
  = (fst (run l (fst (step x st))),
     snd (step x st) ++ snd (run l (fst (step x st)))).
Proof.
  cbn [run]. destruct (step x st) as [st1 t1]. cbn [fst snd].
  destruct (run l st1); reflexivity.
Qed.

(** Pushing one record after the other keeps the last 100. *)
Lemma fold_pushed (l h : list ChatMessage) :
  length h <= 100 ->
  fold_left Trace.pushed l h = slice_last 100 (h ++ l).
Proof.
  revert h. induction l as [|m l IH]; intros h L.
  - rewrite app_nil_r. symmetry. apply slice_last_short. exact L.
  - cbn [fold_left]. rewrite IH.
    + rewrite pushed_slice, slice_last_slice_app, <- app_assoc. reflexivity.
    + rewrite pushed_slice, slice_last_length. lia.
Qed.

(** The ring buffer changes by the pushes of the trace, in their order. *)
Lemma interleaved_run_history (l : list Step) (st : State) :
  messageHistory (server (fst (run l st)))
  = fold_left Trace.pushed (Trace.pushes (snd (run l st)))
              (messageHistory (server st)).
Proof.
  revert st. induction l as [|x l IH]; intros st; [reflexivity|].
  rewrite interleaved_run_cons. cbn [fst snd].
  destruct (step_cases x st) as [H _]. cbn zeta in H.
  rewrite pushes_app, fold_left_app, IH, H. reflexivity.
Qed.

(** Every accepted message is pushed once, or its save is still awaited:
    the accepted messages and the saves awaited at the start are the
    pushes and the saves awaited at the end. *)
Lemma interleaved_run_accounts (l : list Step) (st : State) :
  Permutation (accepted_log l st ++ saving (pending st))
              (Trace.pushes (snd (run l st))
               ++ saving (pending (fst (run l st)))).
Proof.
  revert st. induction l as [|x l IH]; intros st; [apply Permutation_refl|].
  rewrite interleaved_run_cons. cbn [fst snd accepted_log].
  specialize (IH (fst (step x st))).
  destruct (step_cases x st) as [_ [[P S] | [[e [i [m H]]] | [e [n [m H]]]]]];
    cbn zeta in *; rewrite pushes_app.
  - rewrite P, <- S, <- !app_assoc. apply Permutation_app_head. exact IH.
  - destruct H as [_ [_ [A [P S]]]]. rewrite A, P, S in *.
    cbn [app]. apply (fun X => Permutation_trans X IH).
    rewrite app_assoc. apply Permutation_cons_append.
  - destruct H as [X [P S]]. subst x. rewrite P. cbn [accepted app].
    apply (Permutation_trans
             (Permutation_app_head
                (accepted_log l (fst (step (Settle e n) st))) S)).
    apply Permutation_sym. apply (Permutation_trans (perm_skip m
             (Permutation_sym IH))).
    apply Permutation_middle.
Qed.

(** While the store is not connected no handler is suspended, and the
    pushes are the accepted messages in the order of their arrival. *)
Lemma unsuspended_run (l : list Step) (st : State) :
  unsuspended l -> saving (pending st) = [] ->
  Trace.pushes (snd (run l st)) = accepted_log l st
  /\ saving (pending (fst (run l st))) = [].
Proof.
  revert st. induction l as [|x l IH]; intros st U E; [split; auto|].
  rewrite interleaved_run_cons. cbn [fst snd accepted_log].
  rewrite pushes_app.
  destruct (step_cases x st) as [_ [[P S] | [[e [i [m H]]] | [e [n [m H]]]]]];
    cbn zeta in *.
  - assert (U' : unsuspended l) by (destruct x; cbn in U; tauto).
    destruct (IH (fst (step x st)) U') as [IH1 IH2]; [congruence|].
    rewrite P, IH1. auto.
  - destruct H as [X [C _]]. subst x. cbn in U. destruct U as [D _].
    congruence.
  - destruct H as [_ [_ S]]. rewrite E in S.
    apply Permutation_nil in S. discriminate.
Qed.

Lemma nth_error_snoc {A} (l : list A) (x : A) :
  nth_error (l ++ [x]) (length l) = Some x.
Proof. induction l; simpl; auto. Qed.

Lemma remove_nth_snoc (l : list Task) (x : Task) :
  remove_nth (length l) (l ++ [x]) = l.
Proof.
  induction l as [|a l IH]; [reflexivity|].
  cbn [length app]. rewrite remove_nth_cons, IH. reflexivity.
Qed.

(** A signal whose handler is resumed, if it was suspended, before
    anything else happens: the two steps do what [handle] does. *)
Lemma uninterrupted_step (e : Env) (i : Signal) (st : State) :
  let st1 := fst (step (Arrive e i) st) in
  let r := step (Settle e (length (pending st))) st1 in
  server (fst r) = state_of (handle i e (server st))
  /\ pending (fst r) = pending st
  /\ snd (step (Arrive e i) st) ++ snd r = trace_of (handle i e (server st)).
Proof.
  pose proof (arrive_cases e i st) as AC. cbn zeta in *.
  destruct (step (Arrive e i) st) as [st1 t1]. cbn [fst snd] in *.
  destruct AC as [[S [P T]] | [[C [m H]] | [C [ws [name H]]]]].
  - cbn [step]. rewrite P.
    rewrite (proj2 (nth_error_None (pending st) (length (pending st)))
                   (le_n _)).
    cbn [fst snd]. rewrite app_nil_r. auto.
  - destruct H as [_ [S [_ [P [T H]]]]]. cbn [step].
    rewrite P, nth_error_snoc, remove_nth_snoc, S, T, H.
    destruct (resume_save m e (server st)) as [[u s'] t'].
    unfold state_of, trace_of. cbn. auto.
  - destruct H as [_ [_ [O [P [T H]]]]]. cbn [step].
    rewrite P, nth_error_snoc, remove_nth_snoc, T, H.
    destruct (JSMap.get (objects st1) ws) as [ci|]; [|discriminate O].
    cbn [option_map] in O. injection O as O. rewrite O.
    destruct (resume_find ws name e (server st1)) as [[u s'] t'].
    unfold state_of, trace_of. cbn. auto.
Qed.

(** The runs of [WebSocketManager.run] are the interleaved runs in which
    nothing happens between the two halves of a handler. *)
Lemma uninterrupted_run (l : list (Env * Signal)) (st : State) :
  let steps := uninterrupted l (length (pending st)) in
  server (fst (run steps st)) = fst (WebSocketManager.run l (server st))
  /\ pending (fst (run steps st)) = pending st
  /\ snd (run steps st) = snd (WebSocketManager.run l (server st))
  /\ accepted_log steps st = Trace.accepted_log l (server st).
Proof.
  cbn zeta. revert st. induction l as [|[e i] l IH]; intros st.
  - repeat split; reflexivity.
  - cbn [uninterrupted]. rewrite !interleaved_run_cons, run_cons.
    cbn [fst snd accepted_log Trace.accepted_log accepted].
    destruct (uninterrupted_step e i st) as [S [P T]]. cbn zeta in *.
    specialize (IH (fst (step (Settle e (length (pending st)))
                              (fst (step (Arrive e i) st))))).
    rewrite P, S in IH. destruct IH as [IH1 [IH2 [IH3 IH4]]].
    rewrite IH1, IH2, IH3, IH4, app_assoc, T. cbn [app]. auto.
Qed.

(** The objects of the connections are never dropped. *)
Lemma step_objects (x : Step) (st : State) (k : Conn) :
  JSMap.get (objects st) k <> None ->
  JSMap.get (objects (fst (step x st))) k <> None.
Proof.
  intros O.
  assert (X : forall v ws, JSMap.get (JSMap.set (objects st) ws v) k <> None).
  { intros v ws. destruct (Nat.eq_dec k ws) as [E | N].
    - subst k. rewrite get_set_same. discriminate.
    - rewrite get_set_other by exact N. exact O. }
  assert (C : forall objs rest r,
             objects (fst (complete st objs rest r)) = objs)
    by (intros objs rest [[u s'] t']; reflexivity).
  assert (S : forall objs r, objects (fst (suspend st objs r)) = objs)
    by (intros objs [[u s'] t']; reflexivity).
  destruct x as [e [ws | ws [f|] | ws | ws] | e n]; cbn [step];
    rewrite ?C; auto.
  - destruct (type f) as [ty|]; [|rewrite C; exact O].
    destruct (JS.eqb ty (lit "join")).
    + rewrite S. destruct (JSMap.get (clients (server st)) ws); auto.
    + destruct (JS.eqb ty (lit "message")); rewrite ?S, ?C; exact O.
  - destruct (nth_error (pending st) n) as [[m | ws]|]; rewrite ?C; auto.
    destruct (JSMap.get (objects st) ws); rewrite ?C; auto.
Qed.

Lemma In_remove_nth (p : list Task) (n : nat) (k : Task) :
  In k (remove_nth n p) -> In k p.
Proof.
  unfold remove_nth. intros I. apply in_app_or in I.
  rewrite <- (firstn_skipn n p). apply in_or_app.
  destruct I as [I | I]; [left; exact I|].
  right. destruct (skipn n p) as [|a r] eqn:E.
  - replace (skipn (S n) p) with (skipn 1 (skipn n p)) in I
      by (rewrite skipn_skipn; reflexivity).
    rewrite E in I. exact I.
  - replace (skipn (S n) p) with (skipn 1 (skipn n p)) in I
      by (rewrite skipn_skipn; reflexivity).
    rewrite E in I. right. exact I.
Qed.

(** A suspended join finds the object of its connection when it is
    resumed: this holds in every state a run reaches. *)
Lemma step_finding_objects (x : Step) (st : State) :
  (forall k, In (Finding k) (pending st) ->
             JSMap.get (objects st) k <> None) ->
  forall k, In (Finding k) (pending (fst (step x st))) ->
            JSMap.get (objects (fst (step x st))) k <> None.
Proof.
  intros I k J.
  assert (Old : In (Finding k) (pending st) ->
                JSMap.get (objects (fst (step x st))) k <> None)
    by (intros H; apply step_objects, I, H).
  destruct x as [e i | e n].
  - destruct (arrive_cases e i st)
      as [[_ [P _]] | [[_ [m H]] | [_ [ws [name H]]]]]; cbn zeta in *.
    + apply Old. rewrite <- P. exact J.
    + destruct H as [_ [_ [_ [P _]]]]. rewrite P in J.
      apply in_app_or in J. destruct J as [J | [J | []]]; [|discriminate].
      apply Old, J.
    + destruct H as [_ [_ [O [P _]]]]. rewrite P in J.
      apply in_app_or in J. destruct J as [J | [J | []]]; [apply Old, J|].
      injection J as J. subst k.
      destruct (JSMap.get (objects (fst (step (Arrive e i) st))) ws);
        discriminate.
  - apply Old. revert J. cbn [step].
    assert (C : forall objs rest r,
               pending (fst (complete st objs rest r)) = rest)
      by (intros objs rest [[u s'] t']; reflexivity).
    destruct (nth_error (pending st) n) as [[m | ws]|]; rewrite ?C; auto.
    + apply In_remove_nth.
    + destruct (JSMap.get (objects st) ws); rewrite ?C; auto.
      apply In_remove_nth.
Qed.

Lemma run_finding_objects (l : list Step) (st : State) :
  (forall k, In (Finding k) (pending st) ->
             JSMap.get (objects st) k <> None) ->
  forall k, In (Finding k) (pending (fst (run l st))) ->
            JSMap.get (objects (fst (run l st))) k <> None.
Proof.
  revert st. induction l as [|x l IH]; intros st I; [exact I|].
  rewrite interleaved_run_cons. cbn [fst].
  apply IH. apply step_finding_objects. exact I.
Qed.

End InterleavedRuns.

(* ------------------------------------------------------------------ *)
(** ** C5: the ring buffer along a run *)

Section RingBuffer.

Import Interleaved.

(** C5, as the code has it.  After any sequence of arrivals of signals
    and settlements of the store, from a fresh manager, the ring buffer
    holds at most 100 entries, and they are the last 100 records pushed
    (all of them when fewer were pushed) in the order of the pushes: the
    pushed records are the evicted ones, oldest first, followed by the
    ring buffer.  Every accepted message is pushed once, when its handler
    reaches the push: the accepted messages are the pushed ones together
    with those whose save is still awaited.  The pushes are the accepted
    messages in the order of their arrival when no handler is suspended
    (the store is not connected), and when every suspended handler is
    resumed before the next signal arrives. *)
Theorem C5_ring_buffer_bound_and_order (steps : list Step) :
  let st := fst (run steps fresh) in
  let pushlog := Trace.pushes (snd (run steps fresh)) in
  let h := messageHistory (server st) in
  let log := accepted_log steps fresh in
  length h <= 100
  /\ h = slice_last 100 pushlog
  /\ length h = Nat.min 100 (length pushlog)
  /\ (exists evicted, pushlog = evicted ++ h)
  /\ Permutation log (pushlog ++ saving (pending st))
  /\ (unsuspended steps -> pushlog = log /\ h = slice_last 100 log)
  /\ (forall l, steps = uninterrupted l 0 ->
      pushlog = log /\ h = slice_last 100 log).
Proof.
  intros st pushlog h log.
  assert (E : h = slice_last 100 pushlog).
  { subst h st pushlog. rewrite interleaved_run_history.
    rewrite fold_pushed by (cbn; lia). reflexivity. }
  split; [rewrite E, slice_last_length; lia|].
  split; [exact E|].
  split; [rewrite E; apply slice_last_length|].
  split; [rewrite E; apply slice_last_suffix|].
  split.
  { pose proof (interleaved_run_accounts steps fresh) as P.
    cbn [fresh pending saving] in P. rewrite app_nil_r in P. exact P. }
  split.
  - intros U. destruct (unsuspended_run steps fresh U eq_refl) as [P _].
    fold pushlog log in P. rewrite <- P. auto.
  - intros l X.
    destruct (uninterrupted_run l fresh) as [_ [_ [T A]]].
    cbn zeta in T, A. cbn [fresh pending length] in T, A.
    rewrite <- X in T, A. fold log in A.
    destruct (run_history l constructor) as [_ P].
    assert (Q : pushlog = log).
    { subst pushlog. rewrite T, A.
      change (server fresh) with constructor. exact P. }
    rewrite <- Q. auto.
Qed.

(** C5 as the specification words it fails on the code: one connection
    sends "first" and then "second" while the store is connected, and the
    second save settles before the first.  Both handlers have completed;
    the ring buffer holds the two records in the order of the pushes, the
    later accepted first. *)
Lemma C5_counterexample :
  let steps :=
    [Arrive (Sample.online 0 []) (Connection 1);
     Arrive (Sample.online 1 []) (Data 1 (Sample.say None (lit "first")));
     Arrive (Sample.online 2 []) (Data 1 (Sample.say None (lit "second")));
     Settle (Sample.online 3 []) 1;
     Settle (Sample.online 4 []) 0] in
  let first := {| ChatMessage.username := lit "Anonymous";
                  ChatMessage.message := lit "first";
                  ChatMessage.timestamp := 1 |} in
  let second := {| ChatMessage.username := lit "Anonymous";
                   ChatMessage.message := lit "second";
                   ChatMessage.timestamp := 2 |} in
  let st := fst (run steps fresh) in
  pending st = []
  /\ accepted_log steps fresh = [first; second]
  /\ Trace.saves (snd (run steps fresh)) = [first; second]
  /\ messageHistory (server st) = [second; first]
  /\ messageHistory (server st)
     <> slice_last 100 (accepted_log steps fresh).
Proof. vm_compute. repeat split; try reflexivity. discriminate. Qed.

End RingBuffer.

(* ------------------------------------------------------------------ *)
(** ** C6: the history sent on a join *)

Section JoinHistory.

Import Interleaved.

Lemma resume_find_history (e : Env) (s : Server) (ws : Conn)
      (name : jsstring) :
  Trace.history_events (trace_of (resume_find ws name e s))
  = if isOpen e ws
    then [(ws, match Message.find_recent 50 e with
               | Some recent => rev recent
               | None => slice_last 50 (messageHistory s)
               end)]
    else [].
Proof.
  rewrite resume_find_eq. unfold trace_of. cbn [snd].
  destruct (isOpen e ws); cbn [app Trace.history_events];
    rewrite history_events_broadcast_system; reflexivity.
Qed.

(** C6, as the code has it.  A join frame from a registered connection
    arrives.  When the probe reports the store disconnected, the handler
    runs to its end: its only [history] event goes to the joining
    connection (it is sent when that socket is open) and carries the last
    50 entries of the ring buffer, in the buffer's order, hence oldest
    first whenever the buffer is.  When the probe reports it connected,
    the handler waits for the query and sends no [history] event yet; when
    the query settles, in whatever state the manager is then (the object of
    the connection is still at hand, as [run_finding_objects] shows of
    every state a run reaches), the only [history] event goes to the
    joining connection and has at most 50
    entries: the 50 most recent documents of the collection, oldest first
    (nothing left out is more recent than an entry), or, when the query
    throws, the last 50 entries of the ring buffer as it is then, in the
    buffer's order. *)
Theorem C6_history_on_join
    (e : Env) (st : State) (ws : Conn) (clientInfo : ClientInfo)
    (frame : Frame) :
  type frame = Some (lit "join") ->
  JSMap.get (clients (server st)) ws = Some clientInfo ->
  let arrival := step (Arrive e (Data ws (Some frame))) st in
  (dbConnected e = false ->
   let h := slice_last 50 (messageHistory (server st)) in
   Trace.history_events (snd arrival)
   = (if isOpen e ws then [(ws, h)] else [])
   /\ pending (fst arrival) = pending st
   /\ length h <= 50
   /\ (exists before, messageHistory (server st) = before ++ h)
   /\ (StronglySorted Trace.older (messageHistory (server st)) ->
       StronglySorted Trace.older h))
  /\ (dbConnected e = true ->
      Trace.history_events (snd arrival) = []
      /\ pending (fst arrival) = pending st ++ [Finding ws]
      /\ JSMap.get (objects (fst arrival)) ws <> None
      /\ forall (e' : Env) (st' : State) (n : nat),
           nth_error (pending st') n = Some (Finding ws) ->
           JSMap.get (objects st') ws <> None ->
           exists h,
             Trace.history_events (snd (step (Settle e' n) st'))
             = (if isOpen e' ws then [(ws, h)] else [])
             /\ length h <= 50
             /\ (findFails e' = false ->
                 h = rev (firstn 50 (Message.sort_desc (collection e')))
                 /\ StronglySorted Trace.older h
                 /\ exists left_out,
                      Permutation (collection e') (h ++ left_out)
                      /\ forall x y,
                           In x h -> In y left_out -> Trace.older y x)
             /\ (findFails e' = true ->
                 h = slice_last 50 (messageHistory (server st'))
                 /\ (exists before,
                       messageHistory (server st') = before ++ h)
                 /\ (StronglySorted Trace.older (messageHistory (server st'))
                     -> StronglySorted Trace.older h))).
Proof.
  intros T G arrival. subst arrival. cbn [step]. rewrite T.
  replace (JS.eqb (lit "join") (lit "join")) with true by reflexivity.
  rewrite G. split.
  - intros C. cbn zeta.
    rewrite start_join_completes by (right; exact C).
    cbn [suspend fst snd pending].
    fold (trace_of (handleUserJoin ws (f_username frame) e (server st))).
    rewrite (join_history_events e (server st) ws (f_username frame) G).
    unfold Trace.join_history. rewrite C.
    split; [reflexivity|]. split; [reflexivity|].
    apply buffer_tail.
  - intros C.
    rewrite (@start_join_suspends e (server st) ws clientInfo
               (f_username frame) G C).
    cbn [suspend fst snd pending objects Trace.history_events].
    split; [reflexivity|]. split; [reflexivity|].
    split; [rewrite get_set_same; discriminate|].
    intros e' st' n N O. cbn [step]. rewrite N.
    destruct (JSMap.get (objects st') ws) as [ci|]; [|contradiction].
    pose proof (resume_find_history e' (server st') ws (ci_username ci))
      as H.
    destruct (resume_find ws (ci_username ci) e' (server st'))
      as [[u s'] t'].
    unfold trace_of in H. cbn [complete fst snd] in *.
    unfold Message.find_recent in H.
    destruct (findFails e') eqn:F.
    + exists (slice_last 50 (messageHistory (server st'))).
      split; [exact H|].
      destruct (buffer_tail (messageHistory (server st')) 50)
        as [L [B S]].
      split; [exact L|]. split; [discriminate|]. intros _. auto.
    + exists (rev (firstn 50 (Message.sort_desc (collection e')))).
      split; [exact H|].
      destruct (recent_documents (collection e') 50) as [L [S R]].
      split; [exact L|]. split; [|discriminate]. intros _. auto.
Qed.

(** C6 applied: the store holds three documents, out of order; the
    joining connection receives them oldest first when the query
    settles. *)
Lemma C6_history_on_join_witness :
  let docs := [Sample.chat 2 (lit "b"); Sample.chat 3 (lit "c");
               Sample.chat 1 (lit "a")] in
  let st := {| server := Sample.two_clients;
               objects := clients Sample.two_clients;
               pending := [] |} in
  let st1 := fst (step (Arrive (Sample.online 9 docs)
                               (Data 1 (Sample.join (lit "alice")))) st) in
  Trace.history_events (snd (step (Settle (Sample.online 10 docs) 0) st1))
  = [(1, [Sample.chat 1 (lit "a"); Sample.chat 2 (lit "b");
          Sample.chat 3 (lit "c")])].
Proof.
  intros docs st st1.
  destruct (@C6_history_on_join (Sample.online 9 docs) st 1
              (Sample.session (lit "alice"))
              {| type := Some (lit "join");
                 f_username := Some (lit "alice");
                 f_message := None |} eq_refl eq_refl) as [_ D].
  destruct (D eq_refl) as [_ [_ [_ S]]].
  assert (O : JSMap.get (objects st1) 1 <> None)
    by (vm_compute; discriminate).
  destruct (S (Sample.online 10 docs) st1 0 eq_refl O)
    as [h [E [_ [F _]]]].
  destruct (F eq_refl) as [H _].
  rewrite E, H. reflexivity.
Defined.

(** C6 as the specification words it fails on the code: two messages
    are pushed in the order in which their saves settled, the later
    accepted first; the connection then joins while the probe reports the
    store disconnected, and the history it receives has the newer message
    first. *)
Lemma C6_counterexample :
  let steps :=
    [Arrive (Sample.online 0 []) (Connection 1);
     Arrive (Sample.online 1 []) (Data 1 (Sample.say None (lit "first")));
     Arrive (Sample.online 2 []) (Data 1 (Sample.say None (lit "second")));
     Settle (Sample.online 3 []) 1;
     Settle (Sample.online 4 []) 0;
     Arrive (Sample.offline 5) (Data 1 (Sample.join (lit "alice")))] in
  let first := {| ChatMessage.username := lit "Anonymous";
                  ChatMessage.message := lit "first";
                  ChatMessage.timestamp := 1 |} in
  let second := {| ChatMessage.username := lit "Anonymous";
                   ChatMessage.message := lit "second";
                   ChatMessage.timestamp := 2 |} in
  Trace.history_events (snd (run steps fresh)) = [(1, [second; first])]
  /\ ~ StronglySorted Trace.older [second; first].
Proof.
  cbv zeta. split; [vm_compute; reflexivity|].
  intros S. inversion S as [|a l _ F]. subst.
  inversion F as [|b k O _]. subst.
  unfold Trace.older in O. cbn in O. lia.
Qed.

End JoinHistory.
